(** * Deep Research API

    A shallow embedding of the task layer of [src/server.ts] (request
    validation with the schema of [src/types.ts], the task store, the
    completion handlers of a research run and the listing endpoint), and of
    the research core behind [deepResearch] as the specification describes
    it. *)

From Stdlib Require Import ZArith QArith List String Ascii Bool Lia.
From Stdlib Require Import Sorted Permutation DecimalString DecimalPos DecimalZ.
Import ListNotations.

Close Scope Q_scope.
Local Open Scope string_scope.
Local Open Scope list_scope.
Local Open Scope Z_scope.

Set Implicit Arguments.

(** ** JavaScript values

    A string of the program is a sequence of UTF-16 code units; the model
    keeps [string], one character per code unit, and only ever looks at
    the number of code units and at equality of strings.  *)

Module JS.

(** A number as [JSON.parse], [parseInt] and the arithmetic of the server
    produce it.  A finite double is a rational; the server only compares
    numbers, rounds quotients of small integers and tests integrality, and
    all of those are exact on doubles below 2^53. *)
Inductive number : Type :=
| NaN
| PosInfinity
| NegInfinity
| Finite (q : Q).

Definition of_Z (z : Z) : number := Finite (inject_Z z).

(** [Number.isInteger] *)
Definition isInteger (n : number) : bool :=
  match n with
  | Finite q => Qnum q mod Zpos (Qden q) =? 0
  | _ => false
  end.

(** [a < b] on numbers; any comparison with [NaN] is false. *)
Definition ltb (a b : number) : bool :=
  match a, b with
  | NaN, _ | _, NaN => false
  | _, NegInfinity => false
  | NegInfinity, _ => true
  | PosInfinity, _ => false
  | Finite _, PosInfinity => true
  | Finite x, Finite y => negb (Qle_bool y x)
  end.

(** The denotation of a number that is an integer. *)
Definition denotes (n : number) (z : Z) : Prop :=
  match n with
  | Finite q => Qeq q (inject_Z z)
  | _ => False
  end.

(** A value as it arrives in a parsed JSON body. [undefined] is not a JSON
    value: where the program may see it, the model has an [option]. *)
#[local] Unset Elimination Schemes.
Inductive value : Type :=
| Null
| Bool (b : bool)
| Num (n : number)
| Str (s : string)
| Arr (items : list value)
| Obj (props : list (string * value)).
#[local] Set Elimination Schemes.

(** [obj[key]] on the own properties of an object. *)
Fixpoint get (props : list (string * value)) (key : string) : option value :=
  match props with
  | [] => None
  | (k, v) :: rest => if String.eqb k key then Some v else get rest key
  end.

(** *** [parseInt(s)], no radix given. [None] is [NaN]. *)

Definition isWhiteSpace (c : ascii) : bool :=
  let n := N_of_ascii c in
  ((9 <=? n) && (n <=? 13) || (n =? 32) || (n =? 160))%N.

Fixpoint trimStart (s : string) : string :=
  match s with
  | String c rest => if isWhiteSpace c then trimStart rest else s
  | EmptyString => s
  end.

Definition digitValue (c : ascii) : option Z :=
  let n := Z.of_N (N_of_ascii c) in
  if (48 <=? n) && (n <=? 57) then Some (n - 48)
  else if (97 <=? n) && (n <=? 122) then Some (n - 87)
  else if (65 <=? n) && (n <=? 90) then Some (n - 55)
  else None.

(** The longest prefix of digits of the radix, read as a numeral; [acc] is
    the value of the digits read so far, [None] when there is none yet. *)
Fixpoint parseDigits (radix : Z) (acc : option Z) (s : string) : option Z :=
  match s with
  | EmptyString => acc
  | String c rest =>
      match digitValue c with
      | Some d =>
          if d <? radix
          then parseDigits radix
                 (Some (match acc with Some a => a * radix + d | None => d end))
                 rest
          else acc
      | None => acc
      end
  end.

Definition parseInt (input : option string) : option Z :=
  match input with
  | None => None
  | Some input =>
      let s := trimStart input in
      let '(negative, s) :=
        match s with
        | String "-" rest => (true, rest)
        | String "+" rest => (false, rest)
        | _ => (false, s)
        end in
      let '(radix, s) :=
        match s with
        | String "0" (String "x" rest) => (16, rest)
        | String "0" (String "X" rest) => (16, rest)
        | _ => (10, s)
        end in
      match parseDigits radix None s with
      | Some n => Some (if negative then - n else n)
      | None => None
      end
  end.

(** [n || d] on the result of [parseInt]: [NaN] and [0] are falsy. *)
Definition orDefault (n : option Z) (d : Z) : Z :=
  match n with
  | Some 0 | None => d
  | Some v => v
  end.

(** [Math.ceil(a / b)] for integers [a] and [b <> 0]. *)
Definition ceilDiv (a b : Z) : Z := - ((- a) / b).

(** [Array.prototype.slice(start, end)]: a negative index counts from the
    end of the array, and both ends are clamped to the array. *)
Definition clampIndex (len i : Z) : Z :=
  if i <? 0 then Z.max (len + i) 0 else Z.min i len.

Definition slice {A : Type} (l : list A) (start stop : Z) : list A :=
  let len := Z.of_nat (List.length l) in
  let k := clampIndex len start in
  let final := clampIndex len stop in
  firstn (Z.to_nat (final - k)) (skipn (Z.to_nat k) l).

(** [Array.prototype.sort(compare)] is stable.  [compare a b > 0] says that
    [a] goes after [b]; an element is put in front of the first element of
    the sorted rest that it need not go after, so equal elements keep
    their order. *)
Section Sort.
Context {A : Type} (compare : A -> A -> Z).

Fixpoint insertSorted (x : A) (l : list A) : list A :=
  match l with
  | [] => [x]
  | y :: rest =>
      if 0 <? compare x y then y :: insertSorted x rest else x :: l
  end.

Definition sort (l : list A) : list A :=
  fold_right insertSorted [] l.
End Sort.

(** *** [Map<string, V>]: keys in insertion order

    [values()] goes through the entries in the order in which their keys
    were first set, and the listing of the server depends on it, so the map
    is the list of its entries in that order. *)
Section Map.
Context {V : Type}.

Definition Map : Type := list (string * V).

Fixpoint mapGet (m : Map) (key : string) : option V :=
  match m with
  | [] => None
  | (k, v) :: rest => if String.eqb k key then Some v else mapGet rest key
  end.

(** [m.set(key, v)]: a known key keeps its place, a new key goes last. *)
Fixpoint mapSet (m : Map) (key : string) (v : V) : Map :=
  match m with
  | [] => [(key, v)]
  | (k, v') :: rest =>
      if String.eqb k key then (k, v) :: rest
      else (k, v') :: mapSet rest key v
  end.

Definition mapValues (m : Map) : list V := map snd m.
Definition mapSize (m : Map) : Z := Z.of_nat (List.length m).
End Map.
Arguments Map V : clear implicits.

End JS.

(** ** The request schema: zod, as [src/types.ts] uses it *)

Module Zod.

Inductive ZodParsedType : Type :=
| t_string | t_nan | t_number | t_integer | t_float | t_boolean
| t_undefined | t_null | t_array | t_object.

(** [None] is [undefined]. *)
Definition getParsedType (data : option JS.value) : ZodParsedType :=
  match data with
  | None => t_undefined
  | Some JS.Null => t_null
  | Some (JS.Bool _) => t_boolean
  | Some (JS.Num JS.NaN) => t_nan
  | Some (JS.Num _) => t_number
  | Some (JS.Str _) => t_string
  | Some (JS.Arr _) => t_array
  | Some (JS.Obj _) => t_object
  end.

Inductive ZodIssue : Type :=
| invalid_type (expected received : ZodParsedType) (path : list string)
| too_small (minimum : Z) (type : ZodParsedType) (path : list string)
| too_big (maximum : Z) (type : ZodParsedType) (path : list string).

(** The outcome of a schema on a datum: a value when no issue was raised,
    the issues otherwise. *)
Inductive ParseReturn (T : Type) : Type :=
| OK (value : T)
| INVALID (issues : list ZodIssue).
Arguments OK {T} value.
Arguments INVALID {T} issues.

Definition Schema (T : Type) : Type :=
  option JS.value -> list string -> ParseReturn T.

Definition issuesOf {T : Type} (r : ParseReturn T) : list ZodIssue :=
  match r with
  | OK _ => []
  | INVALID issues => issues
  end.

(** Every check of a schema runs; the datum is valid when none complained. *)
Definition checked {T : Type} (v : T) (issues : list ZodIssue) : ParseReturn T :=
  match issues with
  | [] => OK v
  | _ :: _ => INVALID issues
  end.

Inductive ZodStringCheck : Type :=
| min_length (n : Z)
| max_length (n : Z).

Definition stringCheck (s : string) (path : list string) (c : ZodStringCheck)
  : list ZodIssue :=
  match c with
  | min_length n =>
      if Z.of_nat (String.length s) <? n then [too_small n t_string path] else []
  | max_length n =>
      if n <? Z.of_nat (String.length s) then [too_big n t_string path] else []
  end.

(** [z.string()] with its checks *)
Definition ZodString (checks : list ZodStringCheck) : Schema string :=
  fun data path =>
    match data with
    | Some (JS.Str s) => checked s (flat_map (stringCheck s path) checks)
    | _ => INVALID [invalid_type t_string (getParsedType data) path]
    end.

Inductive ZodNumberCheck : Type :=
| int
| min (n : Z)
| max (n : Z).

Definition numberCheck (x : JS.number) (path : list string) (c : ZodNumberCheck)
  : list ZodIssue :=
  match c with
  | int => if JS.isInteger x then [] else [invalid_type t_integer t_float path]
  | min n => if JS.ltb x (JS.of_Z n) then [too_small n t_number path] else []
  | max n => if JS.ltb (JS.of_Z n) x then [too_big n t_number path] else []
  end.

(** [z.number()] with its checks; [NaN] is not of the number type. *)
Definition ZodNumber (checks : list ZodNumberCheck) : Schema JS.number :=
  fun data path =>
    match data with
    | Some (JS.Num JS.NaN) => INVALID [invalid_type t_number t_nan path]
    | Some (JS.Num x) => checked x (flat_map (numberCheck x path) checks)
    | _ => INVALID [invalid_type t_number (getParsedType data) path]
    end.

(** [inner.optional().default(d)]: the default schema puts [d] in the place
    of an undefined datum and hands the datum to the optional schema, which
    hands a defined datum to [inner]. *)
Definition optional_default {T : Type} (inner : Schema T) (d : JS.value)
  : Schema T :=
  fun data path =>
    match data with
    | None => inner (Some d) path
    | Some _ => inner data path
    end.

(** [schema.safeParse(data)]: [{ success: true, data }] or
    [{ success: false, error }] with the issues in [error.issues]. *)
Inductive SafeParseReturn (T : Type) : Type :=
| success (data : T)
| failure (issues : list ZodIssue).
Arguments success {T} data.
Arguments failure {T} issues.

Definition safeParse {T : Type} (schema : Schema T) (data : JS.value)
  : SafeParseReturn T :=
  match schema (Some data) [] with
  | OK v => success v
  | INVALID issues => failure issues
  end.

End Zod.

(** ** [src/types.ts] *)

Module ResearchRequest.
Record t : Type := Build
  { query : string;
    depth : JS.number;
    breadth : JS.number }.
End ResearchRequest.

(** The schemas of the three keys, then [z.object({ query, depth, breadth })]:
    the datum must be an object; each key of the shape is parsed, keys
    outside the shape are dropped, and the issues of all keys are collected. *)
Definition querySchema : Zod.Schema string :=
  Zod.ZodString [Zod.min_length 1; Zod.max_length 1000].

Definition levelSchema : Zod.Schema JS.number :=
  Zod.optional_default (Zod.ZodNumber [Zod.int; Zod.min 1; Zod.max 5])
    (JS.Num (JS.of_Z 3)).

Definition ResearchRequestSchema : Zod.Schema ResearchRequest.t :=
  fun data path =>
    match data with
    | Some (JS.Obj props) =>
        let query := querySchema (JS.get props "query") (path ++ ["query"]) in
        let depth := levelSchema (JS.get props "depth") (path ++ ["depth"]) in
        let breadth :=
          levelSchema (JS.get props "breadth") (path ++ ["breadth"]) in
        match query, depth, breadth with
        | Zod.OK q, Zod.OK d, Zod.OK b => Zod.OK (ResearchRequest.Build q d b)
        | _, _, _ =>
            Zod.INVALID
              (Zod.issuesOf query ++ Zod.issuesOf depth ++ Zod.issuesOf breadth)
        end
    | _ =>
        Zod.INVALID
          [Zod.invalid_type Zod.t_object (Zod.getParsedType data) path]
    end.

(** *** What the schema is said to accept

    The reading of the schema in words, to be compared with the schema
    itself: a body passes validation when it is an object whose [query] is a
    string of 1 to 1000 characters and whose [depth] and [breadth] are each
    absent or an integer from 1 to 5. *)

Definition isIntegerIn1to5 (x : JS.number) : bool :=
  match x with
  | JS.Finite q => existsb (fun n => Qeq_bool q (inject_Z n)) [1; 2; 3; 4; 5]
  | _ => false
  end.

Definition isValidQuery (v : option JS.value) : bool :=
  match v with
  | Some (JS.Str s) =>
      (1 <=? Z.of_nat (String.length s)) && (Z.of_nat (String.length s) <=? 1000)
  | _ => false
  end.

Definition isValidLevel (v : option JS.value) : bool :=
  match v with
  | None => true
  | Some (JS.Num x) => isIntegerIn1to5 x
  | Some _ => false
  end.

Definition passesValidation (reqBody : JS.value) : bool :=
  match reqBody with
  | JS.Obj props =>
      isValidQuery (JS.get props "query")
      && isValidLevel (JS.get props "depth")
      && isValidLevel (JS.get props "breadth")
  | _ => false
  end.

Inductive TaskStatus : Type := running | completed | failed.

Definition TaskStatus_eqb (a b : TaskStatus) : bool :=
  match a, b with
  | running, running | completed, completed | failed, failed => true
  | _, _ => false
  end.

(** The string a status is in the program. *)
Definition statusString (s : TaskStatus) : string :=
  match s with
  | running => "running"
  | completed => "completed"
  | failed => "failed"
  end.

Record ResearchProgress : Type :=
  { currentDepth : Z;
    totalDepth : Z;
    currentBreadth : Z;
    totalBreadth : Z;
    currentQuery : option string;
    totalQueries : Z;
    completedQueries : Z }.

(** [ResearchTask]; an optional field that is absent is [None].  The classes
    [ProgressManager] and [OutputManager] are imported from modules the
    server does not define: they are parameters. *)
Module ResearchTask.
Record t (ProgressManager OutputManager : Type) : Type := Build
  { id : string;
    query : string;
    depth : JS.number;
    breadth : JS.number;
    status : TaskStatus;
    error : option string;
    startTime : Z;
    endTime : option Z;
    results : option (list string);
    progress : option ProgressManager;
    output : option OutputManager }.
Arguments Build {ProgressManager OutputManager}.
End ResearchTask.

(** What a research run hands back when its promise is fulfilled. *)
Record ResearchResult : Type :=
  { learnings : list string;
    sources : list string }.

(** What a rejected promise carries: an [Error] with its message, or any
    other value, of which the handler takes [String(error)]. *)
Inductive Thrown : Type :=
| ErrorObject (message : string)
| OtherValue (asString : string).

(** [error instanceof Error ? error.message : String(error)] *)
Definition errorText (e : Thrown) : string :=
  match e with
  | ErrorObject message => message
  | OtherValue asString => asString
  end.

(** ** [src/server.ts]

    Each handler is a function of the task store and of what the handler
    reads from outside.  The constructors of the two managers and the call
    of [deepResearch] return (the latter a promise, settled later by an
    event of its own), so nothing in a handler's [try] block throws and the
    [catch] branches that answer 500 are left out. *)

Module Server.

(** [process.env] as far as the server reads it. *)
Record Env : Type :=
  { MAX_CONCURRENT_TASKS : option string }.

(** [process.env.MAX_CONCURRENT_TASKS ? parseInt(...) : 5]; the empty string
    is falsy; [None] is [NaN]. *)
Definition maxConcurrentTasks (env : Env) : option Z :=
  match MAX_CONCURRENT_TASKS env with
  | None | Some "" => Some 5
  | Some s => JS.parseInt (Some s)
  end.

(** [n >= max], false when [max] is [NaN]. *)
Definition geMax (n : Z) (max : option Z) : bool :=
  match max with
  | Some m => m <=? n
  | None => false
  end.

(** What a POST handler reads from the outside: [Date.now()] and
    [Math.random().toString(36).slice(2)] for the identifier, [new Date()]
    for the start time. *)
Record Reading : Type :=
  { dateNow : Z;
    random : string;
    newDate : Z }.

Definition decimal (z : Z) : string := NilZero.string_of_int (Z.to_int z).

Definition makeTaskId (io : Reading) : string :=
  ("task-" ++ decimal (dateNow io) ++ "-" ++ random io)%string.

(** The query string of [GET /research]. *)
Record ListQuery : Type :=
  { page : option string;
    limit : option string;
    status : option string }.

Section WithManagers.

Variables ProgressManager OutputManager : Type.
Variable ProgressManager_new : ProgressManager.
Variable OutputManager_new : OutputManager.
Variable ProgressManager_update :
  ProgressManager -> ResearchProgress -> ProgressManager.

Definition Task : Type := ResearchTask.t ProgressManager OutputManager.
Definition Tasks : Type := JS.Map Task.

(** The call [deepResearch({ query, depth, breadth, onProgress })]; its
    callbacks are closed over [taskId]. *)
Record ResearchCall : Type :=
  { call_taskId : string;
    call_query : string;
    call_depth : JS.number;
    call_breadth : JS.number }.

Inductive Body : Type :=
| InvalidRequest (details : list Zod.ZodIssue)
| TooManyConcurrentTasks (maximum : option Z)
| Started (taskId : string) (state : TaskStatus) (query : string)
    (depth breadth : JS.number)
| TaskNotFound
| TaskView (task : Task)
| TaskList (tasks : list Task) (page limit total pages : Z)
| Health (runningTasks total : Z) (maxConcurrent : option Z).

Record Response : Type :=
  { statusCode : Z;
    body : Body }.

(** [res.json(body)] answers 200. *)
Definition json (b : Body) : Response := {| statusCode := 200; body := b |}.

Definition isRunning (t : Task) : bool :=
  TaskStatus_eqb (ResearchTask.status t) running.

(** [Array.from(tasks.values()).filter(t => t.status === 'running').length] *)
Definition runningTasks (tasks : Tasks) : Z :=
  Z.of_nat (List.length (filter isRunning (JS.mapValues tasks))).

(** [app.get('/health')] *)
Definition getHealth (env : Env) (tasks : Tasks) : Response :=
  json (Health (runningTasks tasks) (JS.mapSize tasks) (maxConcurrentTasks env)).

(** [app.post('/research')]: the response, the task store afterwards and
    the research run that was started, if any. *)
Definition postResearch (env : Env) (tasks : Tasks) (reqBody : JS.value)
    (io : Reading) : Response * Tasks * option ResearchCall :=
  match Zod.safeParse ResearchRequestSchema reqBody with
  | Zod.failure issues =>
      ({| statusCode := 400; body := InvalidRequest issues |}, tasks, None)
  | Zod.success data =>
      if geMax (runningTasks tasks) (maxConcurrentTasks env)
      then ({| statusCode := 429;
               body := TooManyConcurrentTasks (maxConcurrentTasks env) |},
            tasks, None)
      else
        let query := ResearchRequest.query data in
        let depth := ResearchRequest.depth data in
        let breadth := ResearchRequest.breadth data in
        let taskId := makeTaskId io in
        let progress := ProgressManager_new in
        let output := OutputManager_new in
        let task : Task :=
          {| ResearchTask.id := taskId;
             ResearchTask.query := query;
             ResearchTask.depth := depth;
             ResearchTask.breadth := breadth;
             ResearchTask.status := running;
             ResearchTask.error := None;
             ResearchTask.startTime := newDate io;
             ResearchTask.endTime := None;
             ResearchTask.results := None;
             ResearchTask.progress := None;
             ResearchTask.output := None |} in
        (json (Started taskId running query depth breadth),
         JS.mapSet tasks taskId task,
         Some {| call_taskId := taskId; call_query := query;
                 call_depth := depth; call_breadth := breadth |})
  end.

(** The [onProgress] callback given to [deepResearch]. *)
Definition onProgress (taskId : string) (p : ResearchProgress) (tasks : Tasks)
  : Tasks :=
  match JS.mapGet tasks taskId with
  | Some task =>
      match ResearchTask.progress task with
      | Some manager =>
          JS.mapSet tasks taskId
            {| ResearchTask.id := ResearchTask.id task;
               ResearchTask.query := ResearchTask.query task;
               ResearchTask.depth := ResearchTask.depth task;
               ResearchTask.breadth := ResearchTask.breadth task;
               ResearchTask.status := ResearchTask.status task;
               ResearchTask.error := ResearchTask.error task;
               ResearchTask.startTime := ResearchTask.startTime task;
               ResearchTask.endTime := ResearchTask.endTime task;
               ResearchTask.results := ResearchTask.results task;
               ResearchTask.progress := Some (ProgressManager_update manager p);
               ResearchTask.output := ResearchTask.output task |}
      | None => tasks
      end
  | None => tasks
  end.

(** A task without a progress manager: the callback leaves it alone. *)
Definition noProgress (t : Task) : Prop := ResearchTask.progress t = None.

(** The [.then] handler of the promise of [deepResearch]. *)
Definition onFulfilled (taskId : string) (result : ResearchResult) (now : Z)
    (tasks : Tasks) : Tasks :=
  match JS.mapGet tasks taskId with
  | Some task =>
      JS.mapSet tasks taskId
        {| ResearchTask.id := ResearchTask.id task;
           ResearchTask.query := ResearchTask.query task;
           ResearchTask.depth := ResearchTask.depth task;
           ResearchTask.breadth := ResearchTask.breadth task;
           ResearchTask.status := completed;
           ResearchTask.error := ResearchTask.error task;
           ResearchTask.startTime := ResearchTask.startTime task;
           ResearchTask.endTime := Some now;
           ResearchTask.results := Some (learnings result);
           ResearchTask.progress := ResearchTask.progress task;
           ResearchTask.output := ResearchTask.output task |}
  | None => tasks
  end.

(** The [.catch] handler of the promise of [deepResearch]. *)
Definition onRejected (taskId : string) (error : Thrown) (now : Z)
    (tasks : Tasks) : Tasks :=
  match JS.mapGet tasks taskId with
  | Some task =>
      JS.mapSet tasks taskId
        {| ResearchTask.id := ResearchTask.id task;
           ResearchTask.query := ResearchTask.query task;
           ResearchTask.depth := ResearchTask.depth task;
           ResearchTask.breadth := ResearchTask.breadth task;
           ResearchTask.status := failed;
           ResearchTask.error := Some (errorText error);
           ResearchTask.startTime := ResearchTask.startTime task;
           ResearchTask.endTime := Some now;
           ResearchTask.results := ResearchTask.results task;
           ResearchTask.progress := ResearchTask.progress task;
           ResearchTask.output := ResearchTask.output task |}
  | None => tasks
  end.

(** [app.get('/research/:taskId')]: the task with [progress] kept only while
    it runs and [results] only once it is completed. *)
Definition getTask (tasks : Tasks) (taskId : string) : Response :=
  match JS.mapGet tasks taskId with
  | None => {| statusCode := 404; body := TaskNotFound |}
  | Some task =>
      json (TaskView
        {| ResearchTask.id := ResearchTask.id task;
           ResearchTask.query := ResearchTask.query task;
           ResearchTask.depth := ResearchTask.depth task;
           ResearchTask.breadth := ResearchTask.breadth task;
           ResearchTask.status := ResearchTask.status task;
           ResearchTask.error := ResearchTask.error task;
           ResearchTask.startTime := ResearchTask.startTime task;
           ResearchTask.endTime := ResearchTask.endTime task;
           ResearchTask.results :=
             if TaskStatus_eqb (ResearchTask.status task) completed
             then ResearchTask.results task else None;
           ResearchTask.progress :=
             if TaskStatus_eqb (ResearchTask.status task) running
             then ResearchTask.progress task else None;
           ResearchTask.output := ResearchTask.output task |})
  end.

(** [(a, b) => b.startTime.getTime() - a.startTime.getTime()] *)
Definition byStartTimeDesc (a b : Task) : Z :=
  ResearchTask.startTime b - ResearchTask.startTime a.

(** The tasks the optional [status] of the query string keeps; the empty
    string is falsy and filters nothing. *)
Definition matching (wanted : option string) (taskList : list Task) : list Task :=
  match wanted with
  | None | Some "" => taskList
  | Some s =>
      filter (fun t => String.eqb (statusString (ResearchTask.status t)) s)
        taskList
  end.

(** [app.get('/research')] *)
Definition listTasks (tasks : Tasks) (q : ListQuery) : Response :=
  let page := JS.orDefault (JS.parseInt (page q)) 1 in
  let limit := Z.min (JS.orDefault (JS.parseInt (limit q)) 10) 50 in
  let taskList := matching (status q) (JS.mapValues tasks) in
  let total := Z.of_nat (List.length taskList) in
  let pages := JS.ceilDiv total limit in
  let offset := (page - 1) * limit in
  let taskList :=
    JS.slice (JS.sort byStartTimeDesc taskList) offset (offset + limit) in
  json (TaskList taskList page limit total pages).

(** *** The server as a machine: what arrives, and what it does to the store *)

Inductive Event : Type :=
| POST_research (reqBody : JS.value) (io : Reading)
| GET_research_task (taskId : string)
| GET_research (q : ListQuery)
| GET_health
| Progress (taskId : string) (p : ResearchProgress)
| Fulfilled (taskId : string) (result : ResearchResult) (now : Z)
| Rejected (taskId : string) (error : Thrown) (now : Z).

Definition step (env : Env) (tasks : Tasks) (ev : Event) : Tasks :=
  match ev with
  | POST_research reqBody io => snd (fst (postResearch env tasks reqBody io))
  | GET_research_task _ | GET_research _ | GET_health => tasks
  | Progress taskId p => onProgress taskId p tasks
  | Fulfilled taskId result now => onFulfilled taskId result now tasks
  | Rejected taskId error now => onRejected taskId error now tasks
  end.

Definition respond (env : Env) (tasks : Tasks) (ev : Event) : option Response :=
  match ev with
  | POST_research reqBody io => Some (fst (fst (postResearch env tasks reqBody io)))
  | GET_research_task taskId => Some (getTask tasks taskId)
  | GET_research q => Some (listTasks tasks q)
  | GET_health => Some (getHealth env tasks)
  | Progress _ _ | Fulfilled _ _ _ | Rejected _ _ _ => None
  end.

(** The store after a sequence of events, from the empty store the server
    starts with. *)
Definition after (env : Env) (evs : list Event) : Tasks :=
  fold_left (step env) evs [].

End WithManagers.

Arguments noProgress {ProgressManager OutputManager} t.

End Server.

(** ** The research core behind [deepResearch]

    The module [./deep-research] that the server imports is not part of the
    sources at hand.  Its model follows the specification: the data model
    of its section 3, the contracts of 4.1 to 4.3 and 4.6, and the
    algorithm of the Recursion Controller in 4.4. *)

Module Core.

Record SubQuery : Type :=
  { text : string;
    researchGoal : string }.

Record Document : Type :=
  { documentText : string;
    sourceId : string }.

Record Finding : Type :=
  { findingLearnings : list string;
    followUpQuestions : list string }.

Definition emptyFinding : Finding :=
  {| findingLearnings := []; followUpQuestions := [] |}.

Definition emptyResult : ResearchResult :=
  {| learnings := []; sources := [] |}.

(** Where a call sits in the tree of a run: the indices, from the root, of
    the sub-queries and follow-up questions that lead to it.  The
    collaborators are given the place of each call, so that a run may see
    them answer the same question differently at different places. *)
Definition Path : Type := list nat.

(** Modelled from the spec: the Result Merger of 4.6, absent from the
    sources.  The elements of [l] that are not in [seen], each kept where it
    is seen first, compared as exact text. *)
Fixpoint firstSeen (seen l : list string) : list string :=
  match l with
  | [] => []
  | x :: rest =>
      if existsb (String.eqb x) seen then firstSeen seen rest
      else x :: firstSeen (x :: seen) rest
  end.

(** Modelled from the spec: [merge] of 4.6, absent from the sources: the
    union of all learnings, first-seen order preserved, and of all sources,
    without duplicates. *)
Definition merge (frameResults : list ResearchResult) : ResearchResult :=
  {| learnings := firstSeen [] (List.concat (map learnings frameResults));
     sources := firstSeen [] (List.concat (map sources frameResults)) |}.

(** Modelled from the spec: the narrowing of 4.4, step 3, absent from the
    sources: [max(1, floor(breadthRemaining / 2))]. *)
Definition narrow (breadthRemaining : nat) : nat :=
  Nat.max 1 (breadthRemaining / 2).

(** What the controller notes as it goes: a frame that is planned, a
    sub-query that is dispatched, a child frame that is spawned for a
    follow-up question. *)
Inductive Event : Type :=
| Planned (at_ : Path) (topic : string) (depthRemaining breadthRemaining : nat)
| Dispatched (at_ : Path) (query : SubQuery)
| Spawned (at_ : Path) (question : string) (depthRemaining breadthRemaining : nat).

Definition isSpawned (e : Event) : bool :=
  match e with
  | Spawned _ _ _ _ => true
  | _ => false
  end.

Definition isPlanned (e : Event) : bool :=
  match e with
  | Planned _ _ _ _ => true
  | _ => false
  end.

Definition isDispatched (e : Event) : bool :=
  match e with
  | Dispatched _ _ => true
  | _ => false
  end.

(** [f 0 x0; f 1 x1; ...], the index counted from [i]. *)
Fixpoint mapFrom {A B : Type} (i : nat) (f : nat -> A -> B) (l : list A) : list B :=
  match l with
  | [] => []
  | x :: rest => f i x :: mapFrom (S i) f rest
  end.

(** The outcome of the top-level call: the promise resolves with a result,
    or the call fails at once on its configuration. *)
Inductive Outcome : Type :=
| Resolved (result : ResearchResult)
| ConfigurationError.

Section Controller.

(** The three capabilities of section 6.  [None] is the typed failure of the
    contract: [PlanningFailure], [AdapterFailure], [ExtractionFailure]. *)
Variable plan : Path -> string -> list string -> nat -> option (list SubQuery).
Variable fetch : Path -> string -> option (list Document).
Variable extract : Path -> SubQuery -> list Document -> option Finding.

(** The normal form of a query text under which two sub-queries of a frame
    count as the same (case and white space). *)
Variable normalize : string -> string.

(** Modelled from the spec: the edge case of 4.4, absent from the sources: a
    sub-query whose text normalizes to one already seen among its siblings
    is dropped before dispatch. *)
Fixpoint dropRepeated (seen : list string) (queries : list SubQuery)
  : list SubQuery :=
  match queries with
  | [] => []
  | q :: rest =>
      if existsb (String.eqb (normalize (text q))) seen
      then dropRepeated seen rest
      else q :: dropRepeated (normalize (text q) :: seen) rest
  end.

(** Modelled from the spec: step 1 of 4.4, absent from the sources: the
    sub-queries a frame dispatches; a planner failure counts as no
    sub-query. *)
Definition planned (at_ : Path) (topic : string) (prior : list string)
    (breadthRemaining : nat) : list SubQuery :=
  match plan at_ topic prior breadthRemaining with
  | Some queries => dropRepeated [] queries
  | None => []
  end.

(** Modelled from the spec: the unit of work of 4.4, steps 2 and 3, absent
    from the sources: fetch, then extract; either failure is normalized to
    the empty Finding, with no source. *)
Definition unitOfWork (at_ : Path) (q : SubQuery) : Finding * list string :=
  match fetch at_ (text q) with
  | None => (emptyFinding, [])
  | Some documents =>
      match extract at_ q documents with
      | None => (emptyFinding, [])
      | Some finding => (finding, map sourceId documents)
      end
  end.

Definition contribution (found : Finding * list string) : ResearchResult :=
  {| learnings := findingLearnings (fst found); sources := snd found |}.

(** The contributions of the units of a frame at [at_], in the order of its
    sub-queries. *)
Definition ownOf (at_ : Path) (queries : list SubQuery) : list ResearchResult :=
  mapFrom 0 (fun i q => contribution (unitOfWork (at_ ++ [i]) q)) queries.

(** Modelled from the spec: the algorithm per frame of 4.4, absent from the
    sources.  A frame with no depth left is a leaf that plans nothing and
    returns what it was given.  Otherwise the frame is planned; each
    sub-query is dispatched as a unit of work; when more than one level
    remains, each follow-up question of a unit spawns a child frame one
    level down, with the narrowed breadth and with what the frame has
    accumulated along the way; the frame's result merges what it was given,
    the learnings of its units and the results of its child frames.  The
    function returns the result with the events, in the order in which a
    run that takes the sub-queries one after the other sees them. *)
Fixpoint frame (depthRemaining : nat) (at_ : Path) (topic : string)
    (breadthRemaining : nat) (accumulated : ResearchResult)
    {struct depthRemaining} : ResearchResult * list Event :=
  match depthRemaining with
  | O => (merge [accumulated], [])
  | S below =>
      let queries :=
        planned at_ topic (learnings accumulated) breadthRemaining in
      let units :=
        mapFrom 0
          (fun i q =>
             let here := at_ ++ [i] in
             let found := unitOfWork here q in
             let children :=
               if (1 <? depthRemaining)%nat
               then mapFrom 0
                      (fun j question =>
                         (Spawned (here ++ [j]) question below
                            (narrow breadthRemaining),
                          frame below (here ++ [j]) question
                            (narrow breadthRemaining)
                            (merge [accumulated; contribution found])))
                      (followUpQuestions (fst found))
               else [] in
             (Dispatched here q, contribution found, children))
          queries in
      let own := map (fun u => snd (fst u)) units in
      let fromChildren :=
        flat_map (fun u => map (fun c => fst (snd c)) (snd u)) units in
      let events :=
        flat_map
          (fun u =>
             fst (fst u)
             :: flat_map (fun c => fst c :: snd (snd c)) (snd u))
          units in
      (merge (accumulated :: own ++ fromChildren),
       Planned at_ topic depthRemaining breadthRemaining :: events)
  end.

(** Modelled from the spec: the entry call [run] of section 6, absent from
    the sources: depth and breadth outside 1..5 fail before any work is
    dispatched; otherwise the root frame runs on the query with the full
    budget and nothing accumulated. *)
Definition run (query : string) (maxDepth maxBreadth : Z)
  : Outcome * list Event :=
  if (1 <=? maxDepth) && (maxDepth <=? 5) && (1 <=? maxBreadth) && (maxBreadth <=? 5)
  then
    let r := frame (Z.to_nat maxDepth) [] query (Z.to_nat maxBreadth) emptyResult in
    (Resolved (fst r), snd r)
  else (ConfigurationError, []).

End Controller.

End Core.

(** ** Progress accounting of a run, in any order of completion

    The units of work of a run complete in no fixed order (section 5).  The
    machine below keeps what the accounting of 4.4 depends on, the frames
    that wait for their plan and the sub-queries that are in flight, each
    with the budget of its frame, and lets any of them go next. *)

Module Accounting.

Record Config : Type :=
  { waiting : list (nat * nat);
    inFlight : list (nat * nat);
    totalQueries : nat;
    completedQueries : nat;
    dispatched : nat;
    spawned : nat }.

(** What happens next in a run: the [i]-th waiting frame is planned and
    dispatches [n] sub-queries, or the [i]-th unit in flight completes, with
    the number of follow-up questions of its Finding when it succeeded and
    [None] when it failed. *)
Inductive Step : Type :=
| Plan (i n : nat)
| Complete (i : nat) (outcome : option nat).

(** A failure is normalized to the empty Finding: no follow-up question. *)
Definition followUps (outcome : option nat) : nat :=
  match outcome with
  | Some k => k
  | None => 0
  end.

Definition removeNth {A : Type} (i : nat) (l : list A) : list A :=
  firstn i l ++ skipn (S i) l.

Section Machine.

(** The specification has [totalQueries] grow as branches are discovered
    from the planner's output, and does not say by how much a plan raises
    it: [planWeight depth breadth n] is what a frame with that budget adds
    when its plan dispatches [n] sub-queries. *)
Variable planWeight : nat -> nat -> nat -> nat.

(** Modelled from the spec: the progress updates of 4.4, steps 1 to 3,
    absent from the sources.  A frame with no depth left plans nothing.  A
    completed unit, failed or not, adds one to [completedQueries]; when more
    than one level remains it spawns one child frame per follow-up
    question, one level down with the narrowed breadth, and [totalQueries]
    grows by the number of child frames spawned.  [dispatched] and
    [spawned] count the sub-queries dispatched and the child frames spawned
    so far; the machine does not read them. *)
Definition step (c : Config) (s : Step) : option Config :=
  match s with
  | Plan i n =>
      match nth_error (waiting c) i with
      | Some (O, _) =>
          Some {| waiting := removeNth i (waiting c);
                  inFlight := inFlight c;
                  totalQueries := totalQueries c;
                  completedQueries := completedQueries c;
                  dispatched := dispatched c;
                  spawned := spawned c |}
      | Some (depth, breadth) =>
          Some {| waiting := removeNth i (waiting c);
                  inFlight := inFlight c ++ repeat (depth, breadth) n;
                  totalQueries := totalQueries c + planWeight depth breadth n;
                  completedQueries := completedQueries c;
                  dispatched := dispatched c + n;
                  spawned := spawned c |}
      | None => None
      end
  | Complete i outcome =>
      match nth_error (inFlight c) i with
      | Some (depth, breadth) =>
          let children :=
            if (1 <? depth)%nat then followUps outcome else O in
          Some {| waiting :=
                    waiting c ++ repeat (Nat.pred depth, Core.narrow breadth) children;
                  inFlight := removeNth i (inFlight c);
                  totalQueries := totalQueries c + children;
                  completedQueries := completedQueries c + 1;
                  dispatched := dispatched c;
                  spawned := spawned c + children |}
      | None => None
      end
  end.

(** The run of a sequence of steps; [None] when a step names a frame or a
    unit that is not there. *)
Fixpoint exec (c : Config) (steps : list Step) : option Config :=
  match steps with
  | [] => Some c
  | s :: rest =>
      match step c s with
      | Some c' => exec c' rest
      | None => None
      end
  end.

End Machine.

(** The start of a run: the root frame waits for its plan. *)
Definition init (maxDepth maxBreadth : nat) : Config :=
  {| waiting := [(maxDepth, maxBreadth)];
     inFlight := [];
     totalQueries := 0;
     completedQueries := 0;
     dispatched := 0;
     spawned := 0 |}.

(** The top-level promise resolves when no frame waits and no unit is in
    flight. *)
Definition resolved (c : Config) : bool :=
  match waiting c, inFlight c with
  | [], [] => true
  | _, _ => false
  end.

(** The books balance: a sub-query that was dispatched is in flight or has
    been counted as completed, and [totalQueries] covers the sub-queries
    dispatched and the child frames spawned. *)
Definition balanced (c : Config) : Prop :=
  (completedQueries c + List.length (inFlight c) = dispatched c)%nat /\
  (dispatched c + spawned c <= totalQueries c)%nat.

(** No frame and no unit has more than one level left, and nothing was
    spawned. *)
Definition lastLevel (c : Config) : Prop :=
  Forall (fun f => (fst f <= 1)%nat) (waiting c) /\
  Forall (fun u => (fst u <= 1)%nat) (inFlight c) /\
  spawned c = O.

(** A plan counted as the number of sub-queries it dispatches. *)
Definition perSubQuery (depth breadth n : nat) : nat := n.

(** A plan counted as the sub-queries it dispatches beyond the first, which
    the spawning of its frame has counted already; the root frame, at
    [rootDepth], was not spawned and counts them all. *)
Definition beyondSpawn (rootDepth depth breadth n : nat) : nat :=
  if (depth <? rootDepth)%nat then Nat.pred n else n.

End Accounting.

(** ** Sample data for the examples below *)

Module Samples.
Import Server.

Definition env0 : Env := {| MAX_CONCURRENT_TASKS := None |}.

Definition reading (n : Z) : Reading :=
  {| dateNow := 1700000000000 + n;
     random := "k3x9";
     newDate := 1700000000000 + n |}.

Definition goodBody : JS.value := JS.Obj [("query", JS.Str "tides")].

Definition keep (m : unit) (p : ResearchProgress) : unit := m.

(** The store after five accepted requests, none of them settled. *)
Definition fiveRunning : Tasks unit unit :=
  after tt tt keep env0
    (map (fun n => POST_research goodBody (reading n)) [1; 2; 3; 4; 5]).

Definition firstCall : ResearchCall :=
  {| call_taskId := "task-1700000000001-k3x9";
     call_query := "tides";
     call_depth := JS.of_Z 3;
     call_breadth := JS.of_Z 3 |}.

Definition someProgress : ResearchProgress :=
  {| currentDepth := 1; totalDepth := 3; currentBreadth := 1;
     totalBreadth := 3; currentQuery := Some "tides";
     totalQueries := 3; completedQueries := 1 |}.

(** Stub collaborators: a planner that asks "A" and "B" at the root and
    nothing below, an adapter that finds one document, an extractor that
    draws one learning and one follow-up question from a sub-query, and an
    extractor that draws the same learning from every sub-query. *)
Definition stubPlan (at_ : Core.Path) (topic : string) (prior : list string)
    (maxQueries : nat) : option (list Core.SubQuery) :=
  match at_ with
  | [] => Some [ {| Core.text := "A"; Core.researchGoal := "first" |};
                 {| Core.text := "B"; Core.researchGoal := "second" |} ]
  | _ => Some []
  end.

Definition stubFetch (at_ : Core.Path) (query : string)
  : option (list Core.Document) :=
  Some [ {| Core.documentText := query; Core.sourceId := ("doc:" ++ query)%string |} ].

Definition failingFetch (at_ : Core.Path) (query : string)
  : option (list Core.Document) := None.

Definition stubExtract (at_ : Core.Path) (q : Core.SubQuery)
    (documents : list Core.Document) : option Core.Finding :=
  Some {| Core.findingLearnings := [("about " ++ Core.text q)%string];
          Core.followUpQuestions := [("more on " ++ Core.text q)%string] |}.

Definition sameExtract (at_ : Core.Path) (q : Core.SubQuery)
    (documents : list Core.Document) : option Core.Finding :=
  Some {| Core.findingLearnings := ["water is wet"];
          Core.followUpQuestions := [] |}.

Definition asIs (s : string) : string := s.

End Samples.

(** ** Readings of stores, answers and issues, for the statements below *)

Module Views.
Import Server.

(** The keys of a map, in its order. *)
Definition mapKeys {V : Type} (m : JS.Map V) : list string := map fst m.

(** The identifiers the POST requests of a sequence of events would give
    their tasks. *)
Definition postedIds (evs : list Event) : list string :=
  flat_map
    (fun ev =>
       match ev with
       | POST_research _ io => [makeTaskId io]
       | _ => []
       end)
    evs.

(** The [tasks] of the answer of a listing. *)
Definition listedTasks {ProgressManager OutputManager : Type}
    (r : Response ProgressManager OutputManager)
  : list (Task ProgressManager OutputManager) :=
  match body r with
  | TaskList taskList _ _ _ _ => taskList
  | _ => []
  end.

(** The [pagination] of the answer of a listing: page, limit, total,
    pages. *)
Definition pagination {ProgressManager OutputManager : Type}
    (r : Response ProgressManager OutputManager) : option (Z * Z * Z * Z) :=
  match body r with
  | TaskList _ page limit total pages => Some (page, limit, total, pages)
  | _ => None
  end.

(** The stored tasks that a status filter keeps, most recent first: what
    the pages of a listing are cut from. *)
Definition sortedMatching {ProgressManager OutputManager : Type}
    (tasks : Tasks ProgressManager OutputManager) (wanted : option string)
  : list (Task ProgressManager OutputManager) :=
  JS.sort (@byStartTimeDesc ProgressManager OutputManager)
    (matching wanted (JS.mapValues tasks)).

(** The path of an issue. *)
Definition issuePath (i : Zod.ZodIssue) : list string :=
  match i with
  | Zod.invalid_type _ _ path => path
  | Zod.too_small _ _ path => path
  | Zod.too_big _ _ path => path
  end.

(** What a key of the shape contributes to the issues: nothing when its
    datum is valid, and otherwise at least one issue, all at its path. *)
Definition fieldOutcome (issues : list Zod.ZodIssue) (path : list string)
    (valid : bool) : Prop :=
  (valid = true /\ issues = []) \/
  (valid = false /\ issues <> [] /\ Forall (fun i => issuePath i = path) issues).

(** The number of tasks of a list that run. *)
Definition countRunning {ProgressManager OutputManager : Type}
    (l : list (Task ProgressManager OutputManager)) : nat :=
  List.length (filter (@isRunning ProgressManager OutputManager) l).

(** No character of the string is a hyphen. *)
Fixpoint dashFree (s : string) : bool :=
  match s with
  | EmptyString => true
  | String c rest => negb (Ascii.eqb c "-") && dashFree rest
  end.

(** One for a task that runs, none for another. *)
Definition runs {ProgressManager OutputManager : Type}
    (t : Task ProgressManager OutputManager) : nat :=
  if isRunning t then 1%nat else 0%nat.

(** Every entry of the store sits under the identifier of its task. *)
Definition keyedById {ProgressManager OutputManager : Type}
    (tasks : Tasks ProgressManager OutputManager) : Prop :=
  Forall (fun entry => ResearchTask.id (snd entry) = fst entry) tasks.

Definition envWith (value : string) : Env :=
  {| MAX_CONCURRENT_TASKS := Some value |}.

End Views.

(** ** The earlier server kept in [src/server.ts]

    The sources keep an earlier revision of the server, built on the class
    [DeepResearch].  That class and the two managers are imported from
    modules that are not at hand: they are parameters, and their
    constructors and getters return. *)

Module Legacy.

(** [!!v]: [undefined], [null], [false], [0], [NaN] and [""] are falsy. *)
Definition truthy (v : option JS.value) : bool :=
  match v with
  | None => false
  | Some JS.Null => false
  | Some (JS.Bool b) => b
  | Some (JS.Num JS.NaN) => false
  | Some (JS.Num (JS.Finite q)) => negb (Qeq_bool q 0)
  | Some (JS.Num _) => true
  | Some (JS.Str "") => false
  | Some (JS.Str _) => true
  | Some (JS.Arr _) | Some (JS.Obj _) => true
  end.

(** [body[key]] for a body that is not [null]: a key of an object, and
    [undefined] on an array or a primitive for the keys read here. *)
Definition property (reqBody : JS.value) (key : string) : option JS.value :=
  match reqBody with
  | JS.Obj props => JS.get props key
  | _ => None
  end.

(** [const { key = d } = ...]: the default stands in for [undefined]
    only. *)
Definition orElse (v : option JS.value) (d : JS.value) : JS.value :=
  match v with
  | Some given => given
  | None => d
  end.

(** [`task-${Date.now()}`] *)
Definition makeTaskId (dateNow : Z) : string :=
  ("task-" ++ Server.decimal dateNow)%string.

(** [status || 'running'] *)
Definition shownStatus (status : option string) : string :=
  match status with
  | None | Some "" => "running"
  | Some s => s
  end.

(** [error.message] of what a rejected promise carries: the message of an
    [Error], [undefined] on another value that is not [null] or
    [undefined]. *)
Definition messageOf (e : Thrown) : option string :=
  match e with
  | ErrorObject message => Some message
  | OtherValue _ => None
  end.

Section WithClasses.

Variables DeepResearch ProgressManager OutputManager Progress Output : Type.

(** The options given to [new DeepResearch(...)]. *)
Record Options : Type :=
  { query : JS.value;
    maxDepth : JS.value;
    maxBreadth : JS.value;
    progressManager : ProgressManager;
    outputManager : OutputManager }.

Variable DeepResearch_new : Options -> DeepResearch.
Variable ProgressManager_new : ProgressManager.
Variable OutputManager_new : OutputManager.
Variable getProgress : ProgressManager -> Progress.
Variable getOutput : OutputManager -> Output.

(** What the map holds: [{ research, progress, output }], to which the
    rejection handler adds [status] and [error]. *)
Record Task : Type :=
  { research : DeepResearch;
    progress : ProgressManager;
    output : OutputManager;
    status : option string;
    error : option string }.

Definition Tasks : Type := JS.Map Task.

Inductive Body : Type :=
| HealthOk
| QueryRequired
| FailedToStart
| Started (taskId : string) (query depth breadth : JS.value)
| TaskNotFound
| TaskView (taskId : string) (state : string) (failure : option string)
    (progressShown : Progress) (results : Output).

Record Response : Type :=
  { statusCode : Z;
    body : Body }.

Definition json (b : Body) : Response := {| statusCode := 200; body := b |}.

(** [app.post('/research')].  Destructuring a [null] body throws, which the
    handler answers with 500; the third component is the identifier under
    which a run was started, if any. *)
Definition postResearch (tasks : Tasks) (reqBody : JS.value) (dateNow : Z)
  : Response * Tasks * option string :=
  match reqBody with
  | JS.Null => ({| statusCode := 500; body := FailedToStart |}, tasks, None)
  | _ =>
      let depth := orElse (property reqBody "depth") (JS.Num (JS.of_Z 3)) in
      let breadth := orElse (property reqBody "breadth") (JS.Num (JS.of_Z 3)) in
      match property reqBody "query" with
      | Some query =>
          if truthy (Some query)
          then
            let taskId := makeTaskId dateNow in
            let progress := ProgressManager_new in
            let output := OutputManager_new in
            let research :=
              DeepResearch_new
                {| query := query; maxDepth := depth; maxBreadth := breadth;
                   progressManager := progress; outputManager := output |} in
            (json (Started taskId query depth breadth),
             JS.mapSet tasks taskId
               {| research := research; progress := progress; output := output;
                  status := None; error := None |},
             Some taskId)
          else ({| statusCode := 400; body := QueryRequired |}, tasks, None)
      | None => ({| statusCode := 400; body := QueryRequired |}, tasks, None)
      end
  end.

(** The [.catch] handler of [research.run()]. *)
Definition onRejected (taskId : string) (e : Thrown) (tasks : Tasks) : Tasks :=
  match JS.mapGet tasks taskId with
  | Some task =>
      JS.mapSet tasks taskId
        {| research := research task; progress := progress task;
           output := output task;
           status := Some "failed"; error := messageOf e |}
  | None => tasks
  end.

(** [app.get('/research/:taskId')] *)
Definition getTask (tasks : Tasks) (taskId : string) : Response :=
  match JS.mapGet tasks taskId with
  | None => {| statusCode := 404; body := TaskNotFound |}
  | Some task =>
      json (TaskView taskId (shownStatus (status task)) (error task)
              (getProgress (progress task)) (getOutput (output task)))
  end.

(** [app.get('/health')] *)
Definition getHealth : Response := json HealthOk.

Inductive Event : Type :=
| POST_research (reqBody : JS.value) (dateNow : Z)
| GET_research_task (taskId : string)
| GET_health
| Fulfilled (taskId : string)
| Rejected (taskId : string) (e : Thrown).

(** The fulfilment of [research.run()] has no handler. *)
Definition step (tasks : Tasks) (ev : Event) : Tasks :=
  match ev with
  | POST_research reqBody dateNow => snd (fst (postResearch tasks reqBody dateNow))
  | GET_research_task _ | GET_health | Fulfilled _ => tasks
  | Rejected taskId e => onRejected taskId e tasks
  end.

Definition after (evs : list Event) : Tasks := fold_left step evs [].

(** The state that GET shows of a task that is stored. *)
Definition shownState (tasks : Tasks) (taskId : string) : option string :=
  match JS.mapGet tasks taskId with
  | Some task => Some (shownStatus (status task))
  | None => None
  end.

(** No task carries another status than ['failed']. *)
Definition failedOrUnset (t : Task) : Prop :=
  status t = None \/ status t = Some "failed".

End WithClasses.

End Legacy.

(** ** More sample data *)

Module MoreSamples.
Import Server Samples.

Definition firstId : string := "task-1700000000001-k3x9".

Definition rainResult : ResearchResult :=
  {| learnings := ["rain is wet"]; sources := ["doc:rain"] |}.

(** A store with one task completed, one failed and three running. *)
Definition mixedStore : Tasks unit unit :=
  after tt tt keep env0
    (map (fun n => POST_research goodBody (reading n)) [1; 2; 3; 4; 5]
     ++ [Fulfilled "task-1700000000001-k3x9" rainResult 1700000000900;
         Rejected "task-1700000000002-k3x9" (ErrorObject "no network") 1700000000950]).

Definition secondPageOfTwo : ListQuery :=
  {| page := Some "2"; limit := Some "2"; status := None |}.

Definition badBody : JS.value :=
  JS.Obj [("query", JS.Str ""); ("depth", JS.Num (JS.of_Z 9));
          ("breadth", JS.Num (JS.of_Z 2))].

End MoreSamples.

(** * Properties *)

(** ** Sanity checks of the library models *)

Example parseInt_samples :
  JS.parseInt (Some "  42px") = Some 42 /\
  JS.parseInt (Some "-7") = Some (-7) /\
  JS.parseInt (Some "0x1f") = Some 31 /\
  JS.parseInt (Some "abc") = None /\
  JS.parseInt (Some "") = None /\
  JS.parseInt None = None.
Proof. repeat split. Qed.

Example slice_samples :
  JS.slice [1; 2; 3; 4; 5] 1 3 = [2; 3] /\
  JS.slice [1; 2; 3; 4; 5] 0 (-2) = [1; 2; 3] /\
  JS.slice [1; 2; 3; 4; 5] 4 9 = [5] /\
  JS.slice [1; 2; 3; 4; 5] 3 1 = [].
Proof. repeat split. Qed.

Example sort_is_stable :
  JS.sort (fun a b => snd b - snd a) [("a", 1); ("b", 3); ("c", 1); ("d", 3)]
  = [("b", 3); ("d", 3); ("a", 1); ("c", 1)].
Proof. reflexivity. Qed.

Example schema_accepts_full_body :
  Zod.safeParse ResearchRequestSchema
    (JS.Obj [("query", JS.Str "tides"); ("depth", JS.Num (JS.of_Z 2));
             ("breadth", JS.Num (JS.of_Z 5)); ("extra", JS.Null)])
  = Zod.success (ResearchRequest.Build "tides" (JS.of_Z 2) (JS.of_Z 5)).
Proof. reflexivity. Qed.

Example schema_defaults :
  Zod.safeParse ResearchRequestSchema (JS.Obj [("query", JS.Str "tides")])
  = Zod.success (ResearchRequest.Build "tides" (JS.of_Z 3) (JS.of_Z 3)).
Proof. reflexivity. Qed.

Example schema_rejects :
  Zod.safeParse ResearchRequestSchema
    (JS.Obj [("query", JS.Str ""); ("depth", JS.Num (JS.Finite (1 # 2)));
             ("breadth", JS.Null)])
  = Zod.failure
      [Zod.too_small 1 Zod.t_string ["query"];
       Zod.invalid_type Zod.t_integer Zod.t_float ["depth"];
       Zod.too_small 1 Zod.t_number ["depth"];
       Zod.invalid_type Zod.t_number Zod.t_null ["breadth"]].
Proof. reflexivity. Qed.


(** ** Facts about the JavaScript library functions *)

Module JSFacts.

Section MapFacts.
Context {V : Type}.
Implicit Types (m : JS.Map V) (k : string) (v : V).

Lemma mapGet_mapSet_same m k v : JS.mapGet (JS.mapSet m k v) k = Some v.
Proof.
  induction m as [|[k' v'] m IH]; simpl.
  - now rewrite String.eqb_refl.
  - destruct (String.eqb k' k) eqn:E; simpl; rewrite E; auto.
Qed.

Lemma mapGet_mapSet_other m k k' v :
  k <> k' -> JS.mapGet (JS.mapSet m k v) k' = JS.mapGet m k'.
Proof.
  intros Hne. induction m as [|[k0 v0] m IH]; simpl.
  - destruct (String.eqb_spec k k'); congruence.
  - destruct (String.eqb_spec k0 k) as [->|Hk]; simpl.
    + destruct (String.eqb_spec k k'); congruence.
    + now rewrite IH.
Qed.

Lemma mapGet_mapSet_defined m k k' v :
  JS.mapGet m k' <> None -> JS.mapGet (JS.mapSet m k v) k' <> None.
Proof.
  intros H. destruct (string_dec k k') as [->|Hne].
  - rewrite mapGet_mapSet_same. discriminate.
  - now rewrite mapGet_mapSet_other.
Qed.

Lemma mapGet_In m k v : JS.mapGet m k = Some v -> In v (JS.mapValues m).
Proof.
  induction m as [|[k' v'] m IH]; simpl; [discriminate|].
  destruct (String.eqb k' k); intros H.
  - left. congruence.
  - right. now apply IH.
Qed.

Lemma In_mapValues_mapSet m k v x :
  In x (JS.mapValues (JS.mapSet m k v)) -> x = v \/ In x (JS.mapValues m).
Proof.
  induction m as [|[k' v'] m IH]; simpl.
  - intros [H|[]]; auto.
  - destruct (String.eqb k' k); simpl.
    + intros [H|H]; auto.
    + intros [H|H]; auto. destruct (IH H); auto.
Qed.

Lemma Forall_mapSet (P : V -> Prop) m k v :
  Forall P (JS.mapValues m) -> P v -> Forall P (JS.mapValues (JS.mapSet m k v)).
Proof.
  intros Hm Hv. apply Forall_forall. intros x Hx.
  destruct (In_mapValues_mapSet _ _ _ _ Hx) as [->|Hin]; auto.
  rewrite Forall_forall in Hm. auto.
Qed.

(** Setting a key that is there keeps the number of entries, a new key adds
    one. *)
Lemma length_mapSet m k v :
  List.length (JS.mapSet m k v) =
  match JS.mapGet m k with
  | Some _ => List.length m
  | None => S (List.length m)
  end.
Proof.
  induction m as [|[k' v'] m IH]; simpl; auto.
  destruct (String.eqb k' k); simpl; auto.
  rewrite IH. now destruct (JS.mapGet m k).
Qed.
End MapFacts.

(** *** Sorting and slicing *)

Section SortFacts.
Context {A : Type} (key : A -> Z).

(** Sorting with the comparator [(a, b) => key(b) - key(a)] puts the larger
    keys first. *)
Lemma insertSorted_In x y l :
  In y (JS.insertSorted (fun a b => key b - key a) x l) <-> y = x \/ In y l.
Proof.
  induction l as [|z l IH]; simpl.
  - intuition.
  - destruct (0 <? key z - key x); simpl; rewrite ?IH; intuition.
Qed.

Lemma insertSorted_sorted x l :
  StronglySorted (fun a b => key b <= key a) l ->
  StronglySorted (fun a b => key b <= key a)
    (JS.insertSorted (fun a b => key b - key a) x l).
Proof.
  induction 1 as [|z l Hs IH Hz]; simpl.
  - repeat constructor.
  - destruct (Z.ltb_spec 0 (key z - key x)) as [Hlt|Hge].
    + constructor; auto. apply Forall_forall. intros y Hy.
      apply insertSorted_In in Hy. destruct Hy as [->|Hy].
      * lia.
      * rewrite Forall_forall in Hz. auto.
    + constructor; [constructor; auto|].
      constructor; [lia|].
      eapply Forall_impl; [|exact Hz]. intros a Ha. simpl in Ha. lia.
Qed.

Lemma sort_sorted l :
  StronglySorted (fun a b => key b <= key a)
    (JS.sort (fun a b => key b - key a) l).
Proof.
  induction l as [|x l IH]; simpl.
  - constructor.
  - now apply insertSorted_sorted.
Qed.

Lemma insertSorted_perm x l :
  Permutation (x :: l) (JS.insertSorted (fun a b => key b - key a) x l).
Proof.
  induction l as [|z l IH]; simpl; auto.
  destruct (0 <? key z - key x); auto.
  rewrite perm_swap. now constructor.
Qed.

Lemma sort_perm l : Permutation l (JS.sort (fun a b => key b - key a) l).
Proof.
  induction l as [|x l IH]; simpl; auto.
  rewrite <- insertSorted_perm. now constructor.
Qed.

(** The sort is stable: the elements of one key stay in the order they had. *)
Lemma insertSorted_same_key k x l :
  filter (fun a => key a =? k) (JS.insertSorted (fun a b => key b - key a) x l)
  = filter (fun a => key a =? k) (x :: l).
Proof.
  induction l as [|z l IH]; [reflexivity|].
  cbn [JS.insertSorted].
  destruct (Z.ltb_spec 0 (key z - key x)) as [Hlt|Hge]; [|reflexivity].
  cbn [filter] in *. rewrite IH.
  destruct (Z.eqb_spec (key x) k), (Z.eqb_spec (key z) k); try reflexivity.
  lia.
Qed.

Lemma sort_same_key k l :
  filter (fun a => key a =? k) (JS.sort (fun a b => key b - key a) l)
  = filter (fun a => key a =? k) l.
Proof.
  induction l as [|x l IH]; [reflexivity|].
  cbn [JS.sort fold_right]. fold (JS.sort (fun a b => key b - key a) l).
  rewrite insertSorted_same_key. cbn [filter]. now rewrite IH.
Qed.
End SortFacts.

Section SliceFacts.
Context {A : Type}.

Lemma StronglySorted_skipn (R : A -> A -> Prop) n l :
  StronglySorted R l -> StronglySorted R (skipn n l).
Proof.
  revert l. induction n as [|n IH]; intros l Hs; simpl; auto.
  destruct l; auto. inversion Hs; subst. auto.
Qed.

Lemma StronglySorted_firstn (R : A -> A -> Prop) n l :
  StronglySorted R l -> StronglySorted R (firstn n l).
Proof.
  revert l. induction n as [|n IH]; intros l Hs; simpl; [constructor|].
  destruct l; [constructor|]. inversion Hs; subst.
  constructor; auto.
  apply Forall_forall. intros y Hy.
  match goal with H : Forall _ _ |- _ => rewrite Forall_forall in H; apply H end.
  rewrite <- (firstn_skipn n l). apply in_or_app. now left.
Qed.

Lemma slice_sorted (R : A -> A -> Prop) (l : list A) start stop :
  StronglySorted R l -> StronglySorted R (JS.slice l start stop).
Proof.
  intros. unfold JS.slice.
  now apply StronglySorted_firstn, StronglySorted_skipn.
Qed.

Lemma slice_incl (l : list A) start stop x : In x (JS.slice l start stop) -> In x l.
Proof.
  unfold JS.slice. intros H.
  set (k := Z.to_nat (JS.clampIndex (Z.of_nat (List.length l)) start)) in *.
  rewrite <- (firstn_skipn k l). apply in_or_app. right.
  set (r := skipn k l) in *.
  rewrite <- (firstn_skipn (Z.to_nat
    (JS.clampIndex (Z.of_nat (List.length l)) stop -
     JS.clampIndex (Z.of_nat (List.length l)) start)) r).
  apply in_or_app. now left.
Qed.

Lemma clampIndex_range len i : 0 <= len -> 0 <= JS.clampIndex len i <= len.
Proof. unfold JS.clampIndex. destruct (Z.ltb_spec i 0); lia. Qed.

(** A page that starts at a non-negative offset holds at most [size]
    elements. *)
Lemma slice_length (l : list A) offset size :
  0 <= offset -> 0 <= size ->
  Z.of_nat (List.length (JS.slice l offset (offset + size))) <= size.
Proof.
  intros Ho Hs. unfold JS.slice.
  rewrite length_firstn. unfold JS.clampIndex.
  destruct (Z.ltb_spec offset 0); [lia|].
  destruct (Z.ltb_spec (offset + size) 0); lia.
Qed.

(** So does a page that starts at a negative offset, counted from the
    end. *)
Lemma slice_length_any (l : list A) offset size :
  0 <= size ->
  Z.of_nat (List.length (JS.slice l offset (offset + size))) <= size.
Proof.
  intros Hs. unfold JS.slice.
  rewrite length_firstn. unfold JS.clampIndex.
  destruct (Z.ltb_spec offset 0); destruct (Z.ltb_spec (offset + size) 0); lia.
Qed.

(** A slice from a non-negative start over a non-negative width is the
    window of that width at that start. *)
Lemma slice_window (l : list A) a width :
  0 <= a -> 0 <= width ->
  JS.slice l a (a + width) = firstn (Z.to_nat width) (skipn (Z.to_nat a) l).
Proof.
  intros Ha Hw. unfold JS.slice, JS.clampIndex.
  set (len := Z.of_nat (List.length l)).
  destruct (Z.ltb_spec a 0); [lia|].
  destruct (Z.ltb_spec (a + width) 0); [lia|].
  destruct (Z.le_gt_cases a len) as [Hle|Hgt].
  - rewrite (Z.min_l a len) by lia.
    set (rest := skipn (Z.to_nat a) l).
    assert (Hrest : Z.of_nat (List.length rest) = len - a).
    { subst rest len. rewrite length_skipn. lia. }
    destruct (Z.le_gt_cases (a + width) len).
    + rewrite Z.min_l by lia. f_equal. lia.
    + rewrite Z.min_r by lia.
      rewrite !firstn_all2; auto; lia.
  - rewrite (Z.min_r a len) by lia. rewrite (Z.min_r (a + width) len) by lia.
    rewrite Z.sub_diag. cbn [Z.to_nat firstn].
    rewrite (skipn_all2 l); [now rewrite firstn_nil|]. subst len. lia.
Qed.
End SliceFacts.

(** [ceilDiv a b] is the least integer [p] with [a <= p * b], for [b > 0]. *)
Lemma ceilDiv_spec a b :
  0 < b -> (JS.ceilDiv a b - 1) * b < a <= JS.ceilDiv a b * b.
Proof.
  intros Hb. unfold JS.ceilDiv.
  pose proof (Z.div_mod (- a) b ltac:(lia)).
  pose proof (Z.mod_pos_bound (- a) b Hb). nia.
Qed.

Lemma ceilDiv_spec_neg a b :
  b < 0 -> JS.ceilDiv a b * b <= a < (JS.ceilDiv a b - 1) * b.
Proof.
  intros Hb. unfold JS.ceilDiv.
  pose proof (Z.div_mod (- a) b ltac:(lia)).
  pose proof (Z.mod_neg_bound (- a) b Hb). nia.
Qed.

Lemma orDefault_cases n d :
  (n = None \/ n = Some 0) /\ JS.orDefault n d = d \/
  exists v, n = Some v /\ v <> 0 /\ JS.orDefault n d = v.
Proof.
  destruct n as [[|p|p]|]; simpl; auto; right; eexists; repeat split; lia.
Qed.

End JSFacts.

(** ** The request schema *)

Module SchemaFacts.

Lemma checked_OK {T : Type} (v w : T) issues :
  Zod.checked v issues = Zod.OK w <-> issues = [] /\ w = v.
Proof.
  destruct issues; simpl; split.
  - intros H; inversion H; auto.
  - intros [_ ->]; auto.
  - discriminate.
  - intros [H _]; discriminate.
Qed.

Lemma checked_INVALID {T : Type} (v : T) issues bad :
  Zod.checked v issues = Zod.INVALID bad -> bad <> [].
Proof. destruct issues; simpl; intros H; inversion H; discriminate. Qed.

Lemma integer_in_range_arith (a : Z) (b : positive) :
  (a mod Z.pos b = 0 /\ Z.pos b <= a /\ a <= 5 * Z.pos b) <->
  exists n, In n [1; 2; 3; 4; 5] /\ a = n * Z.pos b.
Proof.
  split.
  - intros (Hm & Hlo & Hhi).
    exists (a / Z.pos b).
    pose proof (Z.div_mod a (Z.pos b) ltac:(lia)) as Hd.
    rewrite Hm in Hd.
    assert (1 <= a / Z.pos b <= 5) as Hk by nia.
    split; [|lia].
    simpl. lia.
  - intros (n & Hn & ->).
    rewrite Z.mod_mul by lia.
    simpl in Hn. nia.
Qed.

Lemma isIntegerIn1to5_spec (q : Q) :
  isIntegerIn1to5 (JS.Finite q) = true <->
  exists n, 1 <= n <= 5 /\ Qeq q (inject_Z n).
Proof.
  unfold isIntegerIn1to5. rewrite existsb_exists. split.
  - intros (n & Hn & Hq). exists n. apply Qeq_bool_iff in Hq.
    split; [simpl in Hn; lia|exact Hq].
  - intros (n & Hn & Hq). exists n. split.
    + simpl. lia.
    + now apply Qeq_bool_iff.
Qed.

Lemma level_checks_pass (q : Q) path :
  flat_map (Zod.numberCheck (JS.Finite q) path) [Zod.int; Zod.min 1; Zod.max 5] = [] <->
  isIntegerIn1to5 (JS.Finite q) = true.
Proof.
  destruct q as [a b].
  assert (Hchecks :
    flat_map (Zod.numberCheck (JS.Finite (a # b)) path)
      [Zod.int; Zod.min 1; Zod.max 5] = [] <->
    (a mod Z.pos b = 0 /\ Z.pos b <= a /\ a <= 5 * Z.pos b)).
  { cbn [flat_map Zod.numberCheck JS.isInteger JS.ltb JS.of_Z Qnum Qden].
    unfold Qle_bool, inject_Z. cbn [Qnum Qden].
    destruct (Z.eqb_spec (a mod Z.pos b) 0) as [Hm|Hm];
      destruct (Z.leb_spec (1 * Z.pos b) (a * 1)) as [Hlo|Hlo];
      destruct (Z.leb_spec (a * 1) (5 * Z.pos b)) as [Hhi|Hhi];
      cbn [negb app]; split; try discriminate; try lia; auto. }
  rewrite Hchecks, integer_in_range_arith.
  unfold isIntegerIn1to5. rewrite existsb_exists.
  split; intros (n & Hn & Hq); exists n; (split; [exact Hn|]).
  - apply Qeq_bool_iff. unfold Qeq, inject_Z. cbn [Qnum Qden]. lia.
  - apply Qeq_bool_iff in Hq. unfold Qeq, inject_Z in Hq. cbn [Qnum Qden] in Hq. lia.
Qed.

(** The schema of [depth] and of [breadth] on a datum. *)
Lemma levelSchema_OK v path x :
  levelSchema v path = Zod.OK x <->
  (v = None /\ x = JS.of_Z 3) \/ (v = Some (JS.Num x) /\ isIntegerIn1to5 x = true).
Proof.
  unfold levelSchema, Zod.optional_default.
  destruct v as [[| |[| | |q]| | |]|]; cbn [Zod.ZodNumber];
    try (split; [discriminate | intros [[H _]|[H _]]; discriminate]).
  - split; [discriminate|]. intros [[H _]|[H Hx]]; [discriminate|].
    inversion H; subst. discriminate.
  - split; [discriminate|]. intros [[H _]|[H Hx]]; [discriminate|].
    inversion H; subst. discriminate.
  - split; [discriminate|]. intros [[H _]|[H Hx]]; [discriminate|].
    inversion H; subst. discriminate.
  - rewrite checked_OK, level_checks_pass. split.
    + intros [Hq ->]. right. auto.
    + intros [[H _]|[H Hx]]; [discriminate|]. inversion H; subst. auto.
  - split.
    + intros H. left. split; auto. vm_compute in H. inversion H. reflexivity.
    + intros [[_ ->]|[H _]]; [reflexivity|discriminate].
Qed.

Lemma levelSchema_INVALID v path issues :
  levelSchema v path = Zod.INVALID issues -> issues <> [].
Proof.
  unfold levelSchema, Zod.optional_default.
  destruct v as [[| |[| | |q]| | |]|]; cbn [Zod.ZodNumber];
    try (intros H; inversion H; discriminate);
    try apply checked_INVALID.
Qed.

Lemma querySchema_OK v path s :
  querySchema v path = Zod.OK s <->
  v = Some (JS.Str s) /\ 1 <= Z.of_nat (String.length s) <= 1000.
Proof.
  unfold querySchema.
  destruct v as [[| | |s0| |]|]; cbn [Zod.ZodString];
    try (split; [discriminate | intros [H _]; discriminate]).
  rewrite checked_OK. cbn [flat_map Zod.stringCheck].
  destruct (Z.ltb_spec (Z.of_nat (String.length s0)) 1) as [Hlo|Hlo];
    destruct (Z.ltb_spec 1000 (Z.of_nat (String.length s0))) as [Hhi|Hhi];
    cbn [app]; split;
    try (intros [H ->]; try discriminate; split; [reflexivity|lia]);
    intros [H Hl]; inversion H; subst; try lia; auto.
Qed.

Lemma querySchema_INVALID v path issues :
  querySchema v path = Zod.INVALID issues -> issues <> [].
Proof.
  unfold querySchema.
  destruct v as [[| | |s0| |]|]; cbn [Zod.ZodString];
    try (intros H; inversion H; discriminate).
  apply checked_INVALID.
Qed.

Lemma isValidQuery_spec v :
  isValidQuery v = true <->
  exists s, v = Some (JS.Str s) /\ 1 <= Z.of_nat (String.length s) <= 1000.
Proof.
  unfold isValidQuery.
  destruct v as [[| | |s0| |]|];
    try (split; [discriminate | intros (s & H & _); discriminate]).
  rewrite andb_true_iff, !Z.leb_le. split.
  - intros H. exists s0. auto.
  - intros (s & H & Hl). inversion H; subst. auto.
Qed.

Lemma isValidLevel_spec v :
  isValidLevel v = true <->
  v = None \/ exists x, v = Some (JS.Num x) /\ isIntegerIn1to5 x = true.
Proof.
  unfold isValidLevel.
  destruct v as [[| |x| | |]|];
    try (split; [discriminate | intros [H|(x0 & H & _)]; discriminate]).
  - split.
    + intros H. right. eauto.
    + intros [H|(x0 & H & Hx)]; [discriminate|]. inversion H; subst. auto.
  - split; auto.
Qed.

(** The schema accepts a body exactly when each of its three keys is
    accepted. *)
Lemma safeParse_success reqBody data :
  Zod.safeParse ResearchRequestSchema reqBody = Zod.success data <->
  exists props,
    reqBody = JS.Obj props /\
    querySchema (JS.get props "query") ["query"] = Zod.OK (ResearchRequest.query data) /\
    levelSchema (JS.get props "depth") ["depth"] = Zod.OK (ResearchRequest.depth data) /\
    levelSchema (JS.get props "breadth") ["breadth"] = Zod.OK (ResearchRequest.breadth data).
Proof.
  unfold Zod.safeParse, ResearchRequestSchema.
  destruct reqBody as [| | | | |props];
    try (split; [discriminate | intros (p & H & _); discriminate]).
  cbn [app]. split.
  - destruct (querySchema (JS.get props "query") ["query"]) as [q|iq] eqn:Eq;
      destruct (levelSchema (JS.get props "depth") ["depth"]) as [d|id] eqn:Ed;
      destruct (levelSchema (JS.get props "breadth") ["breadth"]) as [b|ib] eqn:Eb;
      intros H; inversion H; subst.
    exists props. cbn. auto.
  - intros (p & Hp & Hq & Hd & Hb). inversion Hp; subst p.
    rewrite Hq, Hd, Hb. now destruct data.
Qed.

Lemma app_nonempty_l {A : Type} (l r : list A) : l <> [] -> l ++ r <> [].
Proof. destruct l; [congruence|discriminate]. Qed.

Lemma app_nonempty_r {A : Type} (l r : list A) : r <> [] -> l ++ r <> [].
Proof. destruct l; [auto|discriminate]. Qed.

Lemma safeParse_failure reqBody issues :
  Zod.safeParse ResearchRequestSchema reqBody = Zod.failure issues -> issues <> [].
Proof.
  unfold Zod.safeParse, ResearchRequestSchema.
  destruct reqBody as [| | | | |props];
    try (intros H; inversion H; discriminate).
  cbn [app].
  destruct (querySchema (JS.get props "query") ["query"]) as [q|iq] eqn:Eq;
    destruct (levelSchema (JS.get props "depth") ["depth"]) as [d|id] eqn:Ed;
    destruct (levelSchema (JS.get props "breadth") ["breadth"]) as [b|ib] eqn:Eb;
    intros H; inversion H; subst; clear H; cbn [Zod.issuesOf];
    try apply querySchema_INVALID in Eq;
    try apply levelSchema_INVALID in Ed;
    try apply levelSchema_INVALID in Eb;
    try (apply app_nonempty_l; assumption);
    try (apply app_nonempty_r, app_nonempty_l; assumption);
    try (apply app_nonempty_r, app_nonempty_r; assumption);
    try assumption.
Qed.

(** The reading in words and the schema agree. *)
Lemma passesValidation_iff reqBody :
  passesValidation reqBody = true <->
  exists data, Zod.safeParse ResearchRequestSchema reqBody = Zod.success data.
Proof.
  split.
  - destruct reqBody as [| | | | |props]; try discriminate.
    cbn [passesValidation]. rewrite !andb_true_iff.
    rewrite isValidQuery_spec, !isValidLevel_spec.
    intros [[(s & Hs & Hl) Hd] Hb].
    assert (Hlevel : forall v, v = None \/
              (exists x, v = Some (JS.Num x) /\ isIntegerIn1to5 x = true) ->
              forall path, exists x, levelSchema v path = Zod.OK x).
    { intros v [->|(x & -> & Hx)] path.
      - exists (JS.of_Z 3). apply levelSchema_OK. auto.
      - exists x. apply levelSchema_OK. auto. }
    destruct (Hlevel _ Hd ["depth"]) as [d Hd'].
    destruct (Hlevel _ Hb ["breadth"]) as [b Hb'].
    exists (ResearchRequest.Build s d b). apply safeParse_success.
    exists props. cbn. repeat split; auto.
    apply querySchema_OK. auto.
  - intros (data & H). apply safeParse_success in H.
    destruct H as (props & -> & Hq & Hd & Hb).
    cbn [passesValidation]. rewrite !andb_true_iff.
    rewrite isValidQuery_spec, !isValidLevel_spec.
    apply querySchema_OK in Hq. apply levelSchema_OK in Hd, Hb.
    repeat split.
    + exists (ResearchRequest.query data). auto.
    + destruct Hd as [[? _]|[? ?]]; eauto.
    + destruct Hb as [[? _]|[? ?]]; eauto.
Qed.

Lemma fails_validation reqBody :
  passesValidation reqBody = false ->
  exists issues,
    issues <> [] /\ Zod.safeParse ResearchRequestSchema reqBody = Zod.failure issues.
Proof.
  intros Hf.
  destruct (Zod.safeParse ResearchRequestSchema reqBody) as [data|issues] eqn:E.
  - assert (passesValidation reqBody = true) by (apply passesValidation_iff; eauto).
    congruence.
  - exists issues. split; auto. eapply safeParse_failure; eauto.
Qed.

End SchemaFacts.

(** ** The task layer *)

Module ServerFacts.
Import Server.

Section WithManagers.

Variables ProgressManager OutputManager : Type.
Variable ProgressManager_new : ProgressManager.
Variable OutputManager_new : OutputManager.
Variable ProgressManager_update :
  ProgressManager -> ResearchProgress -> ProgressManager.

Implicit Types (tasks : Tasks ProgressManager OutputManager).
Implicit Types (env : Env) (io : Reading) (reqBody : JS.value).

(** *** What a POST does, by cases *)

Lemma postResearch_invalid env tasks reqBody io issues :
  Zod.safeParse ResearchRequestSchema reqBody = Zod.failure issues ->
  postResearch ProgressManager_new OutputManager_new env tasks reqBody io =
  ({| statusCode := 400; body := InvalidRequest _ _ issues |}, tasks, None).
Proof. intros H. unfold postResearch. now rewrite H. Qed.


Lemma postResearch_started env tasks reqBody io r tasks' call :
  postResearch ProgressManager_new OutputManager_new env tasks reqBody io =
    (r, tasks', Some call) ->
  call_taskId call = makeTaskId io /\
  exists task,
    tasks' = JS.mapSet tasks (makeTaskId io) task /\
    ResearchTask.id task = makeTaskId io /\
    ResearchTask.status task = running /\
    ResearchTask.progress task = None /\
    ResearchTask.startTime task = newDate io /\
    ResearchTask.endTime task = None /\
    ResearchTask.results task = None /\
    ResearchTask.error task = None.
Proof.
  unfold postResearch.
  destruct (Zod.safeParse ResearchRequestSchema reqBody) as [data|issues];
    [|discriminate].
  destruct (geMax _ _); [discriminate|].
  intros H. inversion H; subst; clear H. split; [reflexivity|].
  eexists. split; [reflexivity|]. cbn. repeat split.
Qed.

(** A POST either leaves the store alone or sets one key to a task that has
    no progress manager. *)
Lemma postResearch_store env tasks reqBody io :
  let tasks' :=
    snd (fst (postResearch ProgressManager_new OutputManager_new env tasks reqBody io)) in
  tasks' = tasks \/
  exists task,
    tasks' = JS.mapSet tasks (makeTaskId io) task /\
    ResearchTask.progress task = None.
Proof.
  cbv zeta. unfold postResearch.
  destruct (Zod.safeParse ResearchRequestSchema reqBody) as [data|issues];
    [|now left].
  destruct (geMax _ _); [now left|].
  right. eexists. split; [reflexivity|reflexivity].
Qed.

(** *** Tasks are never removed *)

Lemma step_keeps_keys env tasks ev k :
  JS.mapGet tasks k <> None ->
  JS.mapGet (step ProgressManager_new OutputManager_new ProgressManager_update
               env tasks ev) k <> None.
Proof.
  intros Hk. destruct ev as [reqBody io|id|q| |id p|id result now|id e now]; cbn [step]; auto.
  - destruct (postResearch_store env tasks reqBody io) as [->|(task & -> & _)]; auto.
    now apply JSFacts.mapGet_mapSet_defined.
  - unfold onProgress. destruct (JS.mapGet tasks id) as [t|]; auto.
    destruct (ResearchTask.progress t); auto.
    now apply JSFacts.mapGet_mapSet_defined.
  - unfold onFulfilled. destruct (JS.mapGet tasks id) as [t|]; auto.
    now apply JSFacts.mapGet_mapSet_defined.
  - unfold onRejected. destruct (JS.mapGet tasks id) as [t|]; auto.
    now apply JSFacts.mapGet_mapSet_defined.
Qed.

Lemma steps_keep_keys env evs tasks k :
  JS.mapGet tasks k <> None ->
  JS.mapGet (fold_left (step ProgressManager_new OutputManager_new
                          ProgressManager_update env) evs tasks) k <> None.
Proof.
  revert tasks. induction evs as [|ev evs IH]; intros tasks Hk; simpl; auto.
  apply IH. now apply step_keeps_keys.
Qed.

(** *** No stored task has a progress manager *)

Lemma step_noProgress env tasks ev :
  Forall noProgress (JS.mapValues tasks) ->
  Forall noProgress
    (JS.mapValues (step ProgressManager_new OutputManager_new
                     ProgressManager_update env tasks ev)).
Proof.
  intros Hall.
  assert (Hget : forall k t, JS.mapGet tasks k = Some t -> noProgress t).
  { intros k t Hk. rewrite Forall_forall in Hall.
    eapply Hall, JSFacts.mapGet_In; eauto. }
  destruct ev as [reqBody io|id|q| |id p|id result now|id e now]; cbn [step]; auto.
  - destruct (postResearch_store env tasks reqBody io) as [->|(task & -> & Hp)]; auto.
    now apply JSFacts.Forall_mapSet.
  - unfold onProgress. destruct (JS.mapGet tasks id) as [t|] eqn:E; auto.
    destruct (ResearchTask.progress t) eqn:Ep; auto.
    apply Hget in E. unfold noProgress in E. congruence.
  - unfold onFulfilled. destruct (JS.mapGet tasks id) as [t|] eqn:E; auto.
    apply JSFacts.Forall_mapSet; auto. apply (Hget _ _ E).
  - unfold onRejected. destruct (JS.mapGet tasks id) as [t|] eqn:E; auto.
    apply JSFacts.Forall_mapSet; auto. apply (Hget _ _ E).
Qed.

Lemma after_noProgress env evs :
  Forall noProgress
    (JS.mapValues (after ProgressManager_new OutputManager_new
                     ProgressManager_update env evs)).
Proof.
  unfold after.
  assert (H : forall tasks, Forall noProgress (JS.mapValues tasks) ->
    Forall noProgress (JS.mapValues
      (fold_left (step ProgressManager_new OutputManager_new
                    ProgressManager_update env) evs tasks))).
  { induction evs as [|ev evs IH]; intros tasks Ht; simpl; auto.
    apply IH. now apply step_noProgress. }
  apply H. constructor.
Qed.

(** *** Main results on the task layer *)

(** C1. A POST /research whose body fails validation is answered 400 with
    the issues the schema raised (there is at least one); the store is
    left as it was and no research run is started. *)
Theorem C1_invalid_body_is_refused env tasks reqBody io :
  passesValidation reqBody = false ->
  exists issues,
    issues <> [] /\
    Zod.safeParse ResearchRequestSchema reqBody = Zod.failure issues /\
    postResearch ProgressManager_new OutputManager_new env tasks reqBody io =
    ({| statusCode := 400; body := InvalidRequest _ _ issues |}, tasks, None).
Proof.
  intros Hf. destruct (SchemaFacts.fails_validation _ Hf) as (issues & Hne & Hp).
  exists issues. repeat split; auto. now apply postResearch_invalid.
Qed.


(** C3. Once a POST has started a run, whatever the server handles in
    between, the fulfilment of the run's promise leaves the task
    [completed] with its end time and the learnings of the result, and its
    rejection leaves it [failed] with its end time and the error message:
    the [message] of a thrown [Error], the string form of any other thrown
    value. *)
Theorem C3_settlement_is_recorded env tasks reqBody io r tasks1 call evs :
  postResearch ProgressManager_new OutputManager_new env tasks reqBody io =
    (r, tasks1, Some call) ->
  let later :=
    fold_left (step ProgressManager_new OutputManager_new
                 ProgressManager_update env) evs tasks1 in
  (forall result now,
    exists t,
      JS.mapGet (onFulfilled (call_taskId call) result now later)
        (call_taskId call) = Some t /\
      ResearchTask.status t = completed /\
      ResearchTask.endTime t = Some now /\
      ResearchTask.results t = Some (learnings result)) /\
  (forall message now,
    exists t,
      JS.mapGet (onRejected (call_taskId call) (ErrorObject message) now later)
        (call_taskId call) = Some t /\
      ResearchTask.status t = failed /\
      ResearchTask.error t = Some message /\
      ResearchTask.endTime t = Some now) /\
  (forall asString now,
    exists t,
      JS.mapGet (onRejected (call_taskId call) (OtherValue asString) now later)
        (call_taskId call) = Some t /\
      ResearchTask.status t = failed /\
      ResearchTask.error t = Some asString /\
      ResearchTask.endTime t = Some now).
Proof.
  intros Hpost later.
  destruct (postResearch_started _ _ _ _ Hpost) as (Hid & task & -> & _).
  assert (Hk : JS.mapGet later (call_taskId call) <> None).
  { apply steps_keep_keys. rewrite Hid, JSFacts.mapGet_mapSet_same. discriminate. }
  destruct (JS.mapGet later (call_taskId call)) as [t|] eqn:E; [|congruence].
  split; [|split].
  - intros result now. unfold onFulfilled. rewrite E.
    eexists. split; [apply JSFacts.mapGet_mapSet_same|]. cbn. auto.
  - intros message now. unfold onRejected. rewrite E.
    eexists. split; [apply JSFacts.mapGet_mapSet_same|]. cbn. auto.
  - intros asString now. unfold onRejected. rewrite E.
    eexists. split; [apply JSFacts.mapGet_mapSet_same|]. cbn. auto.
Qed.

(** C8. A POST stores its task without a progress manager, and nothing
    ever gives a stored task one: in every state the server reaches, a
    progress report changes nothing, and what GET /research/:taskId shows of
    a task, running or not, has no progress. *)
Theorem C8_progress_is_never_recorded env evs :
  let tasks :=
    after ProgressManager_new OutputManager_new ProgressManager_update env evs in
  (forall reqBody io r tasks' call,
     postResearch ProgressManager_new OutputManager_new env tasks reqBody io =
       (r, tasks', Some call) ->
     exists task,
       JS.mapGet tasks' (call_taskId call) = Some task /\
       ResearchTask.status task = running /\
       ResearchTask.progress task = None) /\
  (forall taskId task,
     JS.mapGet tasks taskId = Some task -> ResearchTask.progress task = None) /\
  (forall taskId p, onProgress ProgressManager_update taskId p tasks = tasks) /\
  (forall taskId shown,
     getTask tasks taskId = json (TaskView shown) ->
     ResearchTask.progress shown = None).
Proof.
  intros tasks.
  assert (Hall : forall taskId task,
            JS.mapGet tasks taskId = Some task -> ResearchTask.progress task = None).
  { intros taskId task Hget.
    pose proof (after_noProgress env evs) as H.
    rewrite Forall_forall in H. apply H. eapply JSFacts.mapGet_In. exact Hget. }
  repeat split.
  - intros reqBody io r tasks' call Hpost.
    destruct (postResearch_started _ _ _ _ Hpost)
      as (Hid & task & -> & _ & Hst & Hp & _).
    exists task. rewrite Hid, JSFacts.mapGet_mapSet_same. auto.
  - exact Hall.
  - intros taskId p. unfold onProgress.
    destruct (JS.mapGet tasks taskId) as [t|] eqn:E; auto.
    now rewrite (Hall _ _ E).
  - intros taskId shown. unfold getTask.
    destruct (JS.mapGet tasks taskId) as [t|] eqn:E; [|discriminate].
    intros H. inversion H; subst; clear H. cbn.
    rewrite (Hall _ _ E). now destruct (TaskStatus_eqb _ _).
Qed.

(** C9. A body the schema accepts is an object whose [query] is a string of
    1 to 1000 characters, kept as it is; a [depth] or [breadth] that is
    absent comes out as 3 and one that is present comes out unchanged; so
    the accepted request has a non-empty query and a depth and a breadth
    that are integers from 1 to 5. *)
Theorem C9_accepted_requests reqBody data :
  Zod.safeParse ResearchRequestSchema reqBody = Zod.success data ->
  (exists props,
     reqBody = JS.Obj props /\
     JS.get props "query" = Some (JS.Str (ResearchRequest.query data)) /\
     (JS.get props "depth" = None -> ResearchRequest.depth data = JS.of_Z 3) /\
     (JS.get props "breadth" = None -> ResearchRequest.breadth data = JS.of_Z 3) /\
     (forall v, JS.get props "depth" = Some v ->
                v = JS.Num (ResearchRequest.depth data)) /\
     (forall v, JS.get props "breadth" = Some v ->
                v = JS.Num (ResearchRequest.breadth data))) /\
  1 <= Z.of_nat (String.length (ResearchRequest.query data)) <= 1000 /\
  ResearchRequest.query data <> "" /\
  (exists n, 1 <= n <= 5 /\ JS.denotes (ResearchRequest.depth data) n) /\
  (exists n, 1 <= n <= 5 /\ JS.denotes (ResearchRequest.breadth data) n).
Proof.
  intros H. apply SchemaFacts.safeParse_success in H.
  destruct H as (props & -> & Hq & Hd & Hb).
  apply SchemaFacts.querySchema_OK in Hq. destruct Hq as [Hq Hlen].
  apply SchemaFacts.levelSchema_OK in Hd, Hb.
  assert (Hrange : forall v x,
            (v = None /\ x = JS.of_Z 3) \/
            (v = Some (JS.Num x) /\ isIntegerIn1to5 x = true) ->
            exists n, 1 <= n <= 5 /\ JS.denotes x n).
  { intros v x [[_ ->]|[_ Hx]].
    - exists 3. split; [lia|]. cbn. reflexivity.
    - destruct x as [| | |q]; try discriminate.
      apply SchemaFacts.isIntegerIn1to5_spec in Hx. exact Hx. }
  repeat split.
  - exists props. repeat split; auto.
    + intros Hn. destruct Hd as [[_ ->]|[Hd _]]; [reflexivity|congruence].
    + intros Hn. destruct Hb as [[_ ->]|[Hb _]]; [reflexivity|congruence].
    + intros v Hv. destruct Hd as [[Hd _]|[Hd _]]; congruence.
    + intros v Hv. destruct Hb as [[Hb _]|[Hb _]]; congruence.
  - lia.
  - lia.
  - intros Hempty. rewrite Hempty in Hlen. cbn in Hlen. lia.
  - eapply Hrange; eauto.
  - eapply Hrange; eauto.
Qed.

(** C10, as amended. For a GET /research whose limit is not negative:
    the page size is [min(limit, 50)], where a limit that is absent, not a
    number or zero counts as 10, so it lies between 1 and 50; the page
    number is the requested one, 1 when it is absent, not a number or zero.
    The tasks the status filter keeps ([selected]) are put most recent
    first, tasks of the same start time in the order of the store
    ([sorted]); the answer holds the slice of that list from
    [(page - 1) * limit] over [limit] places, which for a page number of 1
    or more is the [limit] tasks after the first [(page - 1) * limit], or
    what is left of them.  So the tasks of the answer are in descending
    order of start time, are stored tasks the filter keeps, and are at most
    [limit].  [total] is the number of tasks the filter keeps, whatever the
    page, and [pages = ceil(total / limit)], the least number of pages of
    that size that hold [total] tasks. *)
Theorem C10_listing tasks q :
  (forall n, JS.parseInt (Server.limit q) = Some n -> 0 <= n) ->
  exists taskList page limit total pages selected sorted,
    listTasks tasks q = json (TaskList taskList page limit total pages) /\
    (forall n, JS.parseInt (Server.page q) = Some n -> n <> 0 -> page = n) /\
    (JS.parseInt (Server.page q) = None \/
     JS.parseInt (Server.page q) = Some 0 -> page = 1) /\
    limit = Z.min (JS.orDefault (JS.parseInt (Server.limit q)) 10) 50 /\
    (forall n, JS.parseInt (Server.limit q) = Some n -> n <> 0 ->
               limit = Z.min n 50) /\
    (JS.parseInt (Server.limit q) = None \/
     JS.parseInt (Server.limit q) = Some 0 -> limit = 10) /\
    1 <= limit <= 50 /\
    selected = matching (status q) (JS.mapValues tasks) /\
    (status q = None \/ status q = Some "" -> selected = map snd tasks) /\
    (forall s, status q = Some s -> s <> "" ->
       selected =
       filter (fun t => String.eqb (statusString (ResearchTask.status t)) s)
         (map snd tasks)) /\
    Permutation selected sorted /\
    StronglySorted
      (fun a b => ResearchTask.startTime b <= ResearchTask.startTime a)
      sorted /\
    (forall time,
       filter (fun t => ResearchTask.startTime t =? time) sorted =
       filter (fun t => ResearchTask.startTime t =? time) selected) /\
    taskList =
      JS.slice sorted ((page - 1) * limit) ((page - 1) * limit + limit) /\
    (1 <= page ->
     taskList =
       firstn (Z.to_nat limit) (skipn (Z.to_nat ((page - 1) * limit)) sorted)) /\
    StronglySorted
      (fun a b => ResearchTask.startTime b <= ResearchTask.startTime a)
      taskList /\
    (forall t, In t taskList -> In t selected) /\
    Z.of_nat (List.length taskList) <= limit /\
    total = Z.of_nat (List.length selected) /\
    pages = JS.ceilDiv total limit /\
    (pages - 1) * limit < total <= pages * limit.
Proof.
  intros Hlimit.
  set (size := Z.min (JS.orDefault (JS.parseInt (Server.limit q)) 10) 50).
  assert (Hsize : 1 <= size <= 50).
  { subst size.
    destruct (JSFacts.orDefault_cases (JS.parseInt (Server.limit q)) 10)
      as [[_ ->]|(v & Hv & Hnz & ->)]; [lia|].
    specialize (Hlimit v Hv). lia. }
  pose proof (JSFacts.sort_sorted (@ResearchTask.startTime _ _)
                (matching (status q) (JS.mapValues tasks))) as Hsorted.
  pose proof (JSFacts.sort_perm (@ResearchTask.startTime _ _)
                (matching (status q) (JS.mapValues tasks))) as Hperm.
  exists (JS.slice (JS.sort (@byStartTimeDesc _ _)
                      (matching (status q) (JS.mapValues tasks)))
            ((JS.orDefault (JS.parseInt (Server.page q)) 1 - 1) * size)
            ((JS.orDefault (JS.parseInt (Server.page q)) 1 - 1) * size + size)),
    (JS.orDefault (JS.parseInt (Server.page q)) 1), size,
    (Z.of_nat (List.length (matching (status q) (JS.mapValues tasks)))),
    (JS.ceilDiv
       (Z.of_nat (List.length (matching (status q) (JS.mapValues tasks))))
       size),
    (matching (status q) (JS.mapValues tasks)),
    (JS.sort (@byStartTimeDesc _ _) (matching (status q) (JS.mapValues tasks))).
  split; [reflexivity|].
  split; [intros n Hn Hz; rewrite Hn; destruct n; cbn; congruence|].
  split; [intros [H|H]; rewrite H; reflexivity|].
  split; [reflexivity|].
  split; [intros n Hn Hz; subst size; rewrite Hn; destruct n; cbn; congruence|].
  split; [intros [H|H]; subst size; rewrite H; reflexivity|].
  split; [exact Hsize|].
  split; [reflexivity|].
  split; [intros [H|H]; rewrite H; reflexivity|].
  split.
  { intros s Hs Hne. rewrite Hs. destruct s; [congruence|reflexivity]. }
  split; [exact Hperm|].
  split; [exact Hsorted|].
  split.
  { intros time. apply (JSFacts.sort_same_key (@ResearchTask.startTime _ _)). }
  split; [reflexivity|].
  split; [intros Hpage; apply JSFacts.slice_window; nia|].
  split; [apply JSFacts.slice_sorted; exact Hsorted|].
  split.
  { intros t Ht. apply JSFacts.slice_incl in Ht.
    eapply Permutation_in; [|exact Ht]. apply Permutation_sym. exact Hperm. }
  split; [apply JSFacts.slice_length_any; lia|].
  split; [reflexivity|].
  split; [reflexivity|].
  apply JSFacts.ceilDiv_spec. lia.
Qed.

End WithManagers.

(** *** The results at sample inputs *)

Import Samples.

Lemma C1_witness :
  passesValidation (JS.Obj [("query", JS.Str ""); ("depth", JS.Num (JS.of_Z 9))])
    = false /\
  exists issues,
    issues <> [] /\
    Zod.safeParse ResearchRequestSchema
      (JS.Obj [("query", JS.Str ""); ("depth", JS.Num (JS.of_Z 9))])
      = Zod.failure issues /\
    postResearch tt tt env0 fiveRunning
      (JS.Obj [("query", JS.Str ""); ("depth", JS.Num (JS.of_Z 9))]) (reading 6) =
    ({| statusCode := 400; body := InvalidRequest _ _ issues |}, fiveRunning, None).
Proof.
  split; [reflexivity|].
  apply (C1_invalid_body_is_refused tt tt env0 fiveRunning
           (JS.Obj [("query", JS.Str ""); ("depth", JS.Num (JS.of_Z 9))])
           (reading 6)).
  reflexivity.
Defined.



Lemma C3_witness :
  let p := postResearch tt tt env0 [] goodBody (reading 1) in
  let later :=
    fold_left (step tt tt keep env0)
      [Progress (call_taskId firstCall) someProgress;
       POST_research goodBody (reading 2);
       GET_health]
      (snd (fst p)) in
  p = (fst (fst p), snd (fst p), Some firstCall) /\
  (forall result now,
    exists t,
      JS.mapGet (onFulfilled (call_taskId firstCall) result now later)
        (call_taskId firstCall) = Some t /\
      ResearchTask.status t = completed /\
      ResearchTask.endTime t = Some now /\
      ResearchTask.results t = Some (learnings result)) /\
  (forall message now,
    exists t,
      JS.mapGet
        (onRejected (call_taskId firstCall) (ErrorObject message) now later)
        (call_taskId firstCall) = Some t /\
      ResearchTask.status t = failed /\
      ResearchTask.error t = Some message /\
      ResearchTask.endTime t = Some now) /\
  (forall asString now,
    exists t,
      JS.mapGet
        (onRejected (call_taskId firstCall) (OtherValue asString) now later)
        (call_taskId firstCall) = Some t /\
      ResearchTask.status t = failed /\
      ResearchTask.error t = Some asString /\
      ResearchTask.endTime t = Some now).
Proof.
  intros p later.
  assert (Hp : p = (fst (fst p), snd (fst p), Some firstCall)) by reflexivity.
  split; [exact Hp|].
  exact (C3_settlement_is_recorded tt tt keep env0 [] goodBody (reading 1)
           [Progress (call_taskId firstCall) someProgress;
            POST_research goodBody (reading 2);
            GET_health] Hp).
Defined.

Lemma C9_witness :
  Zod.safeParse ResearchRequestSchema goodBody
    = Zod.success (ResearchRequest.Build "tides" (JS.of_Z 3) (JS.of_Z 3)) /\
  ResearchRequest.query (ResearchRequest.Build "tides" (JS.of_Z 3) (JS.of_Z 3)) <> "" /\
  exists n, 1 <= n <= 5 /\ JS.denotes (JS.of_Z 3) n.
Proof.
  split; [reflexivity|].
  destruct (@C9_accepted_requests goodBody
              (ResearchRequest.Build "tides" (JS.of_Z 3) (JS.of_Z 3)) eq_refl)
    as (_ & _ & Hq & Hd & _).
  split; [exact Hq|exact Hd].
Defined.

(** A running task shows no progress although progress was reported. *)
Example progress_report_is_lost :
  let tasks :=
    after tt tt keep env0
      [POST_research goodBody (reading 1);
       Progress "task-1700000000001-k3x9" someProgress] in
  exists shown,
    getTask tasks "task-1700000000001-k3x9" = json (TaskView shown) /\
    ResearchTask.status shown = running /\
    ResearchTask.progress shown = None.
Proof. eexists. repeat split. Qed.

(** Settling a task shows up in GET /research/:taskId. *)
Example fulfilled_task_is_shown :
  let tasks :=
    after tt tt keep env0
      [POST_research goodBody (reading 1);
       Fulfilled "task-1700000000001-k3x9"
         {| learnings := ["a"; "b"]; sources := ["u"] |} 1700000000777] in
  exists shown,
    getTask tasks "task-1700000000001-k3x9" = json (TaskView shown) /\
    ResearchTask.status shown = completed /\
    ResearchTask.endTime shown = Some 1700000000777 /\
    ResearchTask.results shown = Some ["a"; "b"].
Proof. eexists. repeat split. Qed.

Lemma C10_witness :
  let q := {| page := Some "2"; limit := Some "2"; status := Some "running" |} in
  (forall n, JS.parseInt (limit q) = Some n -> 0 <= n) /\
  exists taskList,
    listTasks fiveRunning q = json (TaskList taskList 2 2 5 3) /\
    map (@ResearchTask.startTime _ _) taskList
      = [1700000000003; 1700000000002].
Proof.
  intros q.
  assert (Hlimit : forall n, JS.parseInt (limit q) = Some n -> 0 <= n).
  { intros n Hn. vm_compute in Hn. injection Hn as <-. lia. }
  split; [exact Hlimit|].
  destruct (C10_listing fiveRunning q Hlimit)
    as (taskList & number & size & total & pages & selected & sorted
        & Hanswer & _).
  exists taskList. rewrite Hanswer.
  vm_compute in Hanswer.
  injection Hanswer as Htasks Hnumber Hsize Htotal Hpages.
  subst. split; reflexivity.
Defined.

(** C10 as it is stated fails: a requested limit of 0 does not give the
    page size [min(0, 50) = 0]; the server takes the default 10 in its
    place and returns all five tasks on one page. *)
Lemma C10_counterexample :
  JS.parseInt (Some "0") = Some 0 /\
  (exists taskList,
     listTasks fiveRunning {| page := None; limit := Some "0"; status := None |}
       = json (TaskList taskList 1 10 5 1) /\
     List.length taskList = 5%nat) /\
  10 <> Z.min 0 50.
Proof.
  split; [reflexivity|]. split; [|discriminate].
  eexists. split; reflexivity.
Qed.

(** With five tasks stored, the second page of size two holds the third
    and fourth most recent ones. *)
Example listing_second_page :
  exists taskList,
    listTasks fiveRunning {| page := Some "2"; limit := Some "2"; status := Some "running" |}
      = json (TaskList taskList 2 2 5 3) /\
    map (@ResearchTask.startTime _ _) taskList = [1700000000003; 1700000000002].
Proof. eexists. split; reflexivity. Qed.

Example listing_limit_is_capped :
  exists taskList,
    listTasks fiveRunning {| page := None; limit := Some "80"; status := Some "failed" |}
      = json (TaskList taskList 1 50 0 0) /\ taskList = [].
Proof. eexists. split; reflexivity. Qed.

End ServerFacts.

(** ** The research core *)

Module CoreFacts.
Import Core.

(** *** The merger *)

Lemma existsb_eqb_In x seen : existsb (String.eqb x) seen = true <-> In x seen.
Proof.
  rewrite existsb_exists. split.
  - intros (y & Hy & He). apply String.eqb_eq in He. now subst.
  - intros H. exists x. split; auto. apply String.eqb_refl.
Qed.

Lemma firstSeen_In seen l x :
  In x (firstSeen seen l) <-> In x l /\ ~ In x seen.
Proof.
  revert seen. induction l as [|y l IH]; intros seen; simpl.
  - tauto.
  - destruct (existsb (String.eqb y) seen) eqn:E.
    + apply existsb_eqb_In in E. rewrite IH. split.
      * tauto.
      * intros [[->|H] Hn]; tauto.
    + assert (Hy : ~ In y seen).
      { intros H. apply existsb_eqb_In in H. congruence. }
      simpl. rewrite IH. simpl. split.
      * intros [->|[H Hn]]; tauto.
      * intros [[->|H] Hn]; [tauto|].
        destruct (string_dec y x) as [->|Hne]; [tauto|]. right. tauto.
Qed.

Lemma firstSeen_NoDup seen l : NoDup (firstSeen seen l).
Proof.
  revert seen. induction l as [|y l IH]; intros seen; simpl.
  - constructor.
  - destruct (existsb (String.eqb y) seen); auto.
    constructor; auto. rewrite firstSeen_In. simpl. tauto.
Qed.

(** An element that comes before another in the output is seen in the
    input before either of them is. *)
Lemma firstSeen_order seen l l1 x l2 y l3 :
  firstSeen seen l = l1 ++ x :: l2 ++ y :: l3 ->
  exists a b, l = a ++ x :: b /\ ~ In x a /\ ~ In y a.
Proof.
  revert seen l1. induction l as [|z l IH]; intros seen l1; simpl.
  - destruct l1; discriminate.
  - destruct (existsb (String.eqb z) seen) eqn:E.
    + intros H. apply existsb_eqb_In in E.
      assert (Hx : In x (firstSeen seen l)) by (rewrite H; apply in_elt).
      assert (Hy : In y (firstSeen seen l)).
      { rewrite H. apply in_or_app. right. right. apply in_elt. }
      apply firstSeen_In in Hx, Hy.
      destruct (IH _ _ H) as (a & b & -> & Hxa & Hya).
      exists (z :: a), b. simpl. repeat split; auto.
      * intros [->|Hin]; tauto.
      * intros [->|Hin]; tauto.
    + intros H. destruct l1 as [|w l1]; simpl in H; inversion H; subst; clear H.
      * exists [], l. simpl. auto.
      * match goal with H : firstSeen _ _ = _ |- _ => rename H into Hrest end.
        assert (Hx : In x (firstSeen (w :: seen) l)) by (rewrite Hrest; apply in_elt).
        assert (Hy : In y (firstSeen (w :: seen) l)).
        { rewrite Hrest. apply in_or_app. right. right. apply in_elt. }
        apply firstSeen_In in Hx, Hy. simpl in Hx, Hy.
        destruct (IH _ _ Hrest) as (a & b & -> & Hxa & Hya).
        exists (w :: a), b. simpl. repeat split; auto.
        -- intros [->|Hin]; tauto.
        -- intros [->|Hin]; tauto.
Qed.

Lemma merge_learnings_In frameResults x :
  In x (learnings (merge frameResults)) <->
  exists r, In r frameResults /\ In x (learnings r).
Proof.
  unfold merge. cbn [learnings]. rewrite firstSeen_In, in_concat. split.
  - intros [(l & Hl & Hx) _]. apply in_map_iff in Hl.
    destruct Hl as (r & <- & Hr). eauto.
  - intros (r & Hr & Hx). split; [|tauto].
    exists (learnings r). split; auto. now apply in_map.
Qed.

Lemma merge_all_empty frameResults :
  Forall (fun r => r = emptyResult) frameResults ->
  merge frameResults = emptyResult.
Proof.
  intros H. unfold merge.
  assert (Hboth : List.concat (map learnings frameResults) = [] /\
                  List.concat (map sources frameResults) = []).
  { induction H as [|r rs Hr _ [IHl IHs]]; simpl; auto. subst r. simpl. auto. }
  destruct Hboth as [Hl Hs]. now rewrite Hl, Hs.
Qed.

(** *** Lists with indices *)

Lemma map_mapFrom {A B C : Type} (g : B -> C) (f : nat -> A -> B) i l :
  map g (mapFrom i f l) = mapFrom i (fun k x => g (f k x)) l.
Proof. revert i. induction l as [|x l IH]; intros i; simpl; congruence. Qed.

Lemma mapFrom_ext {A B : Type} (f g : nat -> A -> B) i l :
  (forall k x, f k x = g k x) -> mapFrom i f l = mapFrom i g l.
Proof.
  intros H. revert i. induction l as [|x l IH]; intros i; simpl; auto.
  now rewrite H, IH.
Qed.

Lemma flat_map_mapFrom {A B C : Type} (g : B -> list C) (f : nat -> A -> B) i l :
  flat_map g (mapFrom i f l) = List.concat (mapFrom i (fun k x => g (f k x)) l).
Proof. revert i. induction l as [|x l IH]; intros i; simpl; congruence. Qed.

Lemma concat_mapFrom_nil {A B : Type} (f : nat -> A -> list B) i l :
  (forall k x, f k x = []) -> List.concat (mapFrom i f l) = [].
Proof.
  intros H. revert i. induction l as [|x l IH]; intros i; simpl; auto.
  now rewrite H, IH.
Qed.

Lemma concat_mapFrom_single {A B : Type} (f : nat -> A -> B) i l :
  List.concat (mapFrom i (fun k x => [f k x]) l) = mapFrom i f l.
Proof. revert i. induction l as [|x l IH]; intros i; simpl; congruence. Qed.

Lemma Forall_mapFrom {A B : Type} (P : B -> Prop) (f : nat -> A -> B) i l :
  (forall k x, P (f k x)) -> Forall P (mapFrom i f l).
Proof.
  intros H. revert i. induction l as [|x l IH]; intros i; simpl; auto.
Qed.

Lemma nth_error_mapFrom {A B : Type} (f : nat -> A -> B) i l k x :
  nth_error l k = Some x -> nth_error (mapFrom i f l) k = Some (f (i + k)%nat x).
Proof.
  revert i k. induction l as [|y l IH]; intros i [|k]; simpl; try discriminate.
  - intros H. inversion H. now rewrite Nat.add_0_r.
  - intros H. rewrite (IH (S i) k H). f_equal. f_equal. lia.
Qed.

(** *** The controller *)

Section Controller.

Variable plan : Path -> string -> list string -> nat -> option (list SubQuery).
Variable fetch : Path -> string -> option (list Document).
Variable extract : Path -> SubQuery -> list Document -> option Finding.
Variable normalize : string -> string.

(** The result of a frame that has depth left merges what it was given,
    then the learnings of its units, then what its child frames return. *)
Lemma frame_result below at_ topic breadth accumulated :
  exists fromChildren,
    fst (frame plan fetch extract normalize (S below) at_ topic breadth accumulated) =
    merge (accumulated
             :: ownOf fetch extract at_ (planned plan normalize at_ topic (learnings accumulated) breadth)
             ++ fromChildren).
Proof.
  cbn [frame fst]. eexists. f_equal. f_equal. f_equal.
  unfold ownOf. rewrite map_mapFrom. reflexivity.
Qed.

(** With one level left nothing is spawned: the frame is planned, its
    sub-queries are dispatched, and their learnings are its result. *)
Lemma frame_last_level at_ topic breadth accumulated :
  frame plan fetch extract normalize 1 at_ topic breadth accumulated =
  (merge (accumulated
            :: ownOf fetch extract at_ (planned plan normalize at_ topic (learnings accumulated) breadth)),
   Planned at_ topic 1 breadth
     :: mapFrom 0 (fun i q => Dispatched (at_ ++ [i]) q)
          (planned plan normalize at_ topic (learnings accumulated) breadth)).
Proof.
  cbn [frame]. change (1 <? 1)%nat with false. cbv iota.
  set (queries := planned plan normalize at_ topic (learnings accumulated) breadth).
  f_equal.
  - f_equal. f_equal. rewrite map_mapFrom, flat_map_mapFrom.
    rewrite concat_mapFrom_nil by reflexivity.
    now rewrite app_nil_r.
  - f_equal. rewrite flat_map_mapFrom. cbn [fst snd flat_map].
    apply concat_mapFrom_single.
Qed.

(** When every unit of work comes to nothing, so does a frame that was
    given nothing. *)
Lemma frame_degraded :
  (forall at_ q, unitOfWork fetch extract at_ q = (emptyFinding, [])) ->
  forall depth at_ topic breadth,
    fst (frame plan fetch extract normalize depth at_ topic breadth emptyResult)
    = emptyResult.
Proof.
  intros Hunit [|below] at_ topic breadth; [reflexivity|].
  cbn [frame fst].
  set (queries := planned plan normalize at_ topic (learnings emptyResult) breadth).
  apply merge_all_empty. constructor; [reflexivity|].
  apply Forall_app. split.
  - rewrite map_mapFrom. apply Forall_mapFrom. intros k x. cbn [fst snd].
    rewrite Hunit. reflexivity.
  - rewrite flat_map_mapFrom. rewrite concat_mapFrom_nil; [constructor|].
    intros k x. cbn [fst snd]. rewrite Hunit.
    destruct (1 <? S below)%nat; reflexivity.
Qed.

Lemma run_valid query maxDepth maxBreadth :
  1 <= maxDepth <= 5 -> 1 <= maxBreadth <= 5 ->
  run plan fetch extract normalize query maxDepth maxBreadth =
  (Resolved
     (fst (frame plan fetch extract normalize (Z.to_nat maxDepth) [] query
             (Z.to_nat maxBreadth) emptyResult)),
   snd (frame plan fetch extract normalize (Z.to_nat maxDepth) [] query
          (Z.to_nat maxBreadth) emptyResult)).
Proof.
  intros Hd Hb. unfold run.
  destruct (Z.leb_spec 1 maxDepth); [|lia].
  destruct (Z.leb_spec maxDepth 5); [|lia].
  destruct (Z.leb_spec 1 maxBreadth); [|lia].
  destruct (Z.leb_spec maxBreadth 5); [|lia].
  reflexivity.
Qed.

Lemma filter_mapFrom_none {A B : Type} (p : B -> bool) (f : nat -> A -> B) i l :
  (forall k x, p (f k x) = false) -> filter p (mapFrom i f l) = [].
Proof.
  intros H. revert i. induction l as [|x l IH]; intros i; simpl; auto.
  now rewrite H, IH.
Qed.

(** *** Main results on the research core *)

(** C5. The result of a run that resolves has no learning twice and no
    source twice.  It is the merge of the root's contributions, and a merge
    holds exactly the learnings of the results it is given, each at the
    place where it is first seen: a learning that comes before another in
    the merge occurs in the sequence of the given learnings before either
    of the two does. *)
Theorem C5_result_has_no_duplicates query maxDepth maxBreadth r frameResults :
  fst (run plan fetch extract normalize query maxDepth maxBreadth) = Resolved r ->
  (NoDup (learnings r) /\ NoDup (sources r)) /\
  (exists fromChildren,
     r = merge (emptyResult
                  :: ownOf fetch extract []
                       (planned plan normalize [] query [] (Z.to_nat maxBreadth))
                  ++ fromChildren)) /\
  (NoDup (learnings (merge frameResults)) /\
   NoDup (sources (merge frameResults))) /\
  (forall x, In x (learnings (merge frameResults)) <->
             exists fr, In fr frameResults /\ In x (learnings fr)) /\
  (forall l1 x l2 y l3,
     learnings (merge frameResults) = l1 ++ x :: l2 ++ y :: l3 ->
     exists a b,
       List.concat (map learnings frameResults) = a ++ x :: b /\
       ~ In x a /\ ~ In y a).
Proof.
  intros Hrun.
  assert (Hcfg : (1 <= maxDepth <= 5) /\ (1 <= maxBreadth <= 5)).
  { unfold run in Hrun.
    destruct (Z.leb_spec 1 maxDepth); [|discriminate].
    destruct (Z.leb_spec maxDepth 5); [|discriminate].
    destruct (Z.leb_spec 1 maxBreadth); [|discriminate].
    destruct (Z.leb_spec maxBreadth 5); [|discriminate].
    lia. }
  destruct Hcfg as [Hd Hb].
  rewrite (run_valid query Hd Hb) in Hrun. cbn [fst] in Hrun.
  inversion Hrun as [Hr]; clear Hrun.
  destruct (Z.to_nat maxDepth) as [|below] eqn:En; [lia|].
  destruct (frame_result below [] query (Z.to_nat maxBreadth) emptyResult)
    as [fromChildren Hm].
  rewrite Hm.
  split; [split; apply firstSeen_NoDup|].
  split; [exists fromChildren; reflexivity|].
  split; [split; apply firstSeen_NoDup|].
  split; [intros x; apply merge_learnings_In|].
  intros l1 x l2 y l3 Ho. eapply firstSeen_order. exact Ho.
Qed.

(** C6. A run with a valid configuration always resolves with a result,
    whatever fails.  When every call of the adapter fails the result is the
    empty one; likewise when every extraction fails or every plan fails.
    And a failure elsewhere takes nothing from a unit of the root that
    succeeds: its learnings are in the result. *)
Theorem C6_failures_never_abort query maxDepth maxBreadth :
  1 <= maxDepth <= 5 ->
  1 <= maxBreadth <= 5 ->
  (exists r,
     fst (run plan fetch extract normalize query maxDepth maxBreadth) = Resolved r /\
     forall i q documents finding,
       nth_error (planned plan normalize [] query [] (Z.to_nat maxBreadth)) i = Some q ->
       fetch [i] (text q) = Some documents ->
       extract [i] q documents = Some finding ->
       incl (findingLearnings finding) (learnings r)) /\
  ((forall at_ q, fetch at_ q = None) ->
   fst (run plan fetch extract normalize query maxDepth maxBreadth)
   = Resolved emptyResult) /\
  ((forall at_ q documents, extract at_ q documents = None) ->
   fst (run plan fetch extract normalize query maxDepth maxBreadth)
   = Resolved emptyResult) /\
  ((forall at_ topic prior n, plan at_ topic prior n = None) ->
   fst (run plan fetch extract normalize query maxDepth maxBreadth)
   = Resolved emptyResult).
Proof.
  intros Hd Hb. rewrite (run_valid query Hd Hb). cbn [fst].
  split; [|split; [|split]].
  - eexists. split; [reflexivity|].
    intros i q documents finding Hq Hf He x Hx.
    destruct (Z.to_nat maxDepth) as [|below] eqn:En; [lia|].
    destruct (frame_result below [] query (Z.to_nat maxBreadth) emptyResult)
      as [fromChildren Hm].
    rewrite Hm. apply merge_learnings_In.
    exists (contribution (unitOfWork fetch extract [i] q)). split.
    + right. apply in_or_app. left.
      eapply nth_error_In with (n := i). unfold ownOf.
      cbn [learnings emptyResult] in *.
      rewrite (nth_error_mapFrom _ 0 _ _ Hq). reflexivity.
    + unfold unitOfWork. rewrite Hf, He. exact Hx.
  - intros Hfail. f_equal. apply frame_degraded.
    intros at_ q. unfold unitOfWork. now rewrite Hfail.
  - intros Hfail. f_equal. apply frame_degraded.
    intros at_ q. unfold unitOfWork.
    destruct (fetch at_ (text q)); [now rewrite Hfail|reflexivity].
  - intros Hfail. f_equal.
    destruct (Z.to_nat maxDepth) as [|below]; [reflexivity|].
    cbn [frame fst]. unfold planned. rewrite Hfail. reflexivity.
Qed.

(** C7. A run with [maxDepth = 1] plans its root frame, dispatches the
    root's sub-queries and stops there: its events are that plan and those
    dispatches, none of them a spawned child frame, and its result merges
    the learnings and sources of those units only, whatever follow-up
    questions their Findings carry. *)
Theorem C7_single_level_never_recurses query maxBreadth :
  1 <= maxBreadth <= 5 ->
  let queries := planned plan normalize [] query [] (Z.to_nat maxBreadth) in
  let outcome := run plan fetch extract normalize query 1 maxBreadth in
  outcome =
    (Resolved (merge (emptyResult :: ownOf fetch extract [] queries)),
     Planned [] query 1 (Z.to_nat maxBreadth)
       :: mapFrom 0 (fun i q => Dispatched [i] q) queries) /\
  filter isSpawned (snd outcome) = [] /\
  filter isPlanned (snd outcome) = [Planned [] query 1 (Z.to_nat maxBreadth)] /\
  List.length (filter isDispatched (snd outcome)) = List.length queries.
Proof.
  intros Hb queries outcome.
  assert (Hrun : outcome =
    (Resolved (merge (emptyResult :: ownOf fetch extract [] queries)),
     Planned [] query 1 (Z.to_nat maxBreadth)
       :: mapFrom 0 (fun i q => Dispatched [i] q) queries)).
  { subst outcome. rewrite (run_valid query (maxDepth := 1) ltac:(lia) Hb).
    change (Z.to_nat 1) with 1%nat. rewrite frame_last_level. reflexivity. }
  split; [exact Hrun|]. rewrite Hrun. cbn [snd filter isSpawned isPlanned isDispatched].
  repeat split.
  - now apply filter_mapFrom_none.
  - f_equal. now apply filter_mapFrom_none.
  - clear. generalize 0%nat. induction queries as [|q qs IH]; intros n; simpl; auto.
Qed.

End Controller.

(** *** The results at sample inputs *)

Import Samples.

Lemma C5_witness :
  fst (run stubPlan stubFetch sameExtract asIs "rain" 2 2)
    = Resolved {| learnings := ["water is wet"]; sources := ["doc:A"; "doc:B"] |} /\
  NoDup ["water is wet"] /\
  NoDup ["doc:A"; "doc:B"].
Proof.
  split; [reflexivity|].
  exact (proj1 (@C5_result_has_no_duplicates stubPlan stubFetch sameExtract asIs
                  "rain" 2 2
                  {| learnings := ["water is wet"]; sources := ["doc:A"; "doc:B"] |}
                  [] eq_refl)).
Defined.

Lemma C6_witness :
  1 <= 3 <= 5 /\ 1 <= 2 <= 5 /\
  (forall at_ q, failingFetch at_ q = None) /\
  fst (run stubPlan failingFetch stubExtract asIs "rain" 3 2) = Resolved emptyResult.
Proof.
  assert (Hd : 1 <= 3 <= 5) by lia.
  assert (Hb : 1 <= 2 <= 5) by lia.
  assert (Hf : forall at_ q, failingFetch at_ q = None) by reflexivity.
  split; [exact Hd|]. split; [exact Hb|]. split; [exact Hf|].
  exact (proj1 (proj2 (C6_failures_never_abort stubPlan failingFetch stubExtract
                         asIs "rain" Hd Hb)) Hf).
Defined.

Lemma C7_witness :
  1 <= 2 <= 5 /\
  filter isSpawned (snd (run stubPlan stubFetch stubExtract asIs "rain" 1 2)) = [] /\
  fst (run stubPlan stubFetch stubExtract asIs "rain" 1 2)
    = Resolved {| learnings := ["about A"; "about B"];
                  sources := ["doc:A"; "doc:B"] |}.
Proof.
  assert (Hb : 1 <= 2 <= 5) by lia.
  split; [exact Hb|].
  split.
  - exact (proj1 (proj2 (C7_single_level_never_recurses stubPlan stubFetch
                           stubExtract asIs "rain" Hb))).
  - reflexivity.
Defined.

(** With two levels the follow-up questions of "A" and "B" do spawn child
    frames (which the stub planner leaves without sub-queries). *)
Example two_levels_spawn :
  map isSpawned (snd (run stubPlan stubFetch stubExtract asIs "rain" 2 2))
    = [false; false; true; false; false; true; false] /\
  fst (run stubPlan stubFetch stubExtract asIs "rain" 2 2)
    = Resolved {| learnings := ["about A"; "about B"];
                  sources := ["doc:A"; "doc:B"] |}.
Proof. split; reflexivity. Qed.

Example invalid_configuration_fails_fast :
  run stubPlan stubFetch stubExtract asIs "rain" 0 2 = (ConfigurationError, []) /\
  run stubPlan stubFetch stubExtract asIs "rain" 2 6 = (ConfigurationError, []).
Proof. split; reflexivity. Qed.

Example merge_keeps_first_seen_order :
  merge [ {| learnings := ["b"; "a"]; sources := ["u"] |};
          {| learnings := ["a"; "c"; "b"]; sources := ["v"; "u"] |} ]
  = {| learnings := ["b"; "a"; "c"]; sources := ["u"; "v"] |}.
Proof. reflexivity. Qed.

End CoreFacts.

(** ** Progress accounting *)

Module AccountingFacts.
Import Accounting.

Local Open Scope nat_scope.

Lemma length_removeNth {A : Type} (l : list A) i x :
  nth_error l i = Some x -> S (List.length (removeNth i l)) = List.length l.
Proof.
  intros H. unfold removeNth.
  assert (i < List.length l) by (apply nth_error_Some; congruence).
  rewrite length_app, length_firstn, length_skipn. lia.
Qed.

Section Machine.

Variable planWeight : nat -> nat -> nat -> nat.

(** A unit that completes, failed or not, leaves the units in flight and
    adds exactly one to [completedQueries]. *)
Lemma step_complete c c' i outcome :
  step planWeight c (Complete i outcome) = Some c' ->
  completedQueries c' = completedQueries c + 1 /\
  S (List.length (inFlight c')) = List.length (inFlight c) /\
  dispatched c' = dispatched c.
Proof.
  cbn [step]. destruct (nth_error (inFlight c) i) as [[d b]|] eqn:E; [|discriminate].
  intros H. inversion H; subst; clear H. cbn.
  repeat split. eapply length_removeNth; eauto.
Qed.

(** A plan completes nothing. *)
Lemma step_plan c c' i n :
  step planWeight c (Plan i n) = Some c' ->
  completedQueries c' = completedQueries c.
Proof.
  cbn [step]. destruct (nth_error (waiting c) i) as [[[|d] b]|]; [| |discriminate];
    intros H; inversion H; reflexivity.
Qed.

Hypothesis plans_are_counted : forall d b n, n <= planWeight d b n.

Lemma step_balanced c c' s :
  step planWeight c s = Some c' -> balanced c -> balanced c'.
Proof.
  unfold balanced. destruct s as [i n|i outcome]; cbn [step].
  - destruct (nth_error (waiting c) i) as [[[|d] b]|]; [| |discriminate];
      intros H [H1 H2]; inversion H; subst; clear H; cbn.
    + auto.
    + rewrite length_app, repeat_length.
      pose proof (plans_are_counted (S d) b n). lia.
  - destruct (nth_error (inFlight c) i) as [[d b]|] eqn:E; [|discriminate].
    intros H [H1 H2]; inversion H; subst; clear H; cbn.
    pose proof (length_removeNth _ _ E). lia.
Qed.

Lemma exec_balanced steps c c' :
  exec planWeight c steps = Some c' -> balanced c -> balanced c'.
Proof.
  revert c. induction steps as [|s steps IH]; intros c; simpl.
  - intros H; inversion H; subst; auto.
  - destruct (step planWeight c s) as [c1|] eqn:E; [|discriminate].
    intros H Hb. eapply IH; eauto. eapply step_balanced; eauto.
Qed.

End Machine.

Lemma init_balanced maxDepth maxBreadth : balanced (init maxDepth maxBreadth).
Proof. unfold balanced. cbn. lia. Qed.

Lemma resolved_nothing_in_flight c :
  resolved c = true -> waiting c = [] /\ inFlight c = [].
Proof.
  unfold resolved. destruct (waiting c); [|discriminate].
  destruct (inFlight c); [auto|discriminate].
Qed.

(** However a plan is counted, some run of depth two resolves with the two
    counters apart: either the root's single sub-query finds nothing to
    follow up, and the counters differ unless its plan counted one; or it
    finds one follow-up question, whose child frame plans no sub-query, and
    the counters differ if the plan did count one. *)
Lemma counters_part_for_every_weight (planWeight : nat -> nat -> nat -> nat) :
  exists steps c,
    exec planWeight (init 2 1) steps = Some c /\
    resolved c = true /\
    completedQueries c <> totalQueries c.
Proof.
  destruct (Nat.eq_dec (planWeight 2 1 1) 1) as [He|Hne].
  - exists [Plan 0 1; Complete 0 (Some 1); Plan 0 0]. eexists.
    split; [reflexivity|]. cbn. split; [reflexivity|]. lia.
  - exists [Plan 0 1; Complete 0 None]. eexists.
    split; [reflexivity|]. cbn. split; [reflexivity|]. lia.
Qed.

(** With a plan counted as its number of sub-queries: the root, at depth
    two, dispatches one sub-query, which finds one follow-up question; the
    child frame spawned for it plans no sub-query; the run of the machine
    resolves with one query completed and a total of two.  And no way of
    counting a plan from the budget of its frame and the number of its
    sub-queries makes the counters of the machine meet in every run that
    resolves. *)
Lemma counters_part_in_a_resolved_run :
  exec perSubQuery (init 2 1) [Plan 0 1; Complete 0 (Some 1); Plan 0 0]
  = Some {| waiting := []; inFlight := []; totalQueries := 2;
            completedQueries := 1; dispatched := 1; spawned := 1 |} /\
  resolved {| waiting := []; inFlight := []; totalQueries := 2;
              completedQueries := 1; dispatched := 1; spawned := 1 |} = true /\
  ~ (exists planWeight,
       forall steps c,
         exec planWeight (init 2 1) steps = Some c ->
         resolved c = true ->
         completedQueries c = totalQueries c).
Proof.
  split; [reflexivity|]. split; [reflexivity|].
  intros [planWeight Hall].
  destruct (counters_part_for_every_weight planWeight) as (steps & c & He & Hr & Hne).
  apply Hne. now apply (Hall steps).
Qed.

(** Let each plan raise [totalQueries] by at least the number of
    sub-queries it dispatches.  Then at every point of a run, in
    whatever order its units complete, each sub-query that was dispatched is
    either still in flight or has been counted once in [completedQueries],
    and [completedQueries] does not exceed [totalQueries]; a unit that
    completes, failed or not, adds exactly one, and a plan adds none.  When
    the run resolves, [completedQueries] is the number of sub-queries that
    were dispatched, and [totalQueries] exceeds it by at least the number of
    child frames that were spawned. *)
Lemma progress_accounting planWeight maxDepth maxBreadth steps c :
  (forall d b n, n <= planWeight d b n) ->
  exec planWeight (init maxDepth maxBreadth) steps = Some c ->
  completedQueries c + List.length (inFlight c) = dispatched c /\
  completedQueries c <= totalQueries c /\
  (forall i outcome c',
     step planWeight c (Complete i outcome) = Some c' ->
     completedQueries c' = completedQueries c + 1 /\
     S (List.length (inFlight c')) = List.length (inFlight c)) /\
  (forall i n c',
     step planWeight c (Plan i n) = Some c' ->
     completedQueries c' = completedQueries c) /\
  (resolved c = true ->
   completedQueries c = dispatched c /\
   completedQueries c + spawned c <= totalQueries c).
Proof.
  intros Hw Hexec.
  assert (Hb : balanced c).
  { eapply exec_balanced; [exact Hw|exact Hexec|apply init_balanced]. }
  destruct Hb as [H1 H2].
  repeat split.
  - exact H1.
  - lia.
  - eapply step_complete; eauto.
  - eapply step_complete; eauto.
  - intros i n c'. apply step_plan.
  - apply resolved_nothing_in_flight in H. destruct H as [_ Hf].
    rewrite Hf in H1. cbn in H1. lia.
  - apply resolved_nothing_in_flight in H. destruct H as [_ Hf].
    rewrite Hf in H1. cbn in H1. lia.
Qed.

Example progress_accounting_of_a_run :
  (forall d b n, n <= perSubQuery d b n) /\
  exec perSubQuery (init 2 2)
    [Plan 0 2; Complete 1 (Some 1); Plan 0 1; Complete 0 None; Complete 0 (Some 0)]
  = Some {| waiting := []; inFlight := []; totalQueries := 4;
            completedQueries := 3; dispatched := 3; spawned := 1 |} /\
  3 <= 4.
Proof.
  assert (Hw : forall d b n, n <= perSubQuery d b n) by (intros; apply Nat.le_refl).
  split; [exact Hw|]. split; [reflexivity|].
  exact (proj1 (proj2 (@progress_accounting perSubQuery 2 2
    [Plan 0 2; Complete 1 (Some 1); Plan 0 1; Complete 0 None; Complete 0 (Some 0)]
    _ Hw eq_refl))).
Defined.

Lemma Forall_removeNth {A : Type} (P : A -> Prop) i (l : list A) :
  Forall P l -> Forall P (removeNth i l).
Proof.
  intros H. unfold removeNth. rewrite Forall_forall in *.
  intros x Hx. apply H. apply in_app_or in Hx. destruct Hx as [Hx|Hx].
  - rewrite <- (firstn_skipn i l). apply in_or_app. now left.
  - rewrite <- (firstn_skipn (S i) l). apply in_or_app. now right.
Qed.

Lemma step_lastLevel planWeight c c' s :
  step planWeight c s = Some c' -> lastLevel c -> lastLevel c'.
Proof.
  unfold lastLevel. destruct s as [i n|i outcome]; cbn [step].
  - destruct (nth_error (waiting c) i) as [[[|d] b]|] eqn:E; [| |discriminate];
      intros H (Hw & Hf & Hs); inversion H; subst; clear H; cbn;
      (split; [now apply Forall_removeNth|]); split; auto.
    apply Forall_app. split; auto.
    apply Forall_forall. intros x Hx. apply repeat_spec in Hx. subst x.
    rewrite Forall_forall in Hw. apply (Hw (S d, b)).
    eapply nth_error_In; eauto.
  - destruct (nth_error (inFlight c) i) as [[d b]|] eqn:E; [|discriminate].
    intros H (Hw & Hf & Hs).
    assert (Hd : d <= 1).
    { rewrite Forall_forall in Hf. apply (Hf (d, b)). eapply nth_error_In; eauto. }
    destruct (Nat.ltb_spec 1 d) as [Hlt|_]; [lia|].
    inversion H; subst; clear H.
    cbn [waiting inFlight spawned repeat]. rewrite app_nil_r.
    repeat split; auto.
    + now apply Forall_removeNth.
    + lia.
Qed.

(** A run that starts with one level never spawns a child frame, in
    whatever order its units complete and whatever they find. *)
Lemma single_level_never_spawns planWeight maxBreadth steps c :
  exec planWeight (init 1 maxBreadth) steps = Some c -> spawned c = 0.
Proof.
  assert (H : forall c0, lastLevel c0 -> exec planWeight c0 steps = Some c ->
                         lastLevel c).
  { induction steps as [|s steps IH]; intros c0 Hl; simpl.
    - intros He; inversion He; subst; auto.
    - destruct (step planWeight c0 s) as [c1|] eqn:E; [|discriminate].
      apply IH. eapply step_lastLevel; eauto. }
  intros He. apply (H (init 1 maxBreadth)) in He; [apply He|].
  unfold lastLevel. cbn. repeat split; auto.
Qed.

(** The stub run of the specification: the root plans "A" and "B", neither
    has a follow-up question, and the counters meet at two, in either order
    of completion. *)
Example two_queries_no_follow_up :
  exec perSubQuery (init 2 2) [Plan 0 2; Complete 1 (Some 0); Complete 0 (Some 0)]
  = Some {| waiting := []; inFlight := []; totalQueries := 2;
            completedQueries := 2; dispatched := 2; spawned := 0 |} /\
  exec perSubQuery (init 2 2) [Plan 0 2; Complete 0 (Some 0); Complete 0 (Some 0)]
  = Some {| waiting := []; inFlight := []; totalQueries := 2;
            completedQueries := 2; dispatched := 2; spawned := 0 |}.
Proof. split; reflexivity. Qed.

(** How a plan is counted decides whether the counters meet.  The root
    dispatches one sub-query, which finds one follow-up question, and the
    child frame dispatches one sub-query in its turn: with each plan counted
    as its number of sub-queries the run resolves with two completed of a
    total of three; with the child's plan counted beyond the spawning of
    its frame, with two of two. *)
Example counting_decides_whether_counters_meet :
  exec perSubQuery (init 2 1)
    [Plan 0 1; Complete 0 (Some 1); Plan 0 1; Complete 0 None]
  = Some {| waiting := []; inFlight := []; totalQueries := 3;
            completedQueries := 2; dispatched := 2; spawned := 1 |} /\
  exec (beyondSpawn 2) (init 2 1)
    [Plan 0 1; Complete 0 (Some 1); Plan 0 1; Complete 0 None]
  = Some {| waiting := []; inFlight := []; totalQueries := 2;
            completedQueries := 2; dispatched := 2; spawned := 1 |}.
Proof. split; reflexivity. Qed.

(** With one level nothing is ever spawned, whatever the units find. *)
Example single_level_spawns_nothing :
  exec perSubQuery (init 1 3) [Plan 0 3; Complete 2 (Some 4); Complete 0 None; Complete 0 (Some 1)]
  = Some {| waiting := []; inFlight := []; totalQueries := 3;
            completedQueries := 3; dispatched := 3; spawned := 0 |}.
Proof. reflexivity. Qed.

End AccountingFacts.

(** ** More on the task layer: the store, the answers, the listing *)

Module StoreFacts.
Import Views.

Section MapMore.
Context {V : Type}.
Implicit Types (m : JS.Map V) (k : string) (v : V).

Lemma mapGet_None_iff m k : JS.mapGet m k = None <-> ~ In k (mapKeys m).
Proof.
  unfold mapKeys. induction m as [|[k' v'] m IH]; simpl.
  - tauto.
  - destruct (String.eqb_spec k' k) as [->|Hne].
    + split; [discriminate|]. intros H. exfalso. apply H. now left.
    + rewrite IH. split.
      * intros H [He|Hin]; [congruence|tauto].
      * intros H Hin. apply H. now right.
Qed.

(** Setting a key keeps the keys in their places and puts a new key last. *)
Lemma mapKeys_mapSet m k v :
  mapKeys (JS.mapSet m k v) =
  match JS.mapGet m k with
  | Some _ => mapKeys m
  | None => mapKeys m ++ [k]
  end.
Proof.
  unfold mapKeys. induction m as [|[k' v'] m IH]; simpl; auto.
  destruct (String.eqb k' k); simpl; auto.
  rewrite IH. now destruct (JS.mapGet m k).
Qed.

Lemma NoDup_mapKeys_mapSet m k v :
  NoDup (mapKeys m) -> NoDup (mapKeys (JS.mapSet m k v)).
Proof.
  intros Hnd. rewrite mapKeys_mapSet.
  destruct (JS.mapGet m k) eqn:E; auto.
  apply mapGet_None_iff in E.
  apply NoDup_app; [exact Hnd|repeat constructor; intros []|].
  intros x Hx [->|[]]. contradiction.
Qed.

(** With distinct keys, an entry of the map is what its key looks up. *)
Lemma In_mapGet m k v :
  NoDup (mapKeys m) -> In (k, v) m -> JS.mapGet m k = Some v.
Proof.
  unfold mapKeys. induction m as [|[k' v'] m IH]; simpl; [tauto|].
  intros Hnd [He|Hin].
  - inversion He; subst. now rewrite String.eqb_refl.
  - inversion Hnd as [|? ? Hk Hnd']; subst.
    destruct (String.eqb_spec k' k) as [->|Hne].
    + exfalso. apply Hk. change k with (fst (k, v)). now apply in_map.
    + now apply IH.
Qed.

Lemma mapGet_In_entry m k v : JS.mapGet m k = Some v -> In (k, v) m.
Proof.
  induction m as [|[k' v'] m IH]; simpl; [discriminate|].
  destruct (String.eqb_spec k' k) as [->|Hne].
  - intros H; inversion H; subst. now left.
  - intros H. right. now apply IH.
Qed.

Lemma In_entry_mapSet m k v (kv : string * V) :
  In kv (JS.mapSet m k v) -> kv = (k, v) \/ In kv m.
Proof.
  induction m as [|[k' v'] m IH]; simpl.
  - intros [H|[]]; auto.
  - destruct (String.eqb_spec k' k) as [->|Hne]; simpl.
    + intros [H|H]; auto.
    + intros [H|H]; auto. destruct (IH H); auto.
Qed.
End MapMore.

Section SliceMore.
Context {A : Type}.

(** A slice from the start to a negative end drops that many elements from
    the end. *)
Lemma slice_negative_end (l : list A) stop :
  stop < 0 ->
  JS.slice l 0 stop = firstn (Z.to_nat (Z.of_nat (List.length l) + stop)) l.
Proof.
  intros Hs. unfold JS.slice, JS.clampIndex.
  destruct (Z.ltb_spec 0 0); [lia|].
  destruct (Z.ltb_spec stop 0); [|lia].
  rewrite Z.min_l by lia. cbn [Z.to_nat skipn]. f_equal. lia.
Qed.

Lemma slice_nil start stop : JS.slice (@nil A) start stop = [].
Proof. unfold JS.slice. rewrite skipn_nil. apply firstn_nil. Qed.

Lemma nth_error_window (l : list A) a width j :
  (j < width)%nat ->
  nth_error (firstn width (skipn a l)) j = nth_error l (a + j).
Proof.
  intros Hj. rewrite nth_error_firstn.
  destruct (Nat.ltb_spec j width); [|lia].
  apply nth_error_skipn.
Qed.
End SliceMore.

End StoreFacts.

Module ServerExtras.
Import Server Views.

Section WithManagers.

Variables ProgressManager OutputManager : Type.
Variable ProgressManager_new : ProgressManager.
Variable OutputManager_new : OutputManager.
Variable ProgressManager_update :
  ProgressManager -> ResearchProgress -> ProgressManager.

Implicit Types (tasks : Tasks ProgressManager OutputManager).
Implicit Types (env : Env) (io : Reading) (reqBody : JS.value).

(** *** What each event does to the keys of the store *)

Lemma update_keeps_keys tasks k t t' :
  JS.mapGet tasks k = Some t -> mapKeys (JS.mapSet tasks k t') = mapKeys tasks.
Proof. intros H. rewrite StoreFacts.mapKeys_mapSet. now rewrite H. Qed.

Lemma handlers_keep_keys tasks taskId :
  (forall p, mapKeys (onProgress ProgressManager_update taskId p tasks) = mapKeys tasks) /\
  (forall result now, mapKeys (onFulfilled taskId result now tasks) = mapKeys tasks) /\
  (forall error now, mapKeys (onRejected taskId error now tasks) = mapKeys tasks).
Proof.
  unfold onProgress, onFulfilled, onRejected.
  destruct (JS.mapGet tasks taskId) as [t|] eqn:E; [|auto].
  repeat split; intros.
  - destruct (ResearchTask.progress t); auto. eapply update_keeps_keys; eauto.
  - eapply update_keeps_keys; eauto.
  - eapply update_keeps_keys; eauto.
Qed.

Lemma step_keys env tasks ev :
  exists added,
    mapKeys (step ProgressManager_new OutputManager_new ProgressManager_update
               env tasks ev) = mapKeys tasks ++ added /\
    incl added (postedIds [ev]) /\
    (forall k, In k added -> JS.mapGet tasks k = None).
Proof.
  destruct ev as [reqBody io|id|q| |id p|id result now|id e now]; cbn [step];
    try (exists []; rewrite app_nil_r; split;
         [ try reflexivity; apply (handlers_keep_keys tasks id)
         | split; [intros x []|intros k []] ]).
  destruct (ServerFacts.postResearch_store ProgressManager_new OutputManager_new
              env tasks reqBody io) as [Hsame|(task & Hset & _)];
    cbv zeta in *.
  - rewrite Hsame. exists []. rewrite app_nil_r. split; [reflexivity|].
    split; [intros x []|intros k []].
  - rewrite Hset, StoreFacts.mapKeys_mapSet.
    destruct (JS.mapGet tasks (makeTaskId io)) eqn:E.
    + exists []. rewrite app_nil_r. split; [reflexivity|].
      split; [intros x []|intros k []].
    + exists [makeTaskId io]. split; [reflexivity|]. split.
      * unfold postedIds. cbn [flat_map app]. apply incl_refl.
      * intros k [<-|[]]. exact E.
Qed.

Lemma postedIds_app evs1 evs2 : postedIds (evs1 ++ evs2) = postedIds evs1 ++ postedIds evs2.
Proof. unfold postedIds. apply flat_map_app. Qed.

(** *** Tasks stay where they are *)

(** The keys of the store stay, in their order; the keys that come after
    them are identifiers of POST requests handled since. *)
Lemma steps_keys env evs tasks :
  exists added,
    mapKeys (fold_left (step ProgressManager_new OutputManager_new
                          ProgressManager_update env) evs tasks)
      = mapKeys tasks ++ added /\
    incl added (postedIds evs) /\
    JS.mapSize tasks
      <= JS.mapSize (fold_left (step ProgressManager_new OutputManager_new
                                  ProgressManager_update env) evs tasks).
Proof.
  revert tasks. induction evs as [|ev evs IH]; intros tasks; cbn [fold_left].
  - exists []. rewrite app_nil_r. repeat split; [intros x []|lia].
  - destruct (step_keys env tasks ev) as (a1 & H1 & Hi1 & _).
    destruct (IH (step ProgressManager_new OutputManager_new
                    ProgressManager_update env tasks ev)) as (a2 & H2 & Hi2 & Hs2).
    exists (a1 ++ a2). rewrite H2, H1, app_assoc. split; [reflexivity|]. split.
    + change (ev :: evs) with ([ev] ++ evs). rewrite postedIds_app.
      apply incl_app; [apply incl_appl|apply incl_appr]; assumption.
    + assert (Hlen : JS.mapSize tasks <=
                JS.mapSize (step ProgressManager_new OutputManager_new
                              ProgressManager_update env tasks ev)).
      { unfold JS.mapSize.
        assert (Hk : List.length (mapKeys (step ProgressManager_new OutputManager_new
                       ProgressManager_update env tasks ev))
                     = (List.length (mapKeys tasks) + List.length a1)%nat).
        { rewrite H1. apply length_app. }
        unfold mapKeys in Hk. rewrite !length_map in Hk. lia. }
      lia.
Qed.


(** What one event leaves of a stored task: a task is still stored under
    its key, and unless the event is a POST that gives its task the same
    identifier, that task has the identifier, query, depth, breadth, start
    time and output manager of the one before. *)
Lemma step_keeps_request env tasks ev k t :
  JS.mapGet tasks k = Some t ->
  exists t',
    JS.mapGet (step ProgressManager_new OutputManager_new ProgressManager_update
                 env tasks ev) k = Some t' /\
    (~ In k (postedIds [ev]) ->
     ResearchTask.id t' = ResearchTask.id t /\
     ResearchTask.query t' = ResearchTask.query t /\
     ResearchTask.depth t' = ResearchTask.depth t /\
     ResearchTask.breadth t' = ResearchTask.breadth t /\
     ResearchTask.startTime t' = ResearchTask.startTime t /\
     ResearchTask.output t' = ResearchTask.output t).
Proof.
  intros Hget.
  assert (Hsame : exists t', JS.mapGet tasks k = Some t' /\
            (~ In k (postedIds [ev]) ->
             ResearchTask.id t' = ResearchTask.id t /\
             ResearchTask.query t' = ResearchTask.query t /\
             ResearchTask.depth t' = ResearchTask.depth t /\
             ResearchTask.breadth t' = ResearchTask.breadth t /\
             ResearchTask.startTime t' = ResearchTask.startTime t /\
             ResearchTask.output t' = ResearchTask.output t))
    by (exists t; repeat split; auto).
  assert (Hset : forall id old t',
            JS.mapGet tasks id = Some old ->
            ResearchTask.id t' = ResearchTask.id old ->
            ResearchTask.query t' = ResearchTask.query old ->
            ResearchTask.depth t' = ResearchTask.depth old ->
            ResearchTask.breadth t' = ResearchTask.breadth old ->
            ResearchTask.startTime t' = ResearchTask.startTime old ->
            ResearchTask.output t' = ResearchTask.output old ->
            exists t'', JS.mapGet (JS.mapSet tasks id t') k = Some t'' /\
              (~ In k (postedIds [ev]) ->
               ResearchTask.id t'' = ResearchTask.id t /\
               ResearchTask.query t'' = ResearchTask.query t /\
               ResearchTask.depth t'' = ResearchTask.depth t /\
               ResearchTask.breadth t'' = ResearchTask.breadth t /\
               ResearchTask.startTime t'' = ResearchTask.startTime t /\
               ResearchTask.output t'' = ResearchTask.output t)).
  { intros id old t' Hold H1 H2 H3 H4 H5 H6.
    destruct (string_dec id k) as [->|Hne].
    - rewrite JSFacts.mapGet_mapSet_same. exists t'.
      assert (old = t) by congruence. subst old. auto 10.
    - rewrite JSFacts.mapGet_mapSet_other by exact Hne. exists t. auto 10. }
  destruct ev as [reqBody io|id|q| |id p|id result now|id e now]; cbn [step];
    try exact Hsame.
  - destruct (ServerFacts.postResearch_store ProgressManager_new
                OutputManager_new env tasks reqBody io)
      as [Hkept|(task & Hstored & _)]; cbv zeta in *.
    + rewrite Hkept. exact Hsame.
    + rewrite Hstored. destruct (string_dec (makeTaskId io) k) as [Heq|Hne].
      * rewrite Heq, JSFacts.mapGet_mapSet_same. exists task. split; [reflexivity|].
        intros Hnot. exfalso. apply Hnot. left. exact Heq.
      * rewrite JSFacts.mapGet_mapSet_other by exact Hne. exists t. auto 10.
  - unfold onProgress. destruct (JS.mapGet tasks id) as [old|] eqn:E;
      [|exact Hsame].
    destruct (ResearchTask.progress old); [|exact Hsame].
    eapply Hset; [exact E|reflexivity..].
  - unfold onFulfilled. destruct (JS.mapGet tasks id) as [old|] eqn:E;
      [|exact Hsame].
    eapply Hset; [exact E|reflexivity..].
  - unfold onRejected. destruct (JS.mapGet tasks id) as [old|] eqn:E;
      [|exact Hsame].
    eapply Hset; [exact E|reflexivity..].
Qed.

(** Whatever the server handles, the store only grows.  Its keys stay, in
    their order, and the keys that come after them are identifiers of POST
    requests handled since.  A task is still stored under every key that
    had one; and unless a POST handled since gave its task the same
    identifier, which puts the new task in the place of the stored one,
    that task is the stored one as far as the request goes: it has its
    identifier, query, depth, breadth, start time and output manager (its
    status, error, end time, results and progress are what the handlers of
    the run set). *)
Theorem store_only_grows env evs tasks :
  let later :=
    fold_left (step ProgressManager_new OutputManager_new
                 ProgressManager_update env) evs tasks in
  (exists added,
     mapKeys later = mapKeys tasks ++ added /\ incl added (postedIds evs)) /\
  JS.mapSize tasks <= JS.mapSize later /\
  (forall k t,
     JS.mapGet tasks k = Some t ->
     exists t',
       JS.mapGet later k = Some t' /\
       (~ In k (postedIds evs) ->
        ResearchTask.id t' = ResearchTask.id t /\
        ResearchTask.query t' = ResearchTask.query t /\
        ResearchTask.depth t' = ResearchTask.depth t /\
        ResearchTask.breadth t' = ResearchTask.breadth t /\
        ResearchTask.startTime t' = ResearchTask.startTime t /\
        ResearchTask.output t' = ResearchTask.output t)).
Proof.
  cbv zeta. split; [|split].
  - destruct (steps_keys env evs tasks) as (added & Hkeys & Hincl & _).
    exists added. auto.
  - destruct (steps_keys env evs tasks) as (added & _ & _ & Hsize). exact Hsize.
  - revert tasks. induction evs as [|ev evs IH]; intros tasks k t Hget;
      cbn [fold_left].
    + exists t. auto 10.
    + destruct (@step_keeps_request env tasks ev k t Hget)
        as (t1 & Hget1 & Hsame1).
      destruct (IH _ k t1 Hget1) as (t2 & Hget2 & Hsame2).
      exists t2. split; [exact Hget2|].
      intros Hnot.
      assert (Hnot1 : ~ In k (postedIds [ev])).
      { intros Hin. apply Hnot.
        change (ev :: evs) with ([ev] ++ evs). rewrite postedIds_app.
        apply in_or_app. now left. }
      assert (Hnot2 : ~ In k (postedIds evs)).
      { intros Hin. apply Hnot.
        change (ev :: evs) with ([ev] ++ evs). rewrite postedIds_app.
        apply in_or_app. now right. }
      destruct (Hsame1 Hnot1) as (A1 & A2 & A3 & A4 & A5 & A6).
      destruct (Hsame2 Hnot2) as (B1 & B2 & B3 & B4 & B5 & B6).
      repeat split; congruence.
Qed.

(** *** Keys and identifiers *)

Lemma keyedById_mapSet tasks k t :
  keyedById tasks -> ResearchTask.id t = k -> keyedById (JS.mapSet tasks k t).
Proof.
  unfold keyedById. intros Hall Hid. apply Forall_forall. intros kv Hin.
  destruct (StoreFacts.In_entry_mapSet _ _ _ _ Hin) as [->|Hold]; [exact Hid|].
  rewrite Forall_forall in Hall. auto.
Qed.

Lemma keyedById_mapGet tasks k t :
  keyedById tasks -> JS.mapGet tasks k = Some t -> ResearchTask.id t = k.
Proof.
  unfold keyedById. intros Hall Hget. rewrite Forall_forall in Hall.
  apply (Hall (k, t)). now apply StoreFacts.mapGet_In_entry.
Qed.

Lemma step_keyedById env tasks ev :
  keyedById tasks /\ NoDup (mapKeys tasks) ->
  keyedById (step ProgressManager_new OutputManager_new ProgressManager_update
               env tasks ev) /\
  NoDup (mapKeys (step ProgressManager_new OutputManager_new
                    ProgressManager_update env tasks ev)).
Proof.
  intros [Hk Hnd].
  destruct ev as [reqBody io|id|q| |id p|id result now|id e now]; cbn [step]; auto.
  - unfold postResearch.
    destruct (Zod.safeParse ResearchRequestSchema reqBody); cbn [fst snd]; auto.
    destruct (geMax _ _); cbn [fst snd]; auto.
    split; [now apply keyedById_mapSet|now apply StoreFacts.NoDup_mapKeys_mapSet].
  - unfold onProgress. destruct (JS.mapGet tasks id) as [t|] eqn:E; auto.
    destruct (ResearchTask.progress t); auto.
    split; [|now apply StoreFacts.NoDup_mapKeys_mapSet].
    apply keyedById_mapSet; auto. cbn. eapply keyedById_mapGet; eauto.
  - unfold onFulfilled. destruct (JS.mapGet tasks id) as [t|] eqn:E; auto.
    split; [|now apply StoreFacts.NoDup_mapKeys_mapSet].
    apply keyedById_mapSet; auto. cbn. eapply keyedById_mapGet; eauto.
  - unfold onRejected. destruct (JS.mapGet tasks id) as [t|] eqn:E; auto.
    split; [|now apply StoreFacts.NoDup_mapKeys_mapSet].
    apply keyedById_mapSet; auto. cbn. eapply keyedById_mapGet; eauto.
Qed.

(** In every state the server reaches, each task is stored under its own
    identifier, and no identifier is stored twice. *)
Theorem tasks_are_keyed_by_id env evs :
  keyedById (after ProgressManager_new OutputManager_new ProgressManager_update
               env evs) /\
  NoDup (mapKeys (after ProgressManager_new OutputManager_new
                    ProgressManager_update env evs)).
Proof.
  unfold after.
  assert (H : forall tasks, keyedById tasks /\ NoDup (mapKeys tasks) ->
    keyedById (fold_left (step ProgressManager_new OutputManager_new
                            ProgressManager_update env) evs tasks) /\
    NoDup (mapKeys (fold_left (step ProgressManager_new OutputManager_new
                                 ProgressManager_update env) evs tasks))).
  { induction evs as [|ev evs IH]; intros tasks Ht; cbn [fold_left]; auto.
    apply IH. now apply step_keyedById. }
  apply H. split; constructor.
Qed.

(** GET /research/:taskId answers 404 for an identifier that no POST
    handled so far has given to a task: progress reports and settlements
    never create a task. *)
Theorem unknown_task_is_not_found env evs taskId :
  ~ In taskId (postedIds evs) ->
  getTask (after ProgressManager_new OutputManager_new ProgressManager_update
             env evs) taskId
  = {| statusCode := 404; body := TaskNotFound _ _ |}.
Proof.
  intros Hnot. unfold getTask, after.
  destruct (steps_keys env evs []) as (added & Hkeys & Hincl & _).
  cbn [mapKeys map app] in Hkeys.
  assert (Hnone : JS.mapGet (fold_left (step ProgressManager_new OutputManager_new
                     ProgressManager_update env) evs []) taskId = None).
  { apply StoreFacts.mapGet_None_iff. rewrite Hkeys. intros Hin.
    apply Hnot. now apply Hincl. }
  now rewrite Hnone.
Qed.

(** *** A request and what GET shows of it *)

(** A POST that is accepted answers with the identifier of the task, its
    query and the depth and breadth with their defaults applied; GET on
    that identifier then shows exactly that task, running, started at the
    time read, with no end time, error, results or progress. *)
Theorem accepted_request_can_be_fetched env tasks reqBody io data :
  Zod.safeParse ResearchRequestSchema reqBody = Zod.success data ->
  geMax (runningTasks tasks) (maxConcurrentTasks env) = false ->
  let r := postResearch ProgressManager_new OutputManager_new env tasks reqBody io in
  fst (fst r) =
    json (Started _ _ (makeTaskId io) running (ResearchRequest.query data)
            (ResearchRequest.depth data) (ResearchRequest.breadth data)) /\
  snd r = Some {| call_taskId := makeTaskId io;
                  call_query := ResearchRequest.query data;
                  call_depth := ResearchRequest.depth data;
                  call_breadth := ResearchRequest.breadth data |} /\
  getTask (snd (fst r)) (makeTaskId io) =
    json (TaskView
      {| ResearchTask.id := makeTaskId io;
         ResearchTask.query := ResearchRequest.query data;
         ResearchTask.depth := ResearchRequest.depth data;
         ResearchTask.breadth := ResearchRequest.breadth data;
         ResearchTask.status := running;
         ResearchTask.error := None;
         ResearchTask.startTime := newDate io;
         ResearchTask.endTime := None;
         ResearchTask.results := None;
         ResearchTask.progress := None;
         ResearchTask.output := None |}).
Proof.
  intros Hp Hm r. subst r. unfold postResearch. rewrite Hp, Hm. cbn [fst snd].
  repeat split. unfold getTask. rewrite JSFacts.mapGet_mapSet_same. reflexivity.
Qed.

(** What GET shows of a stored task once its run has settled: after the
    fulfilment, the task completed, with its end time and the learnings;
    after the rejection, the task failed, with its end time and the error
    message (the [message] of a thrown [Error], the string form of any other
    thrown value), and with no results, whatever was stored as results
    before.
    In both cases no progress is shown, and the identifier, query, depth,
    breadth and start time are those of the task. *)
Theorem settled_task_as_shown tasks taskId t :
  JS.mapGet tasks taskId = Some t ->
  (forall result now,
     getTask (onFulfilled taskId result now tasks) taskId =
     json (TaskView
       {| ResearchTask.id := ResearchTask.id t;
          ResearchTask.query := ResearchTask.query t;
          ResearchTask.depth := ResearchTask.depth t;
          ResearchTask.breadth := ResearchTask.breadth t;
          ResearchTask.status := completed;
          ResearchTask.error := ResearchTask.error t;
          ResearchTask.startTime := ResearchTask.startTime t;
          ResearchTask.endTime := Some now;
          ResearchTask.results := Some (learnings result);
          ResearchTask.progress := None;
          ResearchTask.output := ResearchTask.output t |})) /\
  (forall message now,
     getTask (onRejected taskId (ErrorObject message) now tasks) taskId =
     json (TaskView
       {| ResearchTask.id := ResearchTask.id t;
          ResearchTask.query := ResearchTask.query t;
          ResearchTask.depth := ResearchTask.depth t;
          ResearchTask.breadth := ResearchTask.breadth t;
          ResearchTask.status := failed;
          ResearchTask.error := Some message;
          ResearchTask.startTime := ResearchTask.startTime t;
          ResearchTask.endTime := Some now;
          ResearchTask.results := None;
          ResearchTask.progress := None;
          ResearchTask.output := ResearchTask.output t |})) /\
  (forall asString now,
     getTask (onRejected taskId (OtherValue asString) now tasks) taskId =
     json (TaskView
       {| ResearchTask.id := ResearchTask.id t;
          ResearchTask.query := ResearchTask.query t;
          ResearchTask.depth := ResearchTask.depth t;
          ResearchTask.breadth := ResearchTask.breadth t;
          ResearchTask.status := failed;
          ResearchTask.error := Some asString;
          ResearchTask.startTime := ResearchTask.startTime t;
          ResearchTask.endTime := Some now;
          ResearchTask.results := None;
          ResearchTask.progress := None;
          ResearchTask.output := ResearchTask.output t |})).
Proof.
  intros Hget. split; [|split]; intros.
  - unfold onFulfilled, getTask. rewrite Hget, JSFacts.mapGet_mapSet_same. reflexivity.
  - unfold onRejected, getTask. rewrite Hget, JSFacts.mapGet_mapSet_same. reflexivity.
  - unfold onRejected, getTask. rewrite Hget, JSFacts.mapGet_mapSet_same. reflexivity.
Qed.

(** A progress report or a settlement for one task leaves every other task
    as it is; and for an identifier that is not stored it leaves the whole
    store as it is. *)
Theorem handlers_touch_one_task tasks taskId other :
  other <> taskId ->
  (forall p,
     JS.mapGet (onProgress ProgressManager_update taskId p tasks) other
     = JS.mapGet tasks other) /\
  (forall result now,
     JS.mapGet (onFulfilled taskId result now tasks) other = JS.mapGet tasks other) /\
  (forall error now,
     JS.mapGet (onRejected taskId error now tasks) other = JS.mapGet tasks other) /\
  (JS.mapGet tasks taskId = None ->
   (forall p, onProgress ProgressManager_update taskId p tasks = tasks) /\
   (forall result now, onFulfilled taskId result now tasks = tasks) /\
   (forall error now, onRejected taskId error now tasks = tasks)).
Proof.
  intros Hne. unfold onProgress, onFulfilled, onRejected.
  destruct (JS.mapGet tasks taskId) as [t|] eqn:E.
  - repeat split; intros; try discriminate.
    + destruct (ResearchTask.progress t); auto.
      apply JSFacts.mapGet_mapSet_other. congruence.
    + apply JSFacts.mapGet_mapSet_other. congruence.
    + apply JSFacts.mapGet_mapSet_other. congruence.
  - repeat split; auto.
Qed.

(** An accepted POST stores its task under the identifier it made and
    leaves every other task as it is.  When the identifier is new the task
    goes last and the store grows by one; when a task is already stored
    under it, the new task takes its place, running and without results,
    and the store keeps its size. *)
Theorem accepted_request_sets_one_key env tasks reqBody io r tasks' call :
  postResearch ProgressManager_new OutputManager_new env tasks reqBody io
    = (r, tasks', Some call) ->
  call_taskId call = makeTaskId io /\
  (forall other, other <> makeTaskId io ->
                 JS.mapGet tasks' other = JS.mapGet tasks other) /\
  (exists task,
     JS.mapGet tasks' (makeTaskId io) = Some task /\
     ResearchTask.status task = running /\
     ResearchTask.results task = None /\
     ResearchTask.query task = call_query call) /\
  (JS.mapGet tasks (makeTaskId io) = None ->
   mapKeys tasks' = mapKeys tasks ++ [makeTaskId io] /\
   JS.mapSize tasks' = JS.mapSize tasks + 1) /\
  (JS.mapGet tasks (makeTaskId io) <> None ->
   mapKeys tasks' = mapKeys tasks /\
   JS.mapSize tasks' = JS.mapSize tasks).
Proof.
  unfold postResearch.
  destruct (Zod.safeParse ResearchRequestSchema reqBody) as [data|issues];
    [|discriminate].
  destruct (geMax _ _); [discriminate|].
  intros H. inversion H; subst; clear H. cbn [call_taskId call_query].
  split; [reflexivity|]. split; [|split; [|split]].
  - intros other Hne. apply JSFacts.mapGet_mapSet_other. congruence.
  - eexists. split; [apply JSFacts.mapGet_mapSet_same|]. repeat split.
  - intros Hnone. unfold JS.mapSize.
    rewrite StoreFacts.mapKeys_mapSet, JSFacts.length_mapSet, Hnone. split; [reflexivity|lia].
  - intros Hsome. unfold JS.mapSize.
    rewrite StoreFacts.mapKeys_mapSet, JSFacts.length_mapSet.
    destruct (JS.mapGet tasks (makeTaskId io)); [split; reflexivity|congruence].
Qed.

(** *** The limit on running tasks *)

Lemma countRunning_mapSet tasks k v :
  (countRunning (JS.mapValues (JS.mapSet tasks k v))
   + match JS.mapGet tasks k with Some o => runs o | None => 0 end
   = countRunning (JS.mapValues tasks) + runs v)%nat.
Proof.
  unfold countRunning, runs, JS.mapValues.
  induction tasks as [|[k' o] m IH]; cbn [JS.mapSet JS.mapGet map snd filter].
  - destruct (isRunning v); cbn [List.length]; lia.
  - destruct (String.eqb k' k); cbn [map snd filter].
    + destruct (isRunning v), (isRunning o); cbn [List.length]; lia.
    + destruct (isRunning o); cbn [List.length]; lia.
Qed.

Lemma runningTasks_count tasks :
  runningTasks tasks = Z.of_nat (countRunning (JS.mapValues tasks)).
Proof. reflexivity. Qed.

(** Storing a task adds at most that task to the running ones; putting a
    task in the place of one that runs as much or more adds none. *)
Lemma running_mapSet_le tasks k v :
  runningTasks (JS.mapSet tasks k v) <= runningTasks tasks + Z.of_nat (runs v).
Proof.
  rewrite !runningTasks_count. pose proof (countRunning_mapSet tasks k v). lia.
Qed.

Lemma running_mapSet_replace tasks k o v :
  JS.mapGet tasks k = Some o -> (runs v <= runs o)%nat ->
  runningTasks (JS.mapSet tasks k v) <= runningTasks tasks.
Proof.
  intros Hget Hle. rewrite !runningTasks_count.
  pose proof (countRunning_mapSet tasks k v) as Hc. rewrite Hget in Hc. lia.
Qed.

Lemma step_running env tasks ev bound :
  maxConcurrentTasks env = Some bound ->
  runningTasks tasks <= Z.max 0 bound ->
  runningTasks (step ProgressManager_new OutputManager_new ProgressManager_update
                  env tasks ev) <= Z.max 0 bound.
Proof.
  intros Hm Hle.
  destruct ev as [reqBody io|id|q| |id p|id result now|id e now]; cbn [step]; auto.
  - unfold postResearch.
    destruct (Zod.safeParse ResearchRequestSchema reqBody); cbn [fst snd]; auto.
    destruct (geMax _ _) eqn:Hg; cbn [fst snd]; auto.
    rewrite Hm in Hg. unfold geMax in Hg. apply Z.leb_gt in Hg.
    match goal with |- runningTasks (JS.mapSet _ ?k ?v) <= _ =>
      pose proof (running_mapSet_le tasks k v) as Hc;
      change (runs v) with 1%nat in Hc end.
    lia.
  - unfold onProgress. destruct (JS.mapGet tasks id) as [t|] eqn:E; auto.
    destruct (ResearchTask.progress t); auto.
    etransitivity; [|exact Hle].
    eapply running_mapSet_replace; [exact E|]. apply Nat.le_refl.
  - unfold onFulfilled. destruct (JS.mapGet tasks id) as [t|] eqn:E; auto.
    etransitivity; [|exact Hle].
    eapply running_mapSet_replace; [exact E|]. apply Nat.le_0_l.
  - unfold onRejected. destruct (JS.mapGet tasks id) as [t|] eqn:E; auto.
    etransitivity; [|exact Hle].
    eapply running_mapSet_replace; [exact E|]. apply Nat.le_0_l.
Qed.

(** When the configured maximum is a number, the server never has more
    running tasks than that maximum (none when it is negative), whatever
    requests, progress reports and settlements it handles and in whatever
    order; and what /health reports as running is at most what it reports
    as total. *)
Theorem running_tasks_stay_within_limit env evs bound :
  maxConcurrentTasks env = Some bound ->
  let tasks :=
    after ProgressManager_new OutputManager_new ProgressManager_update env evs in
  runningTasks tasks <= Z.max 0 bound /\
  0 <= runningTasks tasks <= JS.mapSize tasks /\
  getHealth env tasks = json (Health _ _ (runningTasks tasks) (JS.mapSize tasks) (Some bound)).
Proof.
  intros Hm tasks. subst tasks. unfold after.
  assert (H : forall tasks, runningTasks tasks <= Z.max 0 bound ->
    runningTasks (fold_left (step ProgressManager_new OutputManager_new
                               ProgressManager_update env) evs tasks)
    <= Z.max 0 bound).
  { induction evs as [|ev evs IH]; intros tasks Ht; cbn [fold_left]; auto.
    apply IH. now apply step_running. }
  split; [apply H; cbn; lia|]. split.
  - unfold runningTasks, JS.mapSize, JS.mapValues.
    match goal with |- context [filter ?f (map snd ?l)] =>
      pose proof (filter_length_le f (map snd l)) as Hf;
      rewrite length_map in Hf end.
    lia.
  - unfold getHealth. now rewrite Hm.
Qed.

(** When MAX_CONCURRENT_TASKS is set to a text that [parseInt] does not read
    as a number, the limit is off: every request that passes validation is
    accepted, however many tasks are running. *)
Theorem unreadable_limit_is_no_limit env value tasks reqBody io :
  MAX_CONCURRENT_TASKS env = Some value ->
  value <> "" ->
  JS.parseInt (Some value) = None ->
  passesValidation reqBody = true ->
  exists r tasks' call,
    postResearch ProgressManager_new OutputManager_new env tasks reqBody io
      = (r, tasks', Some call) /\
    statusCode r = 200 /\
    JS.mapGet tasks' (call_taskId call) <> None.
Proof.
  intros Hv Hne Hp Hvalid.
  assert (Hmax : maxConcurrentTasks env = None).
  { unfold maxConcurrentTasks. rewrite Hv. destruct value; [congruence|exact Hp]. }
  apply SchemaFacts.passesValidation_iff in Hvalid. destruct Hvalid as [data Hd].
  unfold postResearch. rewrite Hd, Hmax. cbn [geMax].
  do 3 eexists. split; [reflexivity|]. split; [reflexivity|].
  cbn [call_taskId]. rewrite JSFacts.mapGet_mapSet_same. discriminate.
Qed.

(** When the configured maximum is zero or negative, the server never
    stores a task: every request is refused and the store stays empty. *)
Theorem no_task_with_zero_limit env evs bound :
  maxConcurrentTasks env = Some bound ->
  bound <= 0 ->
  after ProgressManager_new OutputManager_new ProgressManager_update env evs = [] /\
  forall reqBody io,
    statusCode (fst (fst (postResearch ProgressManager_new OutputManager_new env
                            [] reqBody io)))
    = (if passesValidation reqBody then 429 else 400).
Proof.
  intros Hm Hb.
  assert (Hpost : forall reqBody io,
    postResearch ProgressManager_new OutputManager_new env [] reqBody io =
    (fst (fst (postResearch ProgressManager_new OutputManager_new env [] reqBody io)),
     [], None) /\
    statusCode (fst (fst (postResearch ProgressManager_new OutputManager_new env
                            [] reqBody io)))
    = (if passesValidation reqBody then 429 else 400)).
  { intros reqBody io. unfold postResearch.
    destruct (Zod.safeParse ResearchRequestSchema reqBody) as [data|issues] eqn:E.
    - assert (Hv : passesValidation reqBody = true)
        by (apply SchemaFacts.passesValidation_iff; eauto).
      rewrite Hv, Hm.
      assert (Hg : geMax (runningTasks (@nil (string * Task ProgressManager OutputManager)))
                     (Some bound) = true)
        by (cbn; apply Z.leb_le; lia).
      rewrite Hg. split; reflexivity.
    - destruct (passesValidation reqBody) eqn:Hv.
      + apply SchemaFacts.passesValidation_iff in Hv. destruct Hv as [d Hd].
        congruence.
      + split; reflexivity. }
  split; [|intros; apply Hpost].
  unfold after. induction evs as [|ev evs IH]; cbn [fold_left]; auto.
  assert (Hstep : step ProgressManager_new OutputManager_new ProgressManager_update
                    env [] ev = []).
  { destruct ev as [reqBody io| | | | | |]; cbn [step]; auto.
    destruct (Hpost reqBody io) as [-> _]. reflexivity. }
  rewrite Hstep. exact IH.
Qed.

(** *** The pages of a listing *)

Lemma listTasks_unfold tasks q :
  listTasks tasks q =
  json (TaskList
          (JS.slice (sortedMatching tasks (status q))
             ((JS.orDefault (JS.parseInt (page q)) 1 - 1)
              * Z.min (JS.orDefault (JS.parseInt (limit q)) 10) 50)
             ((JS.orDefault (JS.parseInt (page q)) 1 - 1)
              * Z.min (JS.orDefault (JS.parseInt (limit q)) 10) 50
              + Z.min (JS.orDefault (JS.parseInt (limit q)) 10) 50))
          (JS.orDefault (JS.parseInt (page q)) 1)
          (Z.min (JS.orDefault (JS.parseInt (limit q)) 10) 50)
          (Z.of_nat (List.length (matching (status q) (JS.mapValues tasks))))
          (JS.ceilDiv
             (Z.of_nat (List.length (matching (status q) (JS.mapValues tasks))))
             (Z.min (JS.orDefault (JS.parseInt (limit q)) 10) 50))).
Proof. reflexivity. Qed.

Lemma length_sortedMatching tasks wanted :
  List.length (sortedMatching tasks wanted)
  = List.length (matching wanted (JS.mapValues tasks)).
Proof.
  unfold sortedMatching. symmetry. apply Permutation_length.
  apply (JSFacts.sort_perm (@ResearchTask.startTime _ _)).
Qed.

(** With a positive page number and a positive page size, a page is the
    window of that size at offset [(page - 1) * size] of the matching tasks
    in descending order of start time; [total] and [pages] are the same on
    every page; a page up to page [pages] holds a task, and a page after it
    holds none. *)
Theorem listing_page_is_a_window tasks q :
  let number := JS.orDefault (JS.parseInt (page q)) 1 in
  let size := Z.min (JS.orDefault (JS.parseInt (limit q)) 10) 50 in
  let sorted := sortedMatching tasks (status q) in
  let total := Z.of_nat (List.length sorted) in
  1 <= number ->
  1 <= size ->
  listedTasks (listTasks tasks q)
    = firstn (Z.to_nat size) (skipn (Z.to_nat ((number - 1) * size)) sorted) /\
  pagination (listTasks tasks q)
    = Some (number, size, total, JS.ceilDiv total size) /\
  (number <= JS.ceilDiv total size -> listedTasks (listTasks tasks q) <> []) /\
  (JS.ceilDiv total size < number -> listedTasks (listTasks tasks q) = []).
Proof.
  intros number size sorted total Hn Hs.
  rewrite listTasks_unfold. cbn [listedTasks pagination json body].
  fold number size sorted. rewrite <- length_sortedMatching. fold sorted total.
  rewrite JSFacts.slice_window by nia.
  assert (Hc : (JS.ceilDiv total size - 1) * size < total <= JS.ceilDiv total size * size)
    by (apply JSFacts.ceilDiv_spec; lia).
  repeat split.
  - intros Hle Hnil.
    assert (Hlen : List.length (firstn (Z.to_nat size)
                     (skipn (Z.to_nat ((number - 1) * size)) sorted)) = 0%nat)
      by now rewrite Hnil.
    rewrite length_firstn, length_skipn in Hlen. subst total. nia.
  - intros Hgt. rewrite skipn_all2; [apply firstn_nil|]. subst total. nia.
Qed.

(** Every matching task is on a page: the task at place [i] of the matching
    tasks in descending order of start time is at place [i mod size] of page
    [i / size + 1]. *)
Theorem listing_reaches_every_task tasks q i t :
  let size := Z.min (JS.orDefault (JS.parseInt (limit q)) 10) 50 in
  1 <= size ->
  nth_error (sortedMatching tasks (status q)) i = Some t ->
  JS.parseInt (page q) = Some (Z.of_nat i / size + 1) ->
  nth_error (listedTasks (listTasks tasks q)) (Z.to_nat (Z.of_nat i mod size))
    = Some t.
Proof.
  intros size Hs Hnth Hpage.
  rewrite listTasks_unfold. cbn [listedTasks json body].
  fold size. rewrite Hpage.
  assert (Hq : 0 <= Z.of_nat i / size) by (apply Z.div_pos; lia).
  assert (Hor : JS.orDefault (Some (Z.of_nat i / size + 1)) 1 = Z.of_nat i / size + 1).
  { destruct (Z.of_nat i / size + 1) eqn:E; try reflexivity; lia. }
  rewrite Hor. replace (Z.of_nat i / size + 1 - 1) with (Z.of_nat i / size) by lia.
  rewrite JSFacts.slice_window by nia.
  pose proof (Z.mod_pos_bound (Z.of_nat i) size ltac:(lia)) as Hm.
  rewrite StoreFacts.nth_error_window by lia.
  rewrite <- Hnth. f_equal.
  pose proof (Z.div_mod (Z.of_nat i) size ltac:(lia)). nia.
Qed.

(** A status filter that is none of the three statuses is not refused: the
    listing is empty, with [total] and [pages] zero. *)
Theorem unknown_status_lists_nothing tasks q wanted :
  status q = Some wanted ->
  wanted <> "" ->
  wanted <> "running" -> wanted <> "completed" -> wanted <> "failed" ->
  listedTasks (listTasks tasks q) = [] /\
  exists number size, pagination (listTasks tasks q) = Some (number, size, 0, 0).
Proof.
  intros Hst He Hr Hc Hf.
  assert (Hnone : matching (status q) (JS.mapValues tasks) = []).
  { rewrite Hst. unfold matching.
    destruct wanted as [|c rest]; [congruence|].
    induction (JS.mapValues tasks) as [|t l IH]; cbn [filter]; auto.
    destruct (String.eqb_spec (statusString (ResearchTask.status t)) (String c rest))
      as [Heq|_]; auto.
    destruct (ResearchTask.status t); cbn in Heq; congruence. }
  rewrite listTasks_unfold. cbn [listedTasks pagination json body].
  unfold sortedMatching. rewrite Hnone. cbn [JS.sort fold_right List.length].
  split; [apply StoreFacts.slice_nil|].
  do 2 eexists. unfold JS.ceilDiv. cbn [Z.of_nat Z.opp]. rewrite Zdiv_0_l.
  reflexivity.
Qed.

(** A negative limit is not refused and escapes the cap of 50: on the
    first page the listing holds all the matching tasks but the last [-limit]
    of them, and reports that limit and a number of pages that is not
    positive. *)
Theorem negative_limit_lists_all_but_last tasks q requested :
  JS.parseInt (limit q) = Some requested ->
  requested < 0 ->
  JS.orDefault (JS.parseInt (page q)) 1 = 1 ->
  let sorted := sortedMatching tasks (status q) in
  let total := Z.of_nat (List.length sorted) in
  listedTasks (listTasks tasks q) = firstn (Z.to_nat (total + requested)) sorted /\
  pagination (listTasks tasks q)
    = Some (1, requested, total, JS.ceilDiv total requested) /\
  JS.ceilDiv total requested <= 0.
Proof.
  intros Hl Hneg Hp sorted total.
  rewrite listTasks_unfold. cbn [listedTasks pagination json body].
  rewrite Hp, Hl.
  assert (Hor : JS.orDefault (Some requested) 10 = requested)
    by (destruct requested; try reflexivity; lia).
  rewrite Hor, (Z.min_l requested 50) by lia.
  rewrite <- length_sortedMatching. fold sorted total.
  replace ((1 - 1) * requested) with 0 by lia. rewrite Z.add_0_l.
  rewrite StoreFacts.slice_negative_end by lia.
  repeat split.
  assert (Hc : JS.ceilDiv total requested * requested <= total
               < (JS.ceilDiv total requested - 1) * requested)
    by (apply JSFacts.ceilDiv_spec_neg; lia).
  subst total. nia.
Qed.

(** Every task that a listing of a reachable store shows can be fetched by
    its identifier, and GET shows it as that task. *)
Theorem listed_task_can_be_fetched env evs q t :
  let tasks :=
    after ProgressManager_new OutputManager_new ProgressManager_update env evs in
  In t (listedTasks (listTasks tasks q)) ->
  exists shown,
    getTask tasks (ResearchTask.id t) = json (TaskView shown) /\
    ResearchTask.id shown = ResearchTask.id t /\
    ResearchTask.query shown = ResearchTask.query t /\
    ResearchTask.depth shown = ResearchTask.depth t /\
    ResearchTask.breadth shown = ResearchTask.breadth t /\
    ResearchTask.status shown = ResearchTask.status t /\
    ResearchTask.startTime shown = ResearchTask.startTime t /\
    ResearchTask.endTime shown = ResearchTask.endTime t /\
    ResearchTask.error shown = ResearchTask.error t.
Proof.
  intros tasks Hin.
  rewrite listTasks_unfold in Hin. cbn [listedTasks json body] in Hin.
  apply JSFacts.slice_incl in Hin. unfold sortedMatching in Hin.
  eapply Permutation_in in Hin;
    [|apply Permutation_sym, (JSFacts.sort_perm (@ResearchTask.startTime _ _))].
  assert (Hval : In t (JS.mapValues tasks)).
  { unfold matching in Hin. destruct (status q) as [[|c rest]|]; auto.
    apply filter_In in Hin. tauto. }
  unfold JS.mapValues in Hval. apply in_map_iff in Hval.
  destruct Hval as ([k t'] & Ht & Hentry). cbn in Ht. subst t'.
  destruct (tasks_are_keyed_by_id env evs) as [Hkey Hnd]. fold tasks in Hkey, Hnd.
  pose proof (StoreFacts.In_mapGet _ _ _ Hnd Hentry) as Hget.
  pose proof (keyedById_mapGet _ Hkey Hget) as Hid.
  rewrite <- Hid in Hget.
  unfold getTask. rewrite Hget. eexists. split; [reflexivity|].
  repeat split.
Qed.

End WithManagers.

(** *** The results at sample inputs *)

Import Samples MoreSamples.

Lemma unknown_task_is_not_found_witness :
  ~ In "task-0-none"
      (postedIds (map (fun n => POST_research goodBody (reading n)) [1; 2; 3; 4; 5])) /\
  getTask fiveRunning "task-0-none"
    = {| statusCode := 404; body := TaskNotFound unit unit |}.
Proof.
  assert (H : ~ In "task-0-none"
      (postedIds (map (fun n => POST_research goodBody (reading n)) [1; 2; 3; 4; 5]))).
  { vm_compute. intros [H|[H|[H|[H|[H|[]]]]]]; discriminate. }
  split; [exact H|].
  exact (unknown_task_is_not_found tt tt keep env0 _ _ H).
Defined.

Lemma accepted_request_can_be_fetched_witness :
  Zod.safeParse ResearchRequestSchema goodBody
    = Zod.success (ResearchRequest.Build "tides" (JS.of_Z 3) (JS.of_Z 3)) /\
  geMax (runningTasks mixedStore) (maxConcurrentTasks env0) = false /\
  exists shown,
    getTask (snd (fst (postResearch tt tt env0 mixedStore goodBody (reading 6))))
      (makeTaskId (reading 6)) = json (TaskView shown) /\
    ResearchTask.query shown = "tides" /\
    ResearchTask.status shown = running.
Proof.
  assert (H1 : Zod.safeParse ResearchRequestSchema goodBody
    = Zod.success (ResearchRequest.Build "tides" (JS.of_Z 3) (JS.of_Z 3)))
    by reflexivity.
  assert (H2 : geMax (runningTasks mixedStore) (maxConcurrentTasks env0) = false)
    by reflexivity.
  split; [exact H1|]. split; [exact H2|].
  eexists. split.
  - exact (proj2 (proj2 (accepted_request_can_be_fetched tt tt env0 mixedStore
                           goodBody (reading 6) H1 H2))).
  - split; reflexivity.
Defined.

Lemma settled_task_as_shown_witness :
  (exists t, JS.mapGet fiveRunning firstId = Some t) /\
  exists shown,
    getTask (onRejected firstId (OtherValue "timeout") 1700000000999
               (onFulfilled firstId rainResult 1700000000900 fiveRunning)) firstId
      = json (TaskView shown) /\
    ResearchTask.status shown = failed /\
    ResearchTask.error shown = Some "timeout" /\
    ResearchTask.results shown = None.
Proof.
  split; [eexists; reflexivity|].
  assert (H : JS.mapGet (onFulfilled firstId rainResult 1700000000900 fiveRunning)
                firstId <> None) by (vm_compute; discriminate).
  destruct (JS.mapGet (onFulfilled firstId rainResult 1700000000900 fiveRunning)
              firstId) as [t|] eqn:E; [|congruence].
  eexists. split.
  - exact (proj2 (proj2 (settled_task_as_shown _ _ E)) "timeout" 1700000000999).
  - repeat split.
Defined.

Lemma handlers_touch_one_task_witness :
  "task-1700000000002-k3x9" <> firstId /\
  JS.mapGet (onFulfilled firstId rainResult 1700000000900 fiveRunning)
    "task-1700000000002-k3x9"
  = JS.mapGet fiveRunning "task-1700000000002-k3x9".
Proof.
  assert (H : "task-1700000000002-k3x9" <> firstId) by discriminate.
  split; [exact H|].
  exact (proj1 (proj2 (handlers_touch_one_task keep fiveRunning H))
           rainResult 1700000000900).
Defined.

Lemma running_tasks_stay_within_limit_witness :
  maxConcurrentTasks env0 = Some 5 /\
  runningTasks
    (after tt tt keep env0
       (map (fun n => POST_research goodBody (reading n)) [1; 2; 3; 4; 5; 6; 7]))
  <= Z.max 0 5.
Proof.
  split; [reflexivity|].
  exact (proj1 (running_tasks_stay_within_limit tt tt keep env0
                  (map (fun n => POST_research goodBody (reading n))
                     [1; 2; 3; 4; 5; 6; 7]) eq_refl)).
Defined.

Lemma unreadable_limit_is_no_limit_witness :
  MAX_CONCURRENT_TASKS (envWith "five") = Some "five" /\
  "five" <> "" /\
  JS.parseInt (Some "five") = None /\
  passesValidation goodBody = true /\
  exists r tasks' call,
    postResearch tt tt (envWith "five") fiveRunning goodBody (reading 6)
      = (r, tasks', Some call) /\
    statusCode r = 200 /\
    JS.mapGet tasks' (call_taskId call) <> None.
Proof.
  assert (H2 : "five" <> "") by discriminate.
  split; [reflexivity|]. split; [exact H2|]. split; [reflexivity|].
  split; [reflexivity|].
  eapply unreadable_limit_is_no_limit;
    [reflexivity|exact H2|reflexivity|reflexivity].
Defined.

Lemma no_task_with_zero_limit_witness :
  maxConcurrentTasks (envWith "0") = Some 0 /\
  0 <= 0 /\
  after tt tt keep (envWith "0")
    [POST_research goodBody (reading 1); Progress firstId someProgress;
     POST_research goodBody (reading 2)] = [].
Proof.
  assert (H : 0 <= 0) by lia.
  split; [reflexivity|]. split; [exact H|].
  exact (proj1 (no_task_with_zero_limit tt tt keep (envWith "0")
                  [POST_research goodBody (reading 1); Progress firstId someProgress;
                   POST_research goodBody (reading 2)] eq_refl H)).
Defined.

Lemma listing_page_is_a_window_witness :
  1 <= JS.orDefault (JS.parseInt (page secondPageOfTwo)) 1 /\
  1 <= Z.min (JS.orDefault (JS.parseInt (limit secondPageOfTwo)) 10) 50 /\
  listedTasks (listTasks mixedStore secondPageOfTwo)
    = firstn 2 (skipn 2 (sortedMatching mixedStore None)) /\
  pagination (listTasks mixedStore secondPageOfTwo) = Some (2, 2, 5, 3).
Proof.
  assert (H1 : 1 <= JS.orDefault (JS.parseInt (page secondPageOfTwo)) 1)
    by (vm_compute; discriminate).
  assert (H2 : 1 <= Z.min (JS.orDefault (JS.parseInt (limit secondPageOfTwo)) 10) 50)
    by (vm_compute; discriminate).
  split; [exact H1|]. split; [exact H2|].
  destruct (listing_page_is_a_window mixedStore secondPageOfTwo H1 H2)
    as (Hl & Hp & _).
  split; [exact Hl|exact Hp].
Defined.

Lemma listing_reaches_every_task_witness :
  1 <= Z.min (JS.orDefault (JS.parseInt (limit secondPageOfTwo)) 10) 50 /\
  (exists t,
     nth_error (sortedMatching mixedStore (status secondPageOfTwo)) 3 = Some t /\
     nth_error (listedTasks (listTasks mixedStore secondPageOfTwo)) 1 = Some t) /\
  JS.parseInt (page secondPageOfTwo) = Some (Z.of_nat 3 / 2 + 1).
Proof.
  assert (H1 : 1 <= Z.min (JS.orDefault (JS.parseInt (limit secondPageOfTwo)) 10) 50)
    by (vm_compute; discriminate).
  assert (H3 : JS.parseInt (page secondPageOfTwo) = Some (Z.of_nat 3 / 2 + 1))
    by reflexivity.
  split; [exact H1|]. split; [|exact H3].
  destruct (nth_error (sortedMatching mixedStore (status secondPageOfTwo)) 3)
    as [t|] eqn:E; [|vm_compute in E; discriminate].
  exists t. split; [reflexivity|].
  exact (listing_reaches_every_task mixedStore secondPageOfTwo 3 H1 E H3).
Defined.

Lemma unknown_status_lists_nothing_witness :
  "done" <> "" /\ "done" <> "running" /\ "done" <> "completed" /\ "done" <> "failed" /\
  listedTasks (listTasks mixedStore
                 {| page := None; limit := None; status := Some "done" |}) = [].
Proof.
  assert (H1 : "done" <> "") by discriminate.
  assert (H2 : "done" <> "running") by discriminate.
  assert (H3 : "done" <> "completed") by discriminate.
  assert (H4 : "done" <> "failed") by discriminate.
  repeat (split; [assumption|]).
  exact (proj1 (unknown_status_lists_nothing mixedStore
                  {| page := None; limit := None; status := Some "done" |}
                  eq_refl H1 H2 H3 H4)).
Defined.

Lemma negative_limit_lists_all_but_last_witness :
  JS.parseInt (Some "-1") = Some (-1) /\
  -1 < 0 /\
  listedTasks (listTasks mixedStore
                 {| page := None; limit := Some "-1"; status := None |})
    = firstn 4 (sortedMatching mixedStore None) /\
  pagination (listTasks mixedStore
                {| page := None; limit := Some "-1"; status := None |})
    = Some (1, -1, 5, -5).
Proof.
  assert (H2 : -1 < 0) by lia.
  split; [reflexivity|]. split; [exact H2|].
  destruct (negative_limit_lists_all_but_last mixedStore
              {| page := None; limit := Some "-1"; status := None |}
              eq_refl H2 eq_refl) as (Hl & Hp & _).
  split; [exact Hl|exact Hp].
Defined.

Lemma listed_task_can_be_fetched_witness :
  exists t,
    In t (listedTasks (listTasks mixedStore secondPageOfTwo)) /\
    exists shown,
      getTask mixedStore (ResearchTask.id t) = json (TaskView shown) /\
      ResearchTask.id shown = ResearchTask.id t.
Proof.
  destruct (listedTasks (listTasks mixedStore secondPageOfTwo)) as [|t rest] eqn:E;
    [vm_compute in E; discriminate|].
  exists t. assert (Hin : In t (t :: rest)) by (left; reflexivity).
  split; [exact Hin|].
  rewrite <- E in Hin.
  destruct (listed_task_can_be_fetched tt tt keep env0
              (map (fun n => POST_research goodBody (reading n)) [1; 2; 3; 4; 5]
               ++ [Fulfilled "task-1700000000001-k3x9" rainResult 1700000000900;
                   Rejected "task-1700000000002-k3x9" (ErrorObject "no network")
                     1700000000950])
              secondPageOfTwo t Hin) as (shown & Hs & Hi & _).
  exists shown. split; [exact Hs|exact Hi].
Defined.

Lemma accepted_request_sets_one_key_witness :
  let p := postResearch tt tt env0 mixedStore goodBody (reading 3) in
  p = (fst (fst p), snd (fst p), Some {| call_taskId := makeTaskId (reading 3);
                                         call_query := "tides";
                                         call_depth := JS.of_Z 3;
                                         call_breadth := JS.of_Z 3 |}) /\
  JS.mapGet mixedStore (makeTaskId (reading 3)) <> None /\
  mapKeys (snd (fst p)) = mapKeys mixedStore /\
  JS.mapSize (snd (fst p)) = 5.
Proof.
  intros p.
  assert (Hp : p = (fst (fst p), snd (fst p),
                    Some {| call_taskId := makeTaskId (reading 3);
                            call_query := "tides";
                            call_depth := JS.of_Z 3;
                            call_breadth := JS.of_Z 3 |})) by reflexivity.
  assert (Hk : JS.mapGet mixedStore (makeTaskId (reading 3)) <> None)
    by (vm_compute; discriminate).
  split; [exact Hp|]. split; [exact Hk|].
  destruct (accepted_request_sets_one_key tt tt env0 mixedStore goodBody (reading 3) Hp)
    as (_ & _ & _ & _ & Hsame).
  destruct (Hsame Hk) as [Hkeys Hsize]. split; [exact Hkeys|].
  rewrite Hsize. reflexivity.
Defined.

(** A POST that draws an identifier already in the store puts its task in
    the place of the stored one: the key stays, the request under it is the
    new one. *)
Example reused_id_replaces_task :
  let evs :=
    [POST_research goodBody (reading 1);
     POST_research (JS.Obj [("query", JS.Str "winds")]) (reading 1)] in
  postedIds evs = [firstId; firstId] /\
  mapKeys (after tt tt keep env0 evs) = [firstId] /\
  option_map (@ResearchTask.query _ _)
    (JS.mapGet (after tt tt keep env0 [POST_research goodBody (reading 1)])
       firstId) = Some "tides" /\
  option_map (@ResearchTask.query _ _)
    (JS.mapGet (after tt tt keep env0 evs) firstId) = Some "winds".
Proof. repeat split. Qed.

End ServerExtras.

(** ** More on the request schema *)

Module SchemaExtras.
Import Views.

Lemma checked_outcome {T : Type} (v : T) issues path :
  Forall (fun i => issuePath i = path) issues ->
  fieldOutcome (Zod.issuesOf (Zod.checked v issues)) path
    (match issues with [] => true | _ => false end).
Proof.
  intros Hall. destruct issues as [|i rest]; cbn.
  - left. auto.
  - right. repeat split; [discriminate|exact Hall].
Qed.

Lemma checked_issues {T : Type} (v : T) given issues :
  Zod.checked v given = Zod.INVALID issues -> issues = given.
Proof. destruct given; cbn; intros H; inversion H; reflexivity. Qed.

Lemma query_outcome v path :
  fieldOutcome (Zod.issuesOf (querySchema v path)) path (isValidQuery v).
Proof.
  unfold querySchema, isValidQuery.
  destruct v as [[| | |s| |]|]; cbn [Zod.ZodString Zod.issuesOf];
    try (right; repeat split; [discriminate|repeat constructor]).
  cbn [flat_map Zod.stringCheck].
  destruct (Z.ltb_spec (Z.of_nat (String.length s)) 1) as [Hlo|Hlo];
    destruct (Z.ltb_spec 1000 (Z.of_nat (String.length s))) as [Hhi|Hhi];
    cbn [app Zod.checked Zod.issuesOf];
    destruct (Z.leb_spec 1 (Z.of_nat (String.length s)));
    destruct (Z.leb_spec (Z.of_nat (String.length s)) 1000);
    try lia; cbn [andb];
    first [ left; split; reflexivity
          | right; repeat split; [discriminate|repeat constructor] ].
Qed.

Lemma numberCheck_paths x path checks :
  Forall (fun i => issuePath i = path) (flat_map (Zod.numberCheck x path) checks).
Proof.
  induction checks as [|c checks IH]; cbn [flat_map]; [constructor|].
  apply Forall_app. split; [|exact IH].
  destruct c; cbn [Zod.numberCheck];
    match goal with |- context [if ?b then _ else _] => destruct b end;
    repeat constructor.
Qed.

Lemma level_outcome v path :
  fieldOutcome (Zod.issuesOf (levelSchema v path)) path (isValidLevel v).
Proof.
  destruct (levelSchema v path) as [x|issues] eqn:E.
  - left. split; [|reflexivity].
    apply SchemaFacts.levelSchema_OK in E. apply SchemaFacts.isValidLevel_spec.
    destruct E as [[-> _]|[-> Hx]]; eauto.
  - right. cbn [Zod.issuesOf]. repeat split.
    + destruct (isValidLevel v) eqn:Hv; auto.
      apply SchemaFacts.isValidLevel_spec in Hv.
      assert (exists x, levelSchema v path = Zod.OK x) as [x Hx].
      { destruct Hv as [->|(x & -> & Hx)].
        - exists (JS.of_Z 3). apply SchemaFacts.levelSchema_OK. auto.
        - exists x. apply SchemaFacts.levelSchema_OK. auto. }
      congruence.
    + eapply SchemaFacts.levelSchema_INVALID; eauto.
    + revert E. unfold levelSchema, Zod.optional_default.
      assert (Hnum : forall d, Zod.ZodNumber [Zod.int; Zod.min 1; Zod.max 5] d path
                               = Zod.INVALID issues ->
                               Forall (fun i => issuePath i = path) issues).
      { intros d. unfold Zod.ZodNumber.
        destruct d as [[| |[| | |q]| | |]|];
          try solve [intros H; inversion H; subst; repeat constructor].
        all: intros H; apply checked_issues in H; subst issues;
          apply numberCheck_paths. }
      destruct v; apply Hnum.
Qed.

Lemma failure_issues props issues :
  Zod.safeParse ResearchRequestSchema (JS.Obj props) = Zod.failure issues ->
  issues =
    Zod.issuesOf (querySchema (JS.get props "query") ["query"]) ++
    Zod.issuesOf (levelSchema (JS.get props "depth") ["depth"]) ++
    Zod.issuesOf (levelSchema (JS.get props "breadth") ["breadth"]).
Proof.
  unfold Zod.safeParse, ResearchRequestSchema. cbn [app].
  destruct (querySchema (JS.get props "query") ["query"]);
    destruct (levelSchema (JS.get props "depth") ["depth"]);
    destruct (levelSchema (JS.get props "breadth") ["breadth"]);
    intros H; inversion H; reflexivity.
Qed.

Lemma outcome_reported issues path valid before after_ :
  fieldOutcome issues path valid ->
  (forall i, In i before -> issuePath i <> path) ->
  (forall i, In i after_ -> issuePath i <> path) ->
  (valid = false <->
   exists i, In i (before ++ issues ++ after_) /\ issuePath i = path).
Proof.
  intros [[Hv ->]|(Hv & Hne & Hall)] Hb Ha; split.
  - congruence.
  - intros (i & Hin & Hp). cbn [app] in Hin. apply in_app_or in Hin.
    destruct Hin as [Hin|Hin]; [apply Hb in Hin|apply Ha in Hin]; contradiction.
  - intros _. destruct issues as [|i rest]; [congruence|].
    exists i. split.
    + apply in_or_app. right. now left.
    + now inversion Hall.
  - auto.
Qed.

Lemma outcome_paths issues path valid i :
  fieldOutcome issues path valid -> In i issues -> issuePath i = path.
Proof.
  intros [[_ ->]|(_ & _ & Hall)] Hin; [destruct Hin|].
  rewrite Forall_forall in Hall. auto.
Qed.

(** When the schema refuses an object, each of the keys [query], [depth]
    and [breadth] whose datum is not valid has at least one issue at its
    path, a key whose datum is valid has none, and there is no other
    issue: the schema reports all the invalid keys at once. *)
Theorem every_invalid_key_is_reported props issues :
  Zod.safeParse ResearchRequestSchema (JS.Obj props) = Zod.failure issues ->
  (isValidQuery (JS.get props "query") = false <->
   exists i, In i issues /\ issuePath i = ["query"]) /\
  (isValidLevel (JS.get props "depth") = false <->
   exists i, In i issues /\ issuePath i = ["depth"]) /\
  (isValidLevel (JS.get props "breadth") = false <->
   exists i, In i issues /\ issuePath i = ["breadth"]) /\
  (forall i, In i issues ->
             In (issuePath i) [["query"]; ["depth"]; ["breadth"]]).
Proof.
  intros Hfail. rewrite (failure_issues _ Hfail).
  pose proof (query_outcome (JS.get props "query") ["query"]) as Hq.
  pose proof (level_outcome (JS.get props "depth") ["depth"]) as Hd.
  pose proof (level_outcome (JS.get props "breadth") ["breadth"]) as Hb.
  set (iq := Zod.issuesOf (querySchema (JS.get props "query") ["query"])) in *.
  set (id := Zod.issuesOf (levelSchema (JS.get props "depth") ["depth"])) in *.
  set (ib := Zod.issuesOf (levelSchema (JS.get props "breadth") ["breadth"])) in *.
  assert (Hpq := fun i => @outcome_paths _ _ _ i Hq).
  assert (Hpd := fun i => @outcome_paths _ _ _ i Hd).
  assert (Hpb := fun i => @outcome_paths _ _ _ i Hb).
  repeat split.
  - intros Hv. apply (proj1 (@outcome_reported iq _ _ [] (id ++ ib) Hq
      ltac:(intros i [])
      ltac:(intros i Hi; apply in_app_or in Hi; destruct Hi as [Hi|Hi];
            [rewrite (Hpd i Hi)|rewrite (Hpb i Hi)]; discriminate))). exact Hv.
  - intros Hex. apply (proj2 (@outcome_reported iq _ _ [] (id ++ ib) Hq
      ltac:(intros i [])
      ltac:(intros i Hi; apply in_app_or in Hi; destruct Hi as [Hi|Hi];
            [rewrite (Hpd i Hi)|rewrite (Hpb i Hi)]; discriminate))). exact Hex.
  - intros Hv. apply (proj1 (@outcome_reported id _ _ iq ib Hd
      ltac:(intros i Hi; rewrite (Hpq i Hi); discriminate)
      ltac:(intros i Hi; rewrite (Hpb i Hi); discriminate))). exact Hv.
  - intros Hex. apply (proj2 (@outcome_reported id _ _ iq ib Hd
      ltac:(intros i Hi; rewrite (Hpq i Hi); discriminate)
      ltac:(intros i Hi; rewrite (Hpb i Hi); discriminate))). exact Hex.
  - intros Hv.
    destruct (proj1 (@outcome_reported ib _ _ (iq ++ id) [] Hb
      ltac:(intros i Hi; apply in_app_or in Hi; destruct Hi as [Hi|Hi];
            [rewrite (Hpq i Hi)|rewrite (Hpd i Hi)]; discriminate)
      ltac:(intros i [])) Hv) as (i & Hin & Hp).
    exists i. split; [|exact Hp].
    rewrite app_nil_r, <- app_assoc in Hin. exact Hin.
  - intros (i & Hin & Hp).
    apply (proj2 (@outcome_reported ib _ _ (iq ++ id) [] Hb
      ltac:(intros j Hj; apply in_app_or in Hj; destruct Hj as [Hj|Hj];
            [rewrite (Hpq j Hj)|rewrite (Hpd j Hj)]; discriminate)
      ltac:(intros j []))).
    exists i. split; [|exact Hp].
    rewrite app_nil_r, <- app_assoc. exact Hin.
  - intros i Hin. apply in_app_or in Hin. destruct Hin as [Hin|Hin].
    + rewrite (Hpq i Hin). now left.
    + apply in_app_or in Hin. destruct Hin as [Hin|Hin].
      * rewrite (Hpd i Hin). right. now left.
      * rewrite (Hpb i Hin). right. right. now left.
Qed.

Lemma every_invalid_key_is_reported_witness :
  Zod.safeParse ResearchRequestSchema MoreSamples.badBody
    = Zod.failure [Zod.too_small 1 Zod.t_string ["query"];
                   Zod.too_big 5 Zod.t_number ["depth"]] /\
  (exists i, In i [Zod.too_small 1 Zod.t_string ["query"];
                   Zod.too_big 5 Zod.t_number ["depth"]] /\
             issuePath i = ["depth"]) /\
  isValidLevel (JS.get [("query", JS.Str ""); ("depth", JS.Num (JS.of_Z 9));
                        ("breadth", JS.Num (JS.of_Z 2))] "breadth") = true.
Proof.
  split; [reflexivity|]. split; [|reflexivity].
  apply (proj1 (proj1 (proj2 (@every_invalid_key_is_reported
    [("query", JS.Str ""); ("depth", JS.Num (JS.of_Z 9));
     ("breadth", JS.Num (JS.of_Z 2))]
    [Zod.too_small 1 Zod.t_string ["query"]; Zod.too_big 5 Zod.t_number ["depth"]]
    eq_refl)))).
  reflexivity.
Defined.

End SchemaExtras.

(** ** Task identifiers *)

Module IdFacts.
Import Server Views.

Lemma string_of_uint_dashFree u : dashFree (NilEmpty.string_of_uint u) = true.
Proof. induction u; cbn; auto. Qed.

(** The decimal of a non-negative integer is a numeral without hyphen, and
    different integers have different decimals. *)
Lemma decimal_nonneg z :
  0 <= z ->
  exists u, Z.to_int z = Decimal.Pos u /\ decimal z = NilEmpty.string_of_uint u.
Proof.
  intros Hz. unfold decimal. destruct z as [|p|p]; [| |lia].
  - exists Decimal.zero. split; reflexivity.
  - exists (Pos.to_uint p). split; [reflexivity|].
    cbn. pose proof (DecimalPos.Unsigned.to_uint_nonnil p) as Hn.
    destruct (Pos.to_uint p); [congruence|reflexivity..].
Qed.

Lemma string_of_uint_inj u v :
  NilEmpty.string_of_uint u = NilEmpty.string_of_uint v -> u = v.
Proof.
  intros H. pose proof (NilEmpty.usu u) as Hu. rewrite H, NilEmpty.usu in Hu.
  congruence.
Qed.

Lemma split_at_dash a b r r' :
  dashFree a = true -> dashFree b = true ->
  (a ++ "-" ++ r)%string = (b ++ "-" ++ r')%string ->
  a = b /\ r = r'.
Proof.
  revert b. induction a as [|c a IH]; intros [|d b]; cbn; intros Ha Hb H.
  - inversion H. auto.
  - inversion H; subst. cbn in Hb. discriminate.
  - inversion H; subst. cbn in Ha. discriminate.
  - apply andb_true_iff in Ha, Hb. inversion H; subst.
    destruct (IH b (proj2 Ha) (proj2 Hb) ltac:(assumption)) as [-> ->]. auto.
Qed.

(** Two requests are given the same task identifier only when they read the
    same millisecond and draw the same random suffix. *)
Theorem task_ids_collide_only_when_equal io1 io2 :
  0 <= dateNow io1 ->
  0 <= dateNow io2 ->
  makeTaskId io1 = makeTaskId io2 ->
  dateNow io1 = dateNow io2 /\ random io1 = random io2.
Proof.
  intros H1 H2 Heq. unfold makeTaskId in Heq. cbn [append] in Heq.
  inversion Heq as [Hrest]; clear Heq.
  destruct (decimal_nonneg H1) as (u1 & Hu1 & Hd1).
  destruct (decimal_nonneg H2) as (u2 & Hu2 & Hd2).
  rewrite Hd1, Hd2 in Hrest.
  destruct (split_at_dash _ _ _ _ (string_of_uint_dashFree u1)
              (string_of_uint_dashFree u2) Hrest) as [Hu Hr].
  split; [|exact Hr].
  apply string_of_uint_inj in Hu. apply DecimalZ.to_int_inj. congruence.
Qed.

Lemma task_ids_collide_only_when_equal_witness :
  0 <= 1700000000001 /\
  makeTaskId (Samples.reading 1)
    = makeTaskId {| dateNow := 1700000000001; random := "k3x9"; newDate := 7 |} /\
  dateNow (Samples.reading 1) = 1700000000001.
Proof.
  assert (H : 0 <= 1700000000001) by lia.
  split; [exact H|]. split; [reflexivity|].
  exact (proj1 (@task_ids_collide_only_when_equal (Samples.reading 1)
                  {| dateNow := 1700000000001; random := "k3x9"; newDate := 7 |}
                  H H eq_refl)).
Defined.

End IdFacts.

(** ** The earlier server *)

Module LegacyFacts.
Import Views.

Lemma mapSet_mapSet {V : Type} (m : JS.Map V) k v1 v2 :
  JS.mapSet (JS.mapSet m k v1) k v2 = JS.mapSet m k v2.
Proof.
  induction m as [|[k' v'] m IH]; cbn.
  - now rewrite String.eqb_refl.
  - destruct (String.eqb k' k) eqn:E; cbn; rewrite E; [reflexivity|].
    now rewrite IH.
Qed.

Section WithClasses.

Variables DeepResearch ProgressManager OutputManager Progress Output : Type.
Variable DeepResearch_new :
  Legacy.Options ProgressManager OutputManager -> DeepResearch.
Variable ProgressManager_new : ProgressManager.
Variable OutputManager_new : OutputManager.
Variable getProgress : ProgressManager -> Progress.
Variable getOutput : OutputManager -> Output.

Implicit Types (tasks : Legacy.Tasks DeepResearch ProgressManager OutputManager).

(** What a POST does, by cases. *)
Lemma postResearch_cases tasks reqBody dateNow :
  (Legacy.postResearch Progress Output DeepResearch_new ProgressManager_new
     OutputManager_new tasks reqBody dateNow
   = ({| Legacy.statusCode := 500; Legacy.body := Legacy.FailedToStart _ _ |},
      tasks, None) /\ reqBody = JS.Null) \/
  (Legacy.postResearch Progress Output DeepResearch_new ProgressManager_new
     OutputManager_new tasks reqBody dateNow
   = ({| Legacy.statusCode := 400; Legacy.body := Legacy.QueryRequired _ _ |},
      tasks, None) /\
   Legacy.truthy (Legacy.property reqBody "query") = false) \/
  (exists q task,
     Legacy.property reqBody "query" = Some q /\
     Legacy.truthy (Some q) = true /\
     Legacy.status task = None /\
     Legacy.error task = None /\
     Legacy.postResearch Progress Output DeepResearch_new ProgressManager_new
       OutputManager_new tasks reqBody dateNow
     = (Legacy.json
          (Legacy.Started _ _ (Legacy.makeTaskId dateNow) q
             (Legacy.orElse (Legacy.property reqBody "depth") (JS.Num (JS.of_Z 3)))
             (Legacy.orElse (Legacy.property reqBody "breadth") (JS.Num (JS.of_Z 3)))),
        JS.mapSet tasks (Legacy.makeTaskId dateNow) task,
        Some (Legacy.makeTaskId dateNow))).
Proof.
  destruct reqBody as [| | | | |props]; cbn [Legacy.postResearch Legacy.property];
    try (right; left; split; reflexivity).
  - left. auto.
  - destruct (JS.get props "query") as [q|] eqn:Eq.
    + destruct (Legacy.truthy (Some q)) eqn:Et.
      * right. right. exists q. eexists. repeat split; try reflexivity; auto.
      * right. left. auto.
    + right. left. auto.
Qed.

Lemma step_failedOrUnset tasks ev :
  Forall (@Legacy.failedOrUnset _ _ _) (JS.mapValues tasks) ->
  Forall (@Legacy.failedOrUnset _ _ _)
    (JS.mapValues (Legacy.step Progress Output DeepResearch_new
                     ProgressManager_new OutputManager_new tasks ev)).
Proof.
  intros Hall. destruct ev as [reqBody dateNow|id| |id|id e]; cbn [Legacy.step]; auto.
  - destruct (postResearch_cases tasks reqBody dateNow)
      as [[-> _]|[[-> _]|(q & task & _ & _ & Hs & _ & ->)]]; cbn [fst snd]; auto.
    apply JSFacts.Forall_mapSet; auto. now left.
  - unfold Legacy.onRejected. destruct (JS.mapGet tasks id); auto.
    apply JSFacts.Forall_mapSet; auto. now right.
Qed.

(** A task that no rejection has reached has no status of its own. *)
Lemma step_unset tasks ev taskId :
  (forall e, ev <> Legacy.Rejected taskId e) ->
  (forall t, JS.mapGet tasks taskId = Some t -> Legacy.status t = None) ->
  forall t,
    JS.mapGet (Legacy.step Progress Output DeepResearch_new ProgressManager_new
                 OutputManager_new tasks ev) taskId = Some t ->
    Legacy.status t = None.
Proof.
  intros Hev Hold t.
  destruct ev as [reqBody dateNow|id| |id|id e]; cbn [Legacy.step]; auto.
  - destruct (postResearch_cases tasks reqBody dateNow)
      as [[-> _]|[[-> _]|(q & task & _ & _ & Hs & _ & ->)]]; cbn [fst snd]; auto.
    destruct (string_dec (Legacy.makeTaskId dateNow) taskId) as [<-|Hne].
    + rewrite JSFacts.mapGet_mapSet_same. intros H; inversion H; subst. exact Hs.
    + rewrite JSFacts.mapGet_mapSet_other by exact Hne. auto.
  - unfold Legacy.onRejected. destruct (JS.mapGet tasks id) eqn:E; auto.
    destruct (string_dec id taskId) as [->|Hne].
    + exfalso. apply (Hev e). reflexivity.
    + rewrite JSFacts.mapGet_mapSet_other by exact Hne. auto.
Qed.

Lemma steps_failedOrUnset evs tasks :
  Forall (@Legacy.failedOrUnset _ _ _) (JS.mapValues tasks) ->
  Forall (@Legacy.failedOrUnset _ _ _)
    (JS.mapValues (fold_left (Legacy.step Progress Output DeepResearch_new
                     ProgressManager_new OutputManager_new) evs tasks)).
Proof.
  revert tasks. induction evs as [|ev evs IH]; intros tasks Ht; cbn [fold_left]; auto.
  apply IH. now apply step_failedOrUnset.
Qed.

Lemma steps_unset evs taskId tasks :
  (forall e, ~ In (Legacy.Rejected taskId e) evs) ->
  (forall t, JS.mapGet tasks taskId = Some t -> Legacy.status t = None) ->
  forall t,
    JS.mapGet (fold_left (Legacy.step Progress Output DeepResearch_new
                 ProgressManager_new OutputManager_new) evs tasks) taskId = Some t ->
    Legacy.status t = None.
Proof.
  revert tasks. induction evs as [|ev evs IH]; intros tasks Hno Ht; cbn [fold_left]; auto.
  apply IH.
  - intros e Hin. apply (Hno e). now right.
  - apply step_unset; auto. intros e He. apply (Hno e). left. now symmetry.
Qed.

(** The earlier server never shows a task as completed: what GET shows of a
    stored task is ['running'] or ['failed'], since the fulfilment of a
    run is not handled; and it is ['running'] as long as no rejection was
    handled for the task. *)
Theorem legacy_task_is_never_completed evs taskId :
  let tasks :=
    Legacy.after Progress Output DeepResearch_new ProgressManager_new
      OutputManager_new evs in
  (Legacy.shownState tasks taskId = None /\
   Legacy.getTask getProgress getOutput tasks taskId
   = {| Legacy.statusCode := 404; Legacy.body := Legacy.TaskNotFound _ _ |}) \/
  (exists state failure shownProgress results,
     Legacy.getTask getProgress getOutput tasks taskId
     = Legacy.json (Legacy.TaskView taskId state failure shownProgress results) /\
     Legacy.shownState tasks taskId = Some state /\
     (state = "running" \/ state = "failed") /\
     ((forall e, ~ In (Legacy.Rejected taskId e) evs) -> state = "running")).
Proof.
  intros tasks. subst tasks. unfold Legacy.after.
  pose proof (steps_failedOrUnset evs [] ltac:(constructor)) as Hinv.
  unfold Legacy.shownState, Legacy.getTask.
  destruct (JS.mapGet (fold_left (Legacy.step Progress Output DeepResearch_new
              ProgressManager_new OutputManager_new) evs []) taskId) as [t|] eqn:E.
  - right. do 4 eexists. split; [reflexivity|]. split; [reflexivity|].
    rewrite Forall_forall in Hinv.
    pose proof (Hinv t (JSFacts.mapGet_In _ _ E)) as Hs. split.
    + destruct Hs as [Hs|Hs]; rewrite Hs; cbn; auto.
    + intros Hno.
      assert (Hs0 : Legacy.status t = None).
      { eapply steps_unset; [exact Hno| |exact E]. intros t0 H0. discriminate. }
      rewrite Hs0. reflexivity.
  - left. auto.
Qed.

(** Two requests that read the same millisecond share an identifier: after
    both, the store is what the second alone would have left, and the task
    of the first can no longer be fetched. *)
Theorem legacy_same_millisecond_replaces tasks first second dateNow :
  Legacy.truthy (Legacy.property first "query") = true ->
  Legacy.truthy (Legacy.property second "query") = true ->
  let afterFirst :=
    snd (fst (Legacy.postResearch Progress Output DeepResearch_new
                ProgressManager_new OutputManager_new tasks first dateNow)) in
  snd (Legacy.postResearch Progress Output DeepResearch_new ProgressManager_new
         OutputManager_new tasks first dateNow) = Some (Legacy.makeTaskId dateNow) /\
  snd (Legacy.postResearch Progress Output DeepResearch_new ProgressManager_new
         OutputManager_new afterFirst second dateNow)
    = Some (Legacy.makeTaskId dateNow) /\
  snd (fst (Legacy.postResearch Progress Output DeepResearch_new
              ProgressManager_new OutputManager_new afterFirst second dateNow))
  = snd (fst (Legacy.postResearch Progress Output DeepResearch_new
                ProgressManager_new OutputManager_new tasks second dateNow)).
Proof.
  intros H1 H2 afterFirst. subst afterFirst.
  assert (Hacc : forall tasks0 b, Legacy.truthy (Legacy.property b "query") = true ->
    exists q,
      Legacy.postResearch Progress Output DeepResearch_new ProgressManager_new
        OutputManager_new tasks0 b dateNow
      = (Legacy.json
           (Legacy.Started _ _ (Legacy.makeTaskId dateNow) q
              (Legacy.orElse (Legacy.property b "depth") (JS.Num (JS.of_Z 3)))
              (Legacy.orElse (Legacy.property b "breadth") (JS.Num (JS.of_Z 3)))),
         JS.mapSet tasks0 (Legacy.makeTaskId dateNow)
           {| Legacy.research :=
                DeepResearch_new
                  {| Legacy.query := q;
                     Legacy.maxDepth :=
                       Legacy.orElse (Legacy.property b "depth") (JS.Num (JS.of_Z 3));
                     Legacy.maxBreadth :=
                       Legacy.orElse (Legacy.property b "breadth") (JS.Num (JS.of_Z 3));
                     Legacy.progressManager := ProgressManager_new;
                     Legacy.outputManager := OutputManager_new |};
              Legacy.progress := ProgressManager_new;
              Legacy.output := OutputManager_new;
              Legacy.status := None;
              Legacy.error := None |},
         Some (Legacy.makeTaskId dateNow))).
  { intros tasks0 b Hb.
    destruct b as [| | | | |props]; cbn [Legacy.property] in Hb; try discriminate.
    cbn [Legacy.postResearch Legacy.property].
    destruct (JS.get props "query") as [q|]; [|discriminate].
    rewrite Hb. exists q. reflexivity. }
  destruct (Hacc tasks first H1) as [q1 E1].
  rewrite E1. cbn [fst snd].
  destruct (Hacc (JS.mapSet tasks (Legacy.makeTaskId dateNow)
              {| Legacy.research :=
                   DeepResearch_new
                     {| Legacy.query := q1;
                        Legacy.maxDepth :=
                          Legacy.orElse (Legacy.property first "depth") (JS.Num (JS.of_Z 3));
                        Legacy.maxBreadth :=
                          Legacy.orElse (Legacy.property first "breadth") (JS.Num (JS.of_Z 3));
                        Legacy.progressManager := ProgressManager_new;
                        Legacy.outputManager := OutputManager_new |};
                 Legacy.progress := ProgressManager_new;
                 Legacy.output := OutputManager_new;
                 Legacy.status := None;
                 Legacy.error := None |}) second H2) as [q2 E2].
  destruct (Hacc tasks second H2) as [q2' E2'].
  rewrite E2, E2'. cbn [fst snd].
  assert (q2 = q2').
  { destruct second as [| | | | |props]; cbn [Legacy.property] in H2; try discriminate.
    cbn [Legacy.postResearch Legacy.property] in E2, E2'.
    destruct (JS.get props "query") as [q|]; [|discriminate].
    rewrite H2 in E2, E2'. inversion E2. inversion E2'. congruence. }
  subst q2'. repeat split. apply mapSet_mapSet.
Qed.

End WithClasses.

Lemma legacy_same_millisecond_replaces_witness :
  Legacy.truthy (Legacy.property Samples.goodBody "query") = true /\
  Legacy.truthy (Legacy.property (JS.Obj [("query", JS.Str "winds")]) "query") = true /\
  snd (fst (Legacy.postResearch unit unit (fun o : Legacy.Options unit unit => o) tt tt
              (snd (fst (Legacy.postResearch unit unit
                           (fun o : Legacy.Options unit unit => o) tt tt []
                           Samples.goodBody 1700000000001)))
              (JS.Obj [("query", JS.Str "winds")]) 1700000000001))
  = snd (fst (Legacy.postResearch unit unit (fun o : Legacy.Options unit unit => o) tt tt
                [] (JS.Obj [("query", JS.Str "winds")]) 1700000000001)).
Proof.
  assert (H1 : Legacy.truthy (Legacy.property Samples.goodBody "query") = true)
    by reflexivity.
  assert (H2 : Legacy.truthy
                 (Legacy.property (JS.Obj [("query", JS.Str "winds")]) "query") = true)
    by reflexivity.
  split; [exact H1|]. split; [exact H2|].
  exact (proj2 (proj2 (@legacy_same_millisecond_replaces _ unit unit unit unit
                         (fun o : Legacy.Options unit unit => o) tt tt []
                         Samples.goodBody (JS.Obj [("query", JS.Str "winds")])
                         1700000000001 H1 H2))).
Defined.

(** A task whose run was fulfilled still shows as running in the earlier
    server, and one whose run was rejected shows as failed. *)
Example legacy_states :
  let tasks :=
    Legacy.after unit unit (fun o : Legacy.Options unit unit => o) tt tt
      [Legacy.POST_research Samples.goodBody 1; Legacy.Fulfilled "task-1";
       Legacy.POST_research Samples.goodBody 2;
       Legacy.Rejected "task-2" (ErrorObject "no network")] in
  Legacy.shownState tasks "task-1" = Some "running" /\
  Legacy.shownState tasks "task-2" = Some "failed" /\
  Legacy.shownState tasks "task-3" = None.
Proof. repeat split. Qed.

End LegacyFacts.
